(** * Offline-first task manager: task store, sync queue and sync engine

    A shallow embedding of [src/services/taskService.ts],
    [src/services/syncService.ts] and the [POST /sync] handler of
    [src/routes/sync.ts].  The two SQL tables are lists of rows in insertion
    order; every [async] method is a computation in a state-and-exception
    monad over the database, so that a rejected [db.run] or a [TypeError]
    propagates exactly as a rejected promise does through [await]. *)

From Stdlib Require Import List String ZArith Lia Arith Permutation Sorted.
Import ListNotations.
Local Open Scope string_scope.

(** ** Data model (the shapes used through [../types]) *)

Inductive SyncStatus : Type := Pending | Synced | Error.
Inductive Operation : Type := Create | Update | Delete.

(** A JavaScript [Date]: a time value in milliseconds, or an invalid date
    whose [getTime()] is [NaN]. *)
Inductive Date : Type := Valid (ms : Z) | Invalid.

(** [getTime()]: [None] stands for [NaN]. *)
Definition getTime (d : Date) : option Z :=
  match d with Valid ms => Some ms | Invalid => None end.

(** The [>=] of JavaScript on two numbers: false as soon as one is [NaN]. *)
Definition js_ge (a b : option Z) : bool :=
  match a, b with
  | Some x, Some y => (y <=? x)%Z
  | _, _ => false
  end.

Record Task : Type := {
  id : string;
  title : string;
  description : option string;
  completed : bool;
  created_at : Date;
  updated_at : Date;
  is_deleted : bool;
  sync_status : SyncStatus;
  server_id : option string;
  last_synced_at : option Date
}.

(** A row of table [tasks].  Timestamps are stored as text that parses back
    to the instant written; they are kept as that instant.  The integer
    columns [completed] and [is_deleted] only ever hold 0 or 1. *)
Record TaskRow : Type := {
  row_id : string;
  row_title : string;
  row_description : option string;
  row_completed : bool;
  row_created_at : Z;
  row_updated_at : Z;
  row_is_deleted : bool;
  row_sync_status : SyncStatus;
  row_server_id : option string;
  row_last_synced_at : option Z
}.

(** The [Partial<Task>] a caller hands to [createTask] and [updateTask]:
    only these three fields are read. *)
Record TaskInput : Type := {
  in_title : option string;
  in_description : option string;
  in_completed : option bool
}.

(** The snapshot stored (as JSON) in column [data] of a queue entry. *)
Record QueueData : Type := {
  d_id : string;
  d_title : option string;
  d_description : option string;
  d_completed : option bool;
  d_updated_at : Z
}.

(** A row of table [sync_queue]; [sync] maps every row to a [SyncQueueItem]
    with the same fields, so one record serves for both. *)
Record SyncQueueItem : Type := {
  q_id : string;
  task_id : string;
  operation : Operation;
  data : QueueData;
  q_created_at : Z;
  retry_count : nat;
  error_message : option string
}.

Inductive ResultStatus : Type := StatusSuccess | StatusConflict | StatusError.

(** One element of [processed_items] in a [BatchSyncResponse].
    [resolved_data] is a part of the JSON body that [axios] parsed: where the
    type [Task] says [Date], the object holds the text (or the number) the
    remote wrote.  Its [updated_at] is kept here as the instant
    [new Date(...)] makes of that value, [Invalid] when it does not parse; a
    JSON [null] or a missing [updated_at] is not modelled. *)
Record ProcessedItem : Type := {
  client_id : string;
  status : ResultStatus;
  p_server_id : option string;
  resolved_data : option Task;
  p_error : option string
}.

(** One element of [SyncResult['errors']]. *)
Record SyncError : Type := {
  e_task_id : string;
  e_operation : Operation;
  e_error : string;
  e_timestamp : Z
}.

Record SyncResult : Type := {
  success : bool;
  synced_items : nat;
  failed_items : nat;
  errors : list SyncError
}.

(** ** The database and the effects of an [async] method *)

Record Store : Type := {
  tasks : list TaskRow;
  sync_queue : list SyncQueueItem
}.

(** The world a service method runs in: the database, the fate of the coming
    [db.run] calls ([true]: the next write is rejected; an empty script: all
    writes are accepted), and the log of the payloads posted to the remote
    [/batch] endpoint. *)
Record World : Type := {
  db : Store;
  faults : list bool;
  outbox : list (list SyncQueueItem)
}.

(** How an awaited computation ends: a value, a thrown error (its
    [message]), or the model's step budget ran out (a loop that does not
    end). *)
Inductive Outcome (A : Type) : Type :=
| Ok (a : A)
| Thrown (message : string)
| OutOfFuel.
Arguments Ok {A} a.
Arguments Thrown {A} message.
Arguments OutOfFuel {A}.

Definition M (S A : Type) : Type := S -> Outcome A * S.

Definition ret {S A : Type} (a : A) : M S A := fun s => (Ok a, s).

Definition bind {S A B : Type} (m : M S A) (k : A -> M S B) : M S B :=
  fun s =>
    match m s with
    | (Ok a, s') => k a s'
    | (Thrown e, s') => (Thrown e, s')
    | (OutOfFuel, s') => (OutOfFuel, s')
    end.

Definition throw {S A : Type} (message : string) : M S A :=
  fun s => (Thrown message, s).

(** [try { m } catch (err) { handler(err) }]: the state reached when the
    error was thrown is the one the handler starts from. *)
Definition tryCatch {S A : Type} (m : M S A) (handler : string -> M S A) : M S A :=
  fun s =>
    match m s with
    | (Thrown e, s') => handler e s'
    | r => r
    end.

Declare Scope io_scope.
Delimit Scope io_scope with io.
Notation "x <- m ;; k" := (bind m (fun x => k))
  (at level 61, m at next level, right associativity) : io_scope.
Notation "m ;;; k" := (bind m (fun _ => k))
  (at level 61, right associativity) : io_scope.
Local Open Scope io_scope.

(** [await db.run(sql, params)]: consumes one entry of the fault script. *)
Definition dbRun (stmt : Store -> Store) : M World unit :=
  fun w =>
    match faults w with
    | true :: fs =>
        (Thrown "SQLITE_ERROR", {| db := db w; faults := fs; outbox := outbox w |})
    | false :: fs =>
        (Ok tt, {| db := stmt (db w); faults := fs; outbox := outbox w |})
    | [] => (Ok tt, {| db := stmt (db w); faults := []; outbox := outbox w |})
    end.

(** [await db.get(...)] / [await db.all(...)]: a read, which changes
    nothing; reads are taken to succeed. *)
Definition dbGet {A : Type} (query : Store -> A) : M World A :=
  fun w => (Ok (query (db w)), w).

(** ** The SQL statements of the two services *)

(** [SELECT * FROM tasks WHERE id = ?] through [db.get]: the first row. *)
Definition selectTask (i : string) (s : Store) : option TaskRow :=
  find (fun r => String.eqb (row_id r) i) (tasks s).

(** [UPDATE tasks SET ... WHERE id = ?]. *)
Definition updateTasksWhere (i : string) (f : TaskRow -> TaskRow) (s : Store) : Store :=
  {| tasks := map (fun r => if String.eqb (row_id r) i then f r else r) (tasks s);
     sync_queue := sync_queue s |}.

(** Modelled from the spec: the declaration of table [tasks] (in
    [src/db/database.ts]) is not among the sources.  [server_id] is the
    optional identifier the remote assigns once it has accepted the task
    (section 3): a row that was just inserted has none. *)
Definition new_row_server_id : option string := None.

(** Modelled from the spec: the declaration of table [tasks] is not among
    the sources.  [last_synced_at] is the optional timestamp of the last
    successful reconciliation (section 3): a row that was just inserted has
    none. *)
Definition new_row_last_synced_at : option Z := None.

(** Modelled from the spec: the declaration of table [sync_queue] (in
    [src/db/database.ts]) is not among the sources.  [created_at] of an
    entry is its enqueue timestamp (section 3). *)
Definition new_entry_created_at (now : Z) : Z := now.

(** Modelled from the spec: the declaration of table [sync_queue] is not
    among the sources.  [retry_count] starts at 0 (section 3). *)
Definition new_entry_retry_count : nat := 0.

(** Modelled from the spec: the declaration of table [sync_queue] is not
    among the sources.  [error_message] is the last observed failure
    (section 3): a new entry has none. *)
Definition new_entry_error_message : option string := None.

(** [INSERT INTO tasks (id, title, description, completed, created_at,
    updated_at, is_deleted, sync_status) VALUES (...)]; the two columns the
    statement leaves out take the values of a new row.  The ids come from
    [uuidv4()]; a clash with a stored id is not modelled apart from the
    write being rejected. *)
Definition insertTask (i t : string) (d : option string) (c : bool) (created updated : Z)
    (del : bool) (st : SyncStatus) (s : Store) : Store :=
  {| tasks := tasks s ++
       [ {| row_id := i; row_title := t; row_description := d; row_completed := c;
            row_created_at := created; row_updated_at := updated;
            row_is_deleted := del; row_sync_status := st;
            row_server_id := new_row_server_id;
            row_last_synced_at := new_row_last_synced_at |} ];
     sync_queue := sync_queue s |}.

(** [INSERT INTO sync_queue (id, task_id, operation, data) VALUES (...)];
    the columns the statement leaves out take the values of a new entry. *)
Definition insertQueue (qid tid : string) (op : Operation) (d : QueueData) (now : Z)
    (s : Store) : Store :=
  {| tasks := tasks s;
     sync_queue := sync_queue s ++
       [ {| q_id := qid; task_id := tid; operation := op; data := d;
            q_created_at := new_entry_created_at now;
            retry_count := new_entry_retry_count;
            error_message := new_entry_error_message |} ] |}.

(** The [SET] clauses of the [UPDATE tasks] statements, each as the change it
    makes to a row it applies to. *)

(** [SET title = ?, description = ?, completed = ?, updated_at = ?,
    sync_status = 'pending'] ([updateTask]). *)
Definition setUpdated (t : string) (d : option string) (c : bool) (now : Z)
    (r : TaskRow) : TaskRow :=
  {| row_id := row_id r; row_title := t; row_description := d;
     row_completed := c; row_created_at := row_created_at r;
     row_updated_at := now; row_is_deleted := row_is_deleted r;
     row_sync_status := Pending; row_server_id := row_server_id r;
     row_last_synced_at := row_last_synced_at r |}.

(** [SET is_deleted = 1, updated_at = ?, sync_status = 'pending']
    ([deleteTask]). *)
Definition setDeleted (now : Z) (r : TaskRow) : TaskRow :=
  {| row_id := row_id r; row_title := row_title r;
     row_description := row_description r;
     row_completed := row_completed r; row_created_at := row_created_at r;
     row_updated_at := now; row_is_deleted := true;
     row_sync_status := Pending; row_server_id := row_server_id r;
     row_last_synced_at := row_last_synced_at r |}.

(** [SET sync_status = 'synced', server_id = COALESCE(?, server_id),
    last_synced_at = CURRENT_TIMESTAMP] ([updateSyncStatus]). *)
Definition setSynced (serverId : option string) (now : Z) (r : TaskRow) : TaskRow :=
  {| row_id := row_id r; row_title := row_title r;
     row_description := row_description r;
     row_completed := row_completed r;
     row_created_at := row_created_at r;
     row_updated_at := row_updated_at r;
     row_is_deleted := row_is_deleted r;
     row_sync_status := Synced;
     row_server_id := match serverId with Some x => Some x | None => row_server_id r end;
     row_last_synced_at := Some now |}.

(** [SET sync_status = 'error'] ([updateSyncStatus]). *)
Definition setError (r : TaskRow) : TaskRow :=
  {| row_id := row_id r; row_title := row_title r;
     row_description := row_description r;
     row_completed := row_completed r;
     row_created_at := row_created_at r;
     row_updated_at := row_updated_at r;
     row_is_deleted := row_is_deleted r;
     row_sync_status := Error;
     row_server_id := row_server_id r;
     row_last_synced_at := row_last_synced_at r |}.

(** [SET title = ?, description = ?, completed = ?, updated_at = ?,
    sync_status = 'synced', server_id = ?, last_synced_at = CURRENT_TIMESTAMP]
    ([sync], on a resolved conflict). *)
Definition setResolved (resolved : Task) (updatedIso : Z) (serverId : option string)
    (now : Z) (r : TaskRow) : TaskRow :=
  {| row_id := row_id r; row_title := title resolved;
     row_description := description resolved;
     row_completed := completed resolved;
     row_created_at := row_created_at r;
     row_updated_at := updatedIso;
     row_is_deleted := row_is_deleted r;
     row_sync_status := Synced;
     row_server_id := serverId;
     row_last_synced_at := Some now |}.

(** [DELETE FROM sync_queue WHERE task_id = ?]. *)
Definition deleteQueueWhereTask (tid : string) (s : Store) : Store :=
  {| tasks := tasks s;
     sync_queue := filter (fun q => negb (String.eqb (task_id q) tid)) (sync_queue s) |}.

(** [SET retry_count = ?, error_message = ?] ([handleSyncError]). *)
Definition setFailed (count : nat) (msg : string) (q : SyncQueueItem) : SyncQueueItem :=
  {| q_id := q_id q; task_id := task_id q; operation := operation q;
     data := data q; q_created_at := q_created_at q;
     retry_count := count; error_message := Some msg |}.

(** [UPDATE sync_queue SET retry_count = ?, error_message = ? WHERE id = ?]. *)
Definition updateQueueWhereId (qid : string) (count : nat) (msg : string) (s : Store) : Store :=
  {| tasks := tasks s;
     sync_queue :=
       map (fun q => if String.eqb (q_id q) qid then setFailed count msg q else q)
           (sync_queue s) |}.

(** [ORDER BY created_at ASC].  SQL leaves the order of rows of equal
    [created_at] open; here they stay in insertion order. *)
Fixpoint insertByCreatedAt (x : SyncQueueItem) (l : list SyncQueueItem) : list SyncQueueItem :=
  match l with
  | [] => [x]
  | y :: l' =>
      if (q_created_at x <? q_created_at y)%Z then x :: y :: l'
      else y :: insertByCreatedAt x l'
  end.

Definition orderByCreatedAt (l : list SyncQueueItem) : list SyncQueueItem :=
  fold_left (fun acc x => insertByCreatedAt x acc) l [].

(** The order [ORDER BY created_at ASC] asks for. *)
Definition oldestFirst (a b : SyncQueueItem) : Prop :=
  (q_created_at a <= q_created_at b)%Z.

(** [SELECT * FROM sync_queue ORDER BY created_at ASC] through [db.all]. *)
Definition selectQueue (s : Store) : list SyncQueueItem :=
  orderByCreatedAt (sync_queue s).

(** ** TaskService *)

Definition mapRowToTask (row : TaskRow) : Task :=
  {| id := row_id row;
     title := row_title row;
     description := row_description row;
     completed := row_completed row;
     created_at := Valid (row_created_at row);
     updated_at := Valid (row_updated_at row);
     is_deleted := row_is_deleted row;
     sync_status := row_sync_status row;
     server_id := row_server_id row;
     last_synced_at := option_map Valid (row_last_synced_at row) |}.

Definition getTask (i : string) : M World (option Task) :=
  row <- dbGet (selectTask i) ;;
  match row with
  | None => ret None
  | Some r => if row_is_deleted r then ret None else ret (Some (mapRowToTask r))
  end.

Definition orElse {A : Type} (a : option A) (b : A) : A :=
  match a with Some x => x | None => b end.

Definition orElseOpt {A : Type} (a b : option A) : option A :=
  match a with Some x => Some x | None => b end.

(** [dataForQueue] of [createTask]. *)
Definition createData (i t : string) (taskData : TaskInput) (now : Z) : QueueData :=
  {| d_id := i; d_title := Some t; d_description := in_description taskData;
     d_completed := Some (orElse (in_completed taskData) false); d_updated_at := now |}.

(** [createTask(taskData)]; [i] and [queueId] are the two results of
    [uuidv4()], [now] is the clock. *)
Definition createTask (taskData : TaskInput) (i queueId : string) (now : Z)
    : M World (option Task) :=
  match in_title taskData with
  | None => throw "Title is required"
  | Some t =>
      if String.eqb t "" then throw "Title is required"
      else
        let c := orElse (in_completed taskData) false in
        dbRun (insertTask i t (in_description taskData) c now now false Pending) ;;;
        dbRun (insertQueue queueId i Create (createData i t taskData now) now) ;;;
        getTask i
  end.

Definition updateTask (i : string) (updates : TaskInput) (queueId : string) (now : Z)
    : M World (option Task) :=
  existing <- dbGet (selectTask i) ;;
  match existing with
  | None => ret None
  | Some ex =>
      let t := orElse (in_title updates) (row_title ex) in
      let d := orElseOpt (in_description updates) (row_description ex) in
      let c := orElse (in_completed updates) (row_completed ex) in
      dbRun (updateTasksWhere i (setUpdated t d c now)) ;;;
      dbRun (insertQueue queueId i Update
               {| d_id := i; d_title := Some t; d_description := d;
                  d_completed := Some c; d_updated_at := now |} now) ;;;
      getTask i
  end.

Definition deleteTask (i : string) (queueId : string) (now : Z) : M World bool :=
  existing <- dbGet (selectTask i) ;;
  match existing with
  | None => ret false
  | Some _ =>
      dbRun (updateTasksWhere i (setDeleted now)) ;;;
      dbRun (insertQueue queueId i Delete
               {| d_id := i; d_title := None; d_description := None;
                  d_completed := None; d_updated_at := now |} now) ;;;
      ret true
  end.

(** ** SyncService *)

Record BatchSyncResponse : Type := { processed_items : list ProcessedItem }.

(** What [axios.post] does with a request: resolve with the response body, or
    reject (transport error, non-2xx status) with an error message. *)
Inductive HttpReply : Type :=
| Replied (body : BatchSyncResponse)
| Rejected (message : string).

(** The local variables of one [sync()] call next to the world it runs in:
    they keep what was counted when an error is thrown inside [try]. *)
Record Run : Type := {
  world : World;
  synced : nat;
  failed : nat;
  errorList : list SyncError
}.

Definition liftW {A : Type} (m : M World A) : M Run A :=
  fun s =>
    let (r, w') := m (world s) in
    (r, {| world := w'; synced := synced s; failed := failed s;
           errorList := errorList s |}).

(** [synced += 1]. *)
Definition countSynced : M Run unit :=
  fun s => (Ok tt, {| world := world s; synced := synced s + 1; failed := failed s;
                      errorList := errorList s |}).

(** [failed += 1; errors.push(e)]. *)
Definition countFailed (e : SyncError) : M Run unit :=
  fun s => (Ok tt, {| world := world s; synced := synced s; failed := failed s + 1;
                      errorList := errorList s ++ [e] |}).

(** [s || fallback] on a string: the empty string is falsy. *)
Definition orDefault (s fallback : string) : string :=
  if String.eqb s "" then fallback else s.

Definition orDefaultOpt (s : option string) (fallback : string) : string :=
  match s with Some x => orDefault x fallback | None => fallback end.

(** [resolveConflict(localTask, serverTask)]. *)
Definition resolveConflict (localTask serverTask : Task) : Task :=
  let localUpdated := getTime (updated_at localTask) in
  let serverUpdated := getTime (updated_at serverTask) in
  let winner := if js_ge localUpdated serverUpdated then localTask else serverTask in
  winner.

(** [resolved.updated_at.toISOString()] on the task [resolveConflict]
    returned; which of its two arguments that is, is decided by the
    comparison [resolveConflict] makes.  The local task comes from
    [mapRowToTask], which builds [updated_at] with [new Date(...)]: the call
    gives its instant, or throws a [RangeError] on an invalid date.  The
    server's task comes out of the parsed JSON body, where [updated_at] is a
    string or a number and no [Date] object: it has no method [toISOString],
    so the call throws a [TypeError] whenever the server's task is the
    winner. *)
Definition resolvedToISOString {S : Type} (localTask serverTask : Task) : M S Z :=
  if js_ge (getTime (updated_at localTask)) (getTime (updated_at serverTask)) then
    match updated_at localTask with
    | Valid ms => ret ms
    | Invalid => throw "Invalid time value"
    end
  else throw "resolved.updated_at.toISOString is not a function".

(** [parseInt(process.env.SYNC_BATCH_SIZE || '50', 10)], for a variable that
    is unset or holds a natural number. *)
Definition configuredBatchSize (env : option nat) : nat :=
  match env with Some n => n | None => 50 end.

Section SyncService.

(** The remote authority: its answer to the [n]-th [POST /batch] of the
    world's history, given the items posted. *)
Variable remote : nat -> list SyncQueueItem -> HttpReply.
(** [parseInt(process.env.SYNC_BATCH_SIZE || '50', 10)], a natural number. *)
Variable batchSize : nat.
(** The clock ([new Date()], [CURRENT_TIMESTAMP]) during the call. *)
Variable now : Z.

Definition updateSyncStatus (taskId : string) (st : SyncStatus)
    (serverId : option string) : M World unit :=
  match st with
  | Synced =>
      dbRun (updateTasksWhere taskId (setSynced serverId now)) ;;;
      dbRun (deleteQueueWhereTask taskId)
  | _ => dbRun (updateTasksWhere taskId setError)
  end.

Definition handleSyncError (item : SyncQueueItem) (message : string) : M World unit :=
  let newCount := retry_count item + 1 in
  dbRun (updateQueueWhereId (q_id item) newCount message) ;;;
  if (3 <=? newCount)%nat then updateSyncStatus (task_id item) Error None else ret tt.

Definition processBatch (items : list SyncQueueItem) : M World BatchSyncResponse :=
  fun w =>
    let w' := {| db := db w; faults := faults w; outbox := outbox w ++ [items] |} in
    match remote (List.length (outbox w)) items with
    | Replied body => (Ok body, w')
    | Rejected message => (Thrown message, w')
    end.

(** The statement that persists the winner of a conflict. *)
Definition persistResolved (resolved : Task) (updatedIso : Z) (serverId : option string)
    : Store -> Store :=
  updateTasksWhere (id resolved) (setResolved resolved updatedIso serverId now).

(** The body of [for (const processed of resp.processed_items)]. *)
Definition applyProcessed (batch : list SyncQueueItem) (processed : ProcessedItem)
    : M Run unit :=
  match find (fun b => String.eqb (task_id b) (client_id processed)) batch with
  | None => ret tt
  | Some original =>
      match status processed with
      | StatusSuccess =>
          liftW (updateSyncStatus (task_id original) Synced (p_server_id processed)) ;;;
          countSynced
      | StatusConflict =>
          match resolved_data processed with
          | Some serverTask =>
              localTask <- liftW (getTask (task_id original)) ;;
              match localTask with
              | None => throw "Cannot read properties of null (reading 'updated_at')"
              | Some l =>
                  let resolved := resolveConflict l serverTask in
                  updatedIso <- resolvedToISOString l serverTask ;;
                  liftW (dbRun (persistResolved resolved updatedIso
                                  (p_server_id processed))) ;;;
                  liftW (dbRun (deleteQueueWhereTask (id resolved))) ;;;
                  countSynced
              end
          | None =>
              liftW (handleSyncError original "Conflict without resolution data") ;;;
              countFailed {| e_task_id := task_id original;
                             e_operation := operation original;
                             e_error := "Conflict without resolution data";
                             e_timestamp := now |}
          end
      | StatusError =>
          liftW (handleSyncError original (orDefaultOpt (p_error processed) "Unknown error")) ;;;
          countFailed {| e_task_id := task_id original;
                         e_operation := operation original;
                         e_error := orDefaultOpt (p_error processed) "Unknown error";
                         e_timestamp := now |}
      end
  end.

Fixpoint applyAll (batch : list SyncQueueItem) (ps : list ProcessedItem) : M Run unit :=
  match ps with
  | [] => ret tt
  | processed :: rest => applyProcessed batch processed ;;; applyAll batch rest
  end.

(** The body of [catch (err)]: [for (const item of batch)]. *)
Fixpoint failAll (items : list SyncQueueItem) (message : string) : M Run unit :=
  match items with
  | [] => ret tt
  | item :: rest =>
      liftW (handleSyncError item message) ;;;
      countFailed {| e_task_id := task_id item;
                     e_operation := operation item;
                     e_error := orDefault message "Batch failed";
                     e_timestamp := now |} ;;;
      failAll rest message
  end.

(** One turn of the outer [for]: the [try] and its [catch]. *)
Definition syncBatch (batch : list SyncQueueItem) : M Run unit :=
  tryCatch
    (resp <- liftW (processBatch batch) ;;
     applyAll batch (processed_items resp))
    (fun message => failAll batch message).

(** [items.slice(i, j)] for [0 <= i <= j]. *)
Definition slice (i j : nat) (items : list SyncQueueItem) : list SyncQueueItem :=
  firstn (j - i) (skipn i items).

(** [for (let i = ...; i < items.length; i += batchSize)], from [i] on. *)
Fixpoint syncLoop (fuel : nat) (items : list SyncQueueItem) (i : nat) : M Run unit :=
  if (i <? List.length items)%nat then
    match fuel with
    | O => fun s => (OutOfFuel, s)
    | S fuel' =>
        syncBatch (slice i (i + batchSize) items) ;;;
        syncLoop fuel' items (i + batchSize)
    end
  else ret tt.

(** The batches the loop above hands to [syncBatch], in order. *)
Fixpoint batchesFrom (fuel : nat) (items : list SyncQueueItem) (i : nat)
    : list (list SyncQueueItem) :=
  if (i <? List.length items)%nat then
    match fuel with
    | O => []
    | S fuel' =>
        slice i (i + batchSize) items :: batchesFrom fuel' items (i + batchSize)
    end
  else [].

Definition sync (fuel : nat) : M World SyncResult :=
  fun w =>
    let items := selectQueue (db w) in
    let start := {| world := w; synced := 0; failed := 0; errorList := [] |} in
    match syncLoop fuel items 0 start with
    | (Ok _, s) =>
        (Ok {| success := (failed s =? 0)%nat;
               synced_items := synced s;
               failed_items := failed s;
               errors := errorList s |}, world s)
    | (Thrown e, s) => (Thrown e, world s)
    | (OutOfFuel, s) => (OutOfFuel, world s)
    end.

(** ** The [POST /sync] handler of [routes/sync.ts] *)

(** Whether [axios.get(apiUrl/health, {timeout: 5000})] resolves. *)
Variable healthy : bool.

Definition checkConnectivity : M World bool :=
  tryCatch
    ((if healthy then ret tt else throw "Network Error") ;;; ret true)
    (fun _ => ret false).

Inductive HttpResponse : Type :=
| Json200 (result : SyncResult)
| Error503 (error : string)
| Error500 (error : string).

Definition postSync (fuel : nat) : M World HttpResponse :=
  tryCatch
    (online <- checkConnectivity ;;
     if negb online then ret (Error503 "Server unreachable")
     else
       result <- sync fuel ;;
       ret (Json200 result))
    (fun _ => ret (Error500 "Failed to sync")).

End SyncService.

(** ** The read methods of TaskService and [addToSyncQueue] *)

(** [SELECT * FROM tasks WHERE is_deleted = 0]. *)
Definition selectActive (s : Store) : list TaskRow :=
  filter (fun r => negb (row_is_deleted r)) (tasks s).

(** [sync_status IN ('pending','error')]. *)
Definition pendingOrError (st : SyncStatus) : bool :=
  match st with
  | Pending => true
  | Error => true
  | Synced => false
  end.

(** [SELECT * FROM tasks WHERE sync_status IN ('pending','error') AND
    is_deleted = 0]. *)
Definition selectNeedingSync (s : Store) : list TaskRow :=
  filter (fun r => andb (pendingOrError (row_sync_status r)) (negb (row_is_deleted r)))
         (tasks s).

Definition getAllTasks : M World (list Task) :=
  rows <- dbGet selectActive ;;
  ret (map mapRowToTask rows).

Definition getTasksNeedingSync : M World (list Task) :=
  rows <- dbGet selectNeedingSync ;;
  ret (map mapRowToTask rows).

(** [addToSyncQueue(taskId, operation, data)]; [qid] is the result of
    [cryptoRandomId()]. *)
Definition addToSyncQueue (taskId : string) (op : Operation) (d : QueueData)
    (qid : string) (now : Z) : M World unit :=
  dbRun (insertQueue qid taskId op d now).

(** ** The [GET /status] handler of [routes/sync.ts] *)

Record StatusBody : Type := {
  pending_sync_count : nat;
  last_sync_timestamp : option Z;
  is_online : bool;
  sync_queue_size : nat
}.

Inductive StatusReply : Type :=
| StatusJson (body : StatusBody)
| StatusError500 (error : string).

(** [SELECT COUNT( * ) FROM tasks WHERE sync_status IN ('pending','error')]. *)
Definition countPending (s : Store) : nat :=
  List.length (filter (fun r => pendingOrError (row_sync_status r)) (tasks s)).

(** [SELECT MAX(last_synced_at) FROM tasks]: null when no row has one. *)
Definition maxLastSynced (s : Store) : option Z :=
  fold_left (fun acc r =>
               match row_last_synced_at r with
               | None => acc
               | Some x => match acc with
                           | None => Some x
                           | Some a => Some (Z.max a x)
                           end
               end)
            (tasks s) None.

(** [SELECT COUNT( * ) FROM sync_queue]. *)
Definition countQueue (s : Store) : nat := List.length (sync_queue s).

Definition getStatus (healthy : bool) : M World StatusReply :=
  tryCatch
    (pending <- dbGet countPending ;;
     last <- dbGet maxLastSynced ;;
     queueSize <- dbGet countQueue ;;
     online <- checkConnectivity healthy ;;
     ret (StatusJson {| pending_sync_count := pending;
                        last_sync_timestamp := last;
                        is_online := online;
                        sync_queue_size := queueSize |}))
    (fun _ => ret (StatusError500 "Failed to get status")).

(** ** The task routes ([createTaskRouter]) *)

(** A field of a JSON request body as the handlers test it. *)
Inductive JsValue : Type :=
| JUndefined
| JNull
| JBool (b : bool)
| JNumber (n : Z)
| JString (s : string).

(** [!v]. *)
Definition falsy (v : JsValue) : bool :=
  match v with
  | JUndefined => true
  | JNull => true
  | JBool b => negb b
  | JNumber n => (n =? 0)%Z
  | JString s => String.eqb s ""
  end.

Definition isString (v : JsValue) : bool :=
  match v with JString _ => true | _ => false end.

Definition isBoolean (v : JsValue) : bool :=
  match v with JBool _ => true | _ => false end.

Definition isUndefined (v : JsValue) : bool :=
  match v with JUndefined => true | _ => false end.

(** The body of [POST /]: only [title] is tested by the handler; the other
    two fields are taken as the service types them. *)
Record CreateBody : Type := {
  cb_title : JsValue;
  cb_description : option string;
  cb_completed : option bool
}.

(** The body of [PUT /:id]: [title] and [completed] are tested by the
    handler; [description] is taken as the service types it. *)
Record UpdateBody : Type := {
  ub_title : JsValue;
  ub_description : option string;
  ub_completed : JsValue
}.

(** What [toTaskResponse] builds; the three dates are ISO strings, kept as
    the instants they denote. *)
Record TaskResponse : Type := {
  resp_id : string;
  resp_title : string;
  resp_description : option string;
  resp_completed : bool;
  resp_created_at : Z;
  resp_updated_at : Z;
  resp_is_deleted : bool;
  resp_sync_status : SyncStatus;
  resp_server_id : option string;
  resp_last_synced_at : option Z
}.

Inductive TaskReply : Type :=
| Reply200 (body : TaskResponse)
| Reply200List (body : list TaskResponse)
| Reply201 (body : TaskResponse)
| Reply204
| Reply400 (error : string)
| Reply404 (error : string)
| Reply404At (error : string) (timestamp : Z) (path : string)
| Reply500 (error : string).

(** [new Date(d).toISOString()]: a [RangeError] on an invalid date. *)
Definition toISOString (d : Date) : M World Z :=
  match d with
  | Valid ms => ret ms
  | Invalid => throw "Invalid time value"
  end.

Definition toTaskResponse (task : Task) : M World TaskResponse :=
  c <- toISOString (created_at task) ;;
  u <- toISOString (updated_at task) ;;
  l <- match last_synced_at task with
       | Some d => x <- toISOString d ;; ret (Some x)
       | None => ret None
       end ;;
  ret {| resp_id := id task;
         resp_title := title task;
         resp_description := description task;
         resp_completed := completed task;
         resp_created_at := c;
         resp_updated_at := u;
         resp_is_deleted := is_deleted task;
         resp_sync_status := sync_status task;
         resp_server_id := server_id task;
         resp_last_synced_at := l |}.

(** [tasks.map(toTaskResponse)]. *)
Fixpoint toTaskResponses (l : list Task) : M World (list TaskResponse) :=
  match l with
  | [] => ret []
  | task :: rest =>
      r <- toTaskResponse task ;;
      rs <- toTaskResponses rest ;;
      ret (r :: rs)
  end.

(** [toTaskResponse(task)] on the result of a service call that may be
    null: reading [task.id] of null throws. *)
Definition toTaskResponseOf (task : option Task) : M World TaskResponse :=
  match task with
  | Some t => toTaskResponse t
  | None => throw "Cannot read properties of null (reading 'id')"
  end.

(** [GET /]. *)
Definition listTasksRoute : M World TaskReply :=
  tryCatch
    (all <- getAllTasks ;;
     body <- toTaskResponses all ;;
     ret (Reply200List body))
    (fun _ => ret (Reply500 "Failed to fetch tasks")).

(** [GET /:id]; [path] is [req.path]. *)
Definition getTaskRoute (i path : string) (now : Z) : M World TaskReply :=
  tryCatch
    (task <- getTask i ;;
     match task with
     | None => ret (Reply404At "Task not found" now path)
     | Some t => body <- toTaskResponse t ;; ret (Reply200 body)
     end)
    (fun _ => ret (Reply500 "Failed to fetch task")).

(** [POST /]. *)
Definition createTaskRoute (body : CreateBody) (i queueId : string) (now : Z)
    : M World TaskReply :=
  tryCatch
    (if orb (falsy (cb_title body)) (negb (isString (cb_title body)))
     then ret (Reply400 "title is required")
     else
       task <- createTask {| in_title := match cb_title body with
                                         | JString s => Some s
                                         | _ => None
                                         end;
                             in_description := cb_description body;
                             in_completed := cb_completed body |} i queueId now ;;
       resp <- toTaskResponseOf task ;;
       ret (Reply201 resp))
    (fun _ => ret (Reply500 "Failed to create task")).

(** [PUT /:id]. *)
Definition updateTaskRoute (i : string) (updates : UpdateBody) (queueId : string) (now : Z)
    : M World TaskReply :=
  tryCatch
    (if andb (negb (isUndefined (ub_completed updates)))
             (negb (isBoolean (ub_completed updates)))
     then ret (Reply400 "completed must be a boolean")
     else if andb (negb (isUndefined (ub_title updates)))
                  (negb (isString (ub_title updates)))
     then ret (Reply400 "title must be a string")
     else
       updated <- updateTask i {| in_title := match ub_title updates with
                                              | JString s => Some s
                                              | _ => None
                                              end;
                                  in_description := ub_description updates;
                                  in_completed := match ub_completed updates with
                                                  | JBool b => Some b
                                                  | _ => None
                                                  end |} queueId now ;;
       match updated with
       | None => ret (Reply404 "Task not found")
       | Some t => resp <- toTaskResponse t ;; ret (Reply200 resp)
       end)
    (fun _ => ret (Reply500 "Failed to update task")).

(** [DELETE /:id]. *)
Definition deleteTaskRoute (i queueId : string) (now : Z) : M World TaskReply :=
  tryCatch
    (ok <- deleteTask i queueId now ;;
     if negb ok then ret (Reply404 "Task not found") else ret Reply204)
    (fun _ => ret (Reply500 "Failed to delete task")).

(** ** The posts of a run, as the remote takes them *)



(** ** What the world holds about one task *)


(** [SELECT * FROM tasks WHERE id = t]. *)
Definition rowsOf (t : string) (w : World) : list TaskRow :=
  filter (fun r => String.eqb (row_id r) t) (tasks (db w)).




(** The state of a run, started in [w0], in which the tasks of [done] have
    been reported as successes so far: their entries are gone from the
    queue, their rows are synced at the current time, and the rows of every
    other task are as in [w0]. *)
Definition handled (now : Z) (w0 : World) (done : list string) (w : World) : Prop :=
  faults w = [] /\
  sync_queue (db w) =
    filter (fun q => negb (existsb (String.eqb (task_id q)) done)) (sync_queue (db w0)) /\
  (forall r, In r (tasks (db w)) -> existsb (String.eqb (row_id r)) done = true ->
             row_sync_status r = Synced /\ row_last_synced_at r = Some now) /\
  (forall t, existsb (String.eqb t) done = false -> rowsOf t w = rowsOf t w0).

(** The body [toTaskResponse] builds for the task read from a stored row. *)
Definition rowResponse (r : TaskRow) : TaskResponse :=
  {| resp_id := row_id r; resp_title := row_title r;
     resp_description := row_description r; resp_completed := row_completed r;
     resp_created_at := row_created_at r; resp_updated_at := row_updated_at r;
     resp_is_deleted := row_is_deleted r; resp_sync_status := row_sync_status r;
     resp_server_id := row_server_id r;
     resp_last_synced_at := row_last_synced_at r |}.

(** What identifies a task row and is never rewritten by a sync run. *)
Definition rowShape (r : TaskRow) : string * Z * bool :=
  (row_id r, row_created_at r, row_is_deleted r).

(** What a queue entry was enqueued with. *)
Definition entryPayload (q : SyncQueueItem) : string * string * Operation * QueueData * Z :=
  (q_id q, task_id q, operation q, data q, q_created_at q).

(** Store [s'] has the task rows of [s], one for one, with their id, creation
    time and deletion flag, and no queue entry that [s] did not have with the
    same payload. *)
Definition keepsShape (s s' : Store) : Prop :=
  map rowShape (tasks s') = map rowShape (tasks s) /\
  (forall q', In q' (sync_queue s') ->
              exists q, In q (sync_queue s) /\ entryPayload q' = entryPayload q) /\
  List.length (sync_queue s') <= List.length (sync_queue s).

(** ** Concrete stores and answers used by the examples below *)

Module Examples.

Definition emptyWorld : World :=
  {| db := {| tasks := []; sync_queue := [] |}; faults := []; outbox := [] |}.

Definition milk : TaskInput :=
  {| in_title := Some "Buy milk"; in_description := None; in_completed := None |}.

Definition rename : TaskInput :=
  {| in_title := Some "Buy bread"; in_description := None; in_completed := None |}.

Definition rowA (deleted : bool) (st : SyncStatus) : TaskRow :=
  {| row_id := "A"; row_title := "Buy milk"; row_description := None;
     row_completed := false; row_created_at := 100; row_updated_at := 100;
     row_is_deleted := deleted; row_sync_status := st;
     row_server_id := None; row_last_synced_at := None |}.

Definition rowB : TaskRow :=
  {| row_id := "B"; row_title := "Call home"; row_description := None;
     row_completed := false; row_created_at := 110; row_updated_at := 110;
     row_is_deleted := false; row_sync_status := Pending;
     row_server_id := None; row_last_synced_at := None |}.

Definition entry (qid tid : string) (op : Operation) (at_ : Z) (n : nat) : SyncQueueItem :=
  {| q_id := qid; task_id := tid; operation := op;
     data := {| d_id := tid; d_title := None; d_description := None;
                d_completed := None; d_updated_at := at_ |};
     q_created_at := at_; retry_count := n; error_message := None |}.

(** A store holding the soft-deleted task A and nothing queued. *)
Definition deletedWorld : World :=
  {| db := {| tasks := [rowA true Synced]; sync_queue := [] |};
     faults := []; outbox := [] |}.

(** The live task A with its [create] entry. *)
Definition oneTaskWorld : World :=
  {| db := {| tasks := [rowA false Pending];
              sync_queue := [entry "q1" "A" Create 100 0] |};
     faults := []; outbox := [] |}.

(** The database rejects the second write it is asked for. *)
Definition secondWriteFails : World :=
  {| db := {| tasks := []; sync_queue := [] |}; faults := [false; true]; outbox := [] |}.

Definition firstWriteFails : World :=
  {| db := {| tasks := []; sync_queue := [] |}; faults := [true]; outbox := [] |}.

Definition taskLocal : Task :=
  {| id := "A"; title := "local"; description := None; completed := false;
     created_at := Valid 1; updated_at := Valid 10; is_deleted := false;
     sync_status := Pending; server_id := None; last_synced_at := None |}.

Definition taskRemote (at_ : Z) : Task :=
  {| id := "A"; title := "remote"; description := None; completed := true;
     created_at := Valid 1; updated_at := Valid at_; is_deleted := false;
     sync_status := Synced; server_id := Some "srv-1"; last_synced_at := None |}.

Definition errorResult (cid msg : string) : ProcessedItem :=
  {| client_id := cid; status := StatusError; p_server_id := None;
     resolved_data := None; p_error := Some msg |}.

Definition conflictResult (cid : string) (d : option Task) : ProcessedItem :=
  {| client_id := cid; status := StatusConflict; p_server_id := Some "srv-1";
     resolved_data := d; p_error := None |}.

Definition successResult (cid sid : string) : ProcessedItem :=
  {| client_id := cid; status := StatusSuccess; p_server_id := Some sid;
     resolved_data := None; p_error := None |}.

(** A remote that answers every post with the same results. *)
Definition answering (ps : list ProcessedItem) : nat -> list SyncQueueItem -> HttpReply :=
  fun _ _ => Replied {| processed_items := ps |}.

(** A remote that rejects every post. *)
Definition rejecting (msg : string) : nat -> list SyncQueueItem -> HttpReply :=
  fun _ _ => Rejected msg.


(** Task A was created and then updated before any sync: two entries. *)
Definition twoEntriesWorld : World :=
  {| db := {| tasks := [rowA false Pending];
              sync_queue := [entry "q1" "A" Create 100 0; entry "q2" "A" Update 200 0] |};
     faults := []; outbox := [] |}.

(** Task A was deleted locally (its [delete] is queued); task B was
    updated. *)
Definition deletedAndLiveWorld : World :=
  {| db := {| tasks := [rowA true Pending; rowB];
              sync_queue := [entry "q1" "A" Delete 100 0; entry "q2" "B" Update 200 0] |};
     faults := []; outbox := [] |}.

(** Three entries of three tasks, queued out of [created_at] order. *)
Definition threeEntriesWorld : World :=
  {| db := {| tasks := [rowA false Pending; rowB];
              sync_queue := [entry "q2" "B" Update 200 0; entry "q1" "A" Create 100 0;
                             entry "q3" "C" Update 300 2] |};
     faults := []; outbox := [] |}.

End Examples.

(** * Properties *)

Local Open Scope list_scope.

(** ** Running a computation step by step *)

Lemma bind_ok {S A B : Type} (m : M S A) (k : A -> M S B) (s s' : S) (a : A) :
  m s = (Ok a, s') -> bind m k s = k a s'.
Proof. intros H. unfold bind. now rewrite H. Qed.

Lemma bind_thrown {S A B : Type} (m : M S A) (k : A -> M S B) (s s' : S) (e : string) :
  m s = (Thrown e, s') -> bind m k s = (Thrown e, s').
Proof. intros H. unfold bind. now rewrite H. Qed.

Lemma dbRun_accepted (stmt : Store -> Store) (w : World) :
  faults w = [] ->
  dbRun stmt w = (Ok tt, {| db := stmt (db w); faults := []; outbox := outbox w |}).
Proof. intros H. unfold dbRun. now rewrite H. Qed.

(** ** Conflict resolver *)

(** C1. The resolver returns the local task when its [updated_at] is greater
    than or equal to the remote one (a tie goes to the local task) and the
    remote task otherwise; the result is one of the two arguments as it was
    given, and the function is pure. *)
Theorem resolveConflict_last_write_wins (localTask serverTask : Task) :
  (resolveConflict localTask serverTask = localTask \/
   resolveConflict localTask serverTask = serverTask) /\
  (forall a b : Z,
      updated_at localTask = Valid a -> updated_at serverTask = Valid b ->
      ((b <= a)%Z -> resolveConflict localTask serverTask = localTask) /\
      ((a < b)%Z -> resolveConflict localTask serverTask = serverTask)) /\
  (js_ge (getTime (updated_at localTask)) (getTime (updated_at serverTask)) = false ->
   resolveConflict localTask serverTask = serverTask).
Proof.
  unfold resolveConflict. split; [| split].
  - destruct (js_ge _ _); [now left | now right].
  - intros a b Hl Hs. rewrite Hl, Hs. simpl.
    destruct (Z.leb_spec b a); split; intros; try reflexivity; lia.
  - intros Hge. now rewrite Hge.
Qed.

Lemma resolveConflict_last_write_wins_witness :
  resolveConflict Examples.taskLocal (Examples.taskRemote 10) = Examples.taskLocal /\
  resolveConflict Examples.taskLocal (Examples.taskRemote 11) = Examples.taskRemote 11.
Proof.
  pose proof (resolveConflict_last_write_wins Examples.taskLocal (Examples.taskRemote 10)) as H1.
  pose proof (resolveConflict_last_write_wins Examples.taskLocal (Examples.taskRemote 11)) as H2.
  destruct H1 as [_ [H1 _]]. destruct H2 as [_ [H2 _]].
  split.
  - apply (proj1 (H1 10%Z 10%Z eq_refl eq_refl)). lia.
  - apply (proj2 (H2 10%Z 11%Z eq_refl eq_refl)). lia.
Defined.

(** ** Local task store *)

Lemma dbRun_ok (stmt : Store -> Store) (w : World) :
  nth 0 (faults w) false = false ->
  dbRun stmt w = (Ok tt, {| db := stmt (db w); faults := tl (faults w); outbox := outbox w |}).
Proof.
  unfold dbRun. destruct (faults w) as [|[] fs]; simpl; intros H; try discriminate; reflexivity.
Qed.

Lemma dbRun_fail (stmt : Store -> Store) (w : World) :
  nth 0 (faults w) false = true ->
  dbRun stmt w = (Thrown "SQLITE_ERROR",
                  {| db := db w; faults := tl (faults w); outbox := outbox w |}).
Proof.
  unfold dbRun. destruct (faults w) as [|[] fs]; simpl; intros H; try discriminate; reflexivity.
Qed.

Lemma nth_1_tl (fs : list bool) : nth 0 (tl fs) false = nth 1 fs false.
Proof. destruct fs as [|b [|c fs]]; reflexivity. Qed.

Lemma find_app_fresh {A : Type} (f : A -> bool) (l : list A) (x : A) :
  (forall y, In y l -> f y = false) ->
  find f (l ++ [x]) = if f x then Some x else None.
Proof.
  induction l as [|y l IH]; simpl; intros H.
  - reflexivity.
  - rewrite (H y (or_introl eq_refl)). apply IH. intros z Hz. apply H. now right.
Qed.

Lemma find_update (i : string) (g : TaskRow -> TaskRow) (l : list TaskRow) :
  (forall r, row_id (g r) = row_id r) ->
  find (fun r => String.eqb (row_id r) i)
       (map (fun r => if String.eqb (row_id r) i then g r else r) l)
  = option_map g (find (fun r => String.eqb (row_id r) i) l).
Proof.
  intros Hg. induction l as [|r l IH]; simpl.
  - reflexivity.
  - destruct (String.eqb (row_id r) i) eqn:E; simpl.
    + rewrite Hg, E. reflexivity.
    + rewrite E. exact IH.
Qed.

Lemma in_update (i : string) (g : TaskRow -> TaskRow) (l : list TaskRow) (r' : TaskRow) :
  In r' (map (fun r => if String.eqb (row_id r) i then g r else r) l) ->
  (exists r, In r l /\ row_id r = i /\ r' = g r) \/ (In r' l /\ row_id r' <> i).
Proof.
  rewrite in_map_iff. intros [r [Hr Hin]].
  destruct (String.eqb_spec (row_id r) i) as [E|E].
  - left. exists r. auto.
  - right. subst r'. auto.
Qed.

Lemma getTask_run (i : string) (w : World) :
  getTask i w =
  (Ok match selectTask i (db w) with
      | Some r => if row_is_deleted r then None else Some (mapRowToTask r)
      | None => None
      end, w).
Proof.
  unfold getTask, bind, dbGet, ret.
  destruct (selectTask i (db w)) as [r|]; [destruct (row_is_deleted r)|]; reflexivity.
Qed.

(** For an id that no row carries, the three methods answer null / null /
    false and leave the world as it is. *)
Lemma absent_task_no_mutation (i : string) (updates : TaskInput) (queueId : string)
    (now : Z) (w : World) :
  selectTask i (db w) = None ->
  getTask i w = (Ok None, w) /\
  updateTask i updates queueId now w = (Ok None, w) /\
  deleteTask i queueId now w = (Ok false, w).
Proof.
  intros H. rewrite getTask_run, H.
  unfold updateTask, deleteTask, bind, dbGet, ret. rewrite H. auto.
Qed.

(** A soft-deleted task reads as null. *)
Lemma getTask_soft_deleted (i : string) (w : World) (r : TaskRow) :
  selectTask i (db w) = Some r -> row_is_deleted r = true ->
  getTask i w = (Ok None, w).
Proof. intros H Hd. now rewrite getTask_run, H, Hd. Qed.

(** C9. On a soft-deleted task, [updateTask] answers null and [deleteTask]
    answers true, and both rewrite the task row and append a queue entry:
    the lookup they start from does not look at [is_deleted], which
    [getTask] does. *)
Theorem soft_deleted_task_is_mutated :
  getTask "A" Examples.deletedWorld = (Ok None, Examples.deletedWorld) /\
  updateTask "A" Examples.rename "q9" 500 Examples.deletedWorld =
    (Ok None,
     {| db := {| tasks := [ {| row_id := "A"; row_title := "Buy bread";
                                row_description := None; row_completed := false;
                                row_created_at := 100; row_updated_at := 500;
                                row_is_deleted := true; row_sync_status := Pending;
                                row_server_id := None; row_last_synced_at := None |} ];
                 sync_queue := [ {| q_id := "q9"; task_id := "A"; operation := Update;
                                    data := {| d_id := "A"; d_title := Some "Buy bread";
                                               d_description := None;
                                               d_completed := Some false;
                                               d_updated_at := 500 |};
                                    q_created_at := 500; retry_count := 0;
                                    error_message := None |} ] |};
        faults := []; outbox := [] |}) /\
  deleteTask "A" "q9" 500 Examples.deletedWorld =
    (Ok true,
     {| db := {| tasks := [ {| row_id := "A"; row_title := "Buy milk";
                                row_description := None; row_completed := false;
                                row_created_at := 100; row_updated_at := 500;
                                row_is_deleted := true; row_sync_status := Pending;
                                row_server_id := None; row_last_synced_at := None |} ];
                 sync_queue := [ {| q_id := "q9"; task_id := "A"; operation := Delete;
                                    data := {| d_id := "A"; d_title := None;
                                               d_description := None;
                                               d_completed := None;
                                               d_updated_at := 500 |};
                                    q_created_at := 500; retry_count := 0;
                                    error_message := None |} ] |};
        faults := []; outbox := [] |}).
Proof. repeat split; reflexivity. Qed.

(** What each mutating method does, by the fate of its two writes. *)

Lemma createTask_eval (taskData : TaskInput) (t i queueId : string) (now : Z) (w : World) :
  in_title taskData = Some t -> t <> "" ->
  let c := orElse (in_completed taskData) false in
  let s1 := insertTask i t (in_description taskData) c now now false Pending (db w) in
  let s2 := insertQueue queueId i Create (createData i t taskData now) now s1 in
  createTask taskData i queueId now w =
  if nth 0 (faults w) false
  then (Thrown "SQLITE_ERROR", {| db := db w; faults := tl (faults w); outbox := outbox w |})
  else if nth 1 (faults w) false
  then (Thrown "SQLITE_ERROR", {| db := s1; faults := tl (tl (faults w)); outbox := outbox w |})
  else getTask i {| db := s2; faults := tl (tl (faults w)); outbox := outbox w |}.
Proof.
  intros Ht Hne c s1 s2. unfold createTask. rewrite Ht.
  destruct (String.eqb_spec t "") as [E|_]; [contradiction|].
  fold c.
  destruct (nth 0 (faults w) false) eqn:F0.
  - erewrite bind_thrown; [| now apply dbRun_fail]. reflexivity.
  - erewrite bind_ok; [cbv beta | now apply dbRun_ok].
    destruct (nth 1 (faults w) false) eqn:F1.
    + erewrite bind_thrown; [| apply dbRun_fail; simpl; now rewrite nth_1_tl].
      reflexivity.
    + erewrite bind_ok; [| apply dbRun_ok; simpl; now rewrite nth_1_tl].
      reflexivity.
Qed.

Lemma updateTask_eval (i : string) (updates : TaskInput) (queueId : string) (now : Z)
    (w : World) (ex : TaskRow) :
  selectTask i (db w) = Some ex ->
  let t := orElse (in_title updates) (row_title ex) in
  let d := orElseOpt (in_description updates) (row_description ex) in
  let c := orElse (in_completed updates) (row_completed ex) in
  let s1 := updateTasksWhere i (setUpdated t d c now) (db w) in
  let s2 := insertQueue queueId i Update
              {| d_id := i; d_title := Some t; d_description := d;
                 d_completed := Some c; d_updated_at := now |} now s1 in
  updateTask i updates queueId now w =
  if nth 0 (faults w) false
  then (Thrown "SQLITE_ERROR", {| db := db w; faults := tl (faults w); outbox := outbox w |})
  else if nth 1 (faults w) false
  then (Thrown "SQLITE_ERROR", {| db := s1; faults := tl (tl (faults w)); outbox := outbox w |})
  else getTask i {| db := s2; faults := tl (tl (faults w)); outbox := outbox w |}.
Proof.
  intros Hex t d c s1 s2. unfold updateTask.
  erewrite bind_ok; [cbv beta | unfold dbGet; rewrite Hex; reflexivity].
  fold t d c.
  destruct (nth 0 (faults w) false) eqn:F0.
  - erewrite bind_thrown; [| now apply dbRun_fail]. reflexivity.
  - erewrite bind_ok; [cbv beta | now apply dbRun_ok].
    destruct (nth 1 (faults w) false) eqn:F1.
    + erewrite bind_thrown; [| apply dbRun_fail; simpl; now rewrite nth_1_tl].
      reflexivity.
    + erewrite bind_ok; [| apply dbRun_ok; simpl; now rewrite nth_1_tl].
      reflexivity.
Qed.

Lemma deleteTask_eval (i queueId : string) (now : Z) (w : World) (ex : TaskRow) :
  selectTask i (db w) = Some ex ->
  let s1 := updateTasksWhere i (setDeleted now) (db w) in
  let s2 := insertQueue queueId i Delete
              {| d_id := i; d_title := None; d_description := None;
                 d_completed := None; d_updated_at := now |} now s1 in
  deleteTask i queueId now w =
  if nth 0 (faults w) false
  then (Thrown "SQLITE_ERROR", {| db := db w; faults := tl (faults w); outbox := outbox w |})
  else if nth 1 (faults w) false
  then (Thrown "SQLITE_ERROR", {| db := s1; faults := tl (tl (faults w)); outbox := outbox w |})
  else (Ok true, {| db := s2; faults := tl (tl (faults w)); outbox := outbox w |}).
Proof.
  intros Hex s1 s2. unfold deleteTask.
  erewrite bind_ok; [cbv beta | unfold dbGet; rewrite Hex; reflexivity].
  destruct (nth 0 (faults w) false) eqn:F0.
  - erewrite bind_thrown; [| now apply dbRun_fail]. reflexivity.
  - erewrite bind_ok; [cbv beta | now apply dbRun_ok].
    destruct (nth 1 (faults w) false) eqn:F1.
    + erewrite bind_thrown; [| apply dbRun_fail; simpl; now rewrite nth_1_tl].
      reflexivity.
    + erewrite bind_ok; [| apply dbRun_ok; simpl; now rewrite nth_1_tl].
      reflexivity.
Qed.

(** After [UPDATE tasks SET ... WHERE id = i], the row that [id = i] selects
    is the old one with the [SET] clause applied, and every row of that id
    carries the clause. *)
Lemma selectTask_updated (i : string) (g : TaskRow -> TaskRow) (s : Store) (ex : TaskRow) :
  (forall r, row_id (g r) = row_id r) ->
  selectTask i s = Some ex ->
  selectTask i (updateTasksWhere i g s) = Some (g ex).
Proof.
  intros Hg Hex. unfold selectTask, updateTasksWhere. simpl.
  rewrite find_update by exact Hg. unfold selectTask in Hex. now rewrite Hex.
Qed.

Lemma rows_updated (i : string) (g : TaskRow -> TaskRow) (s : Store) (r' : TaskRow) :
  In r' (tasks (updateTasksWhere i g s)) -> row_id r' = i ->
  exists r, In r (tasks s) /\ r' = g r.
Proof.
  intros Hin Hid. apply in_update in Hin. destruct Hin as [[r [H1 [_ H3]]]|[_ Hne]].
  - eauto.
  - contradiction.
Qed.

Lemma filter_none {A : Type} (f : A -> bool) (l : list A) :
  (forall x, In x l -> f x = false) -> filter f l = [].
Proof.
  induction l as [|x l IH]; simpl; intros H; [reflexivity|].
  rewrite (H x (or_introl eq_refl)). apply IH. intros y Hy. apply H. now right.
Qed.

Lemma setUpdated_id t d c now r : row_id (setUpdated t d c now r) = row_id r.
Proof. reflexivity. Qed.

Lemma setDeleted_id now r : row_id (setDeleted now r) = row_id r.
Proof. reflexivity. Qed.

(** C8. A valid create, with a fresh id, returns a task whose [sync_status]
    is pending and leaves exactly one queue entry referencing it, a [create]
    one.  An update or a delete of an existing task sets [sync_status] to
    pending and appends one entry after the entries already queued, which
    stay as they were. *)
Theorem mutation_enqueues_one_entry (w : World) (i queueId : string) (now : Z) :
  nth 0 (faults w) false = false -> nth 1 (faults w) false = false ->
  (forall (taskData : TaskInput) (t : string),
      in_title taskData = Some t -> t <> "" ->
      selectTask i (db w) = None ->
      (forall q, In q (sync_queue (db w)) -> task_id q <> i) ->
      exists task w' e,
        createTask taskData i queueId now w = (Ok (Some task), w') /\
        id task = i /\ sync_status task = Pending /\
        sync_queue (db w') = sync_queue (db w) ++ [e] /\
        filter (fun q => String.eqb (task_id q) i) (sync_queue (db w')) = [e] /\
        task_id e = i /\ operation e = Create) /\
  (forall (updates : TaskInput) (ex : TaskRow),
      selectTask i (db w) = Some ex ->
      exists res w' r' e,
        updateTask i updates queueId now w = (Ok res, w') /\
        selectTask i (db w') = Some r' /\ row_sync_status r' = Pending /\
        (forall r, In r (tasks (db w')) -> row_id r = i -> row_sync_status r = Pending) /\
        sync_queue (db w') = sync_queue (db w) ++ [e] /\
        task_id e = i /\ operation e = Update) /\
  (forall ex : TaskRow,
      selectTask i (db w) = Some ex ->
      exists w' r' e,
        deleteTask i queueId now w = (Ok true, w') /\
        selectTask i (db w') = Some r' /\ row_sync_status r' = Pending /\
        row_is_deleted r' = true /\
        (forall r, In r (tasks (db w')) -> row_id r = i -> row_sync_status r = Pending) /\
        sync_queue (db w') = sync_queue (db w) ++ [e] /\
        task_id e = i /\ operation e = Delete).
Proof.
  intros F0 F1. repeat split.
  - intros taskData t Ht Hne Hfresh Hq.
    rewrite (createTask_eval taskData t i queueId now w Ht Hne), F0, F1.
    rewrite getTask_run. unfold selectTask. simpl.
    rewrite find_app_fresh.
    2:{ intros y Hy. unfold selectTask in Hfresh.
        exact (find_none _ _ Hfresh y Hy). }
    simpl. rewrite String.eqb_refl. simpl.
    eexists _, _, _. split; [reflexivity|]. simpl. repeat split.
    rewrite filter_app, filter_none.
    + simpl. now rewrite String.eqb_refl.
    + intros q Hin. apply String.eqb_neq. now apply Hq.
  - intros updates ex Hex.
    rewrite (updateTask_eval i updates queueId now w ex Hex), F0, F1.
    rewrite getTask_run.
    eexists _, _, _, _. split; [reflexivity|]. simpl.
    split; [| split; [| split; [| repeat split]]].
    + unfold insertQueue, selectTask. simpl.
      apply (selectTask_updated i _ (db w) ex (setUpdated_id _ _ _ _) Hex).
    + reflexivity.
    + intros r Hin Hid.
      destruct (rows_updated i _ (db w) r Hin Hid) as [r0 [_ ->]]. reflexivity.
  - intros ex Hex.
    rewrite (deleteTask_eval i queueId now w ex Hex), F0, F1.
    eexists _, _, _. split; [reflexivity|]. simpl.
    split; [| split; [| split; [| split; [| repeat split]]]].
    + unfold insertQueue, selectTask. simpl.
      apply (selectTask_updated i _ (db w) ex (setDeleted_id _) Hex).
    + reflexivity.
    + reflexivity.
    + intros r Hin Hid.
      destruct (rows_updated i _ (db w) r Hin Hid) as [r0 [_ ->]]. reflexivity.
Qed.

Lemma mutation_enqueues_one_entry_witness :
  (exists task w' e,
      createTask Examples.milk "A" "q1" 100 Examples.emptyWorld = (Ok (Some task), w') /\
      id task = "A" /\ sync_status task = Pending /\
      sync_queue (db w') = sync_queue (db Examples.emptyWorld) ++ [e] /\
      filter (fun q => String.eqb (task_id q) "A") (sync_queue (db w')) = [e] /\
      task_id e = "A" /\ operation e = Create) /\
  (exists res w' r' e,
      updateTask "A" Examples.rename "q2" 200 Examples.oneTaskWorld = (Ok res, w') /\
      selectTask "A" (db w') = Some r' /\ row_sync_status r' = Pending /\
      (forall r, In r (tasks (db w')) -> row_id r = "A" -> row_sync_status r = Pending) /\
      sync_queue (db w') = sync_queue (db Examples.oneTaskWorld) ++ [e] /\
      task_id e = "A" /\ operation e = Update).
Proof.
  split.
  - apply (proj1 (mutation_enqueues_one_entry Examples.emptyWorld "A" "q1" 100
                    eq_refl eq_refl) Examples.milk "Buy milk").
    + reflexivity.
    + discriminate.
    + reflexivity.
    + intros q [].
  - apply (proj1 (proj2 (mutation_enqueues_one_entry Examples.oneTaskWorld "A" "q2" 200
                           eq_refl eq_refl)) Examples.rename (Examples.rowA false Pending)).
    reflexivity.
Defined.

(** C4, as stated, fails: the two writes of a mutation are two statements,
    not one transaction.  When the database rejects the queue insert of
    [createTask], the call throws, the new task row stays and no queue entry
    references it. *)
Lemma mutation_not_atomic :
  createTask Examples.milk "A" "q1" 100 Examples.secondWriteFails =
    (Thrown "SQLITE_ERROR",
     {| db := {| tasks := [Examples.rowA false Pending]; sync_queue := [] |};
        faults := []; outbox := [] |}) /\
  ~ (forall taskData i queueId now w msg w',
        createTask taskData i queueId now w = (Thrown msg, w') ->
        forall r, In r (tasks (db w')) -> row_id r = i ->
                  exists q, In q (sync_queue (db w')) /\ task_id q = i).
Proof.
  split; [reflexivity|].
  intros H.
  destruct (H Examples.milk "A" "q1" 100%Z Examples.secondWriteFails _ _ eq_refl
              (Examples.rowA false Pending) (or_introl eq_refl) eq_refl) as [q [[] _]].
Qed.

(** C4, amended.  When the database accepts both writes, a mutation rewrites
    (or inserts) the task row with [sync_status] pending and [updated_at]
    the current time and appends exactly one queue entry.  A rejected first
    write (the task row) aborts the call with store and queue untouched, so
    no queue entry is orphaned.  A rejected second write (the queue insert)
    aborts the call after the task row was written: the row stays changed
    and the queue is as before. *)
Theorem mutation_two_writes (w : World) (i queueId : string) (now : Z) :
  (forall (taskData : TaskInput) (t : string),
      in_title taskData = Some t -> t <> "" ->
      (nth 0 (faults w) false = true ->
       exists w', createTask taskData i queueId now w = (Thrown "SQLITE_ERROR", w') /\
                  db w' = db w) /\
      (nth 0 (faults w) false = false -> nth 1 (faults w) false = true ->
       exists w' row,
         createTask taskData i queueId now w = (Thrown "SQLITE_ERROR", w') /\
         tasks (db w') = tasks (db w) ++ [row] /\ row_id row = i /\
         sync_queue (db w') = sync_queue (db w)) /\
      (nth 0 (faults w) false = false -> nth 1 (faults w) false = false ->
       exists res w' row e,
         createTask taskData i queueId now w = (Ok res, w') /\
         tasks (db w') = tasks (db w) ++ [row] /\ row_id row = i /\
         row_sync_status row = Pending /\ row_updated_at row = now /\
         sync_queue (db w') = sync_queue (db w) ++ [e] /\
         task_id e = i /\ operation e = Create)) /\
  (forall (updates : TaskInput) (ex : TaskRow),
      selectTask i (db w) = Some ex ->
      (nth 0 (faults w) false = true ->
       exists w', updateTask i updates queueId now w = (Thrown "SQLITE_ERROR", w') /\
                  db w' = db w) /\
      (nth 0 (faults w) false = false -> nth 1 (faults w) false = true ->
       exists w' r',
         updateTask i updates queueId now w = (Thrown "SQLITE_ERROR", w') /\
         selectTask i (db w') = Some r' /\
         row_sync_status r' = Pending /\ row_updated_at r' = now /\
         sync_queue (db w') = sync_queue (db w)) /\
      (nth 0 (faults w) false = false -> nth 1 (faults w) false = false ->
       exists res w' r' e,
         updateTask i updates queueId now w = (Ok res, w') /\
         selectTask i (db w') = Some r' /\
         row_sync_status r' = Pending /\ row_updated_at r' = now /\
         sync_queue (db w') = sync_queue (db w) ++ [e] /\
         task_id e = i /\ operation e = Update)) /\
  (forall ex : TaskRow,
      selectTask i (db w) = Some ex ->
      (nth 0 (faults w) false = true ->
       exists w', deleteTask i queueId now w = (Thrown "SQLITE_ERROR", w') /\
                  db w' = db w) /\
      (nth 0 (faults w) false = false -> nth 1 (faults w) false = true ->
       exists w' r',
         deleteTask i queueId now w = (Thrown "SQLITE_ERROR", w') /\
         selectTask i (db w') = Some r' /\ row_is_deleted r' = true /\
         row_sync_status r' = Pending /\ row_updated_at r' = now /\
         sync_queue (db w') = sync_queue (db w)) /\
      (nth 0 (faults w) false = false -> nth 1 (faults w) false = false ->
       exists w' r' e,
         deleteTask i queueId now w = (Ok true, w') /\
         selectTask i (db w') = Some r' /\ row_is_deleted r' = true /\
         row_sync_status r' = Pending /\ row_updated_at r' = now /\
         sync_queue (db w') = sync_queue (db w) ++ [e] /\
         task_id e = i /\ operation e = Delete)).
Proof.
  split; [| split].
  - intros taskData t Ht Hne.
    pose proof (createTask_eval taskData t i queueId now w Ht Hne) as E. cbv zeta in E.
    split; [| split].
    + intros F0. rewrite F0 in E. eexists. split; [exact E | reflexivity].
    + intros F0 F1. rewrite F0, F1 in E. eexists _, _. split; [exact E|].
      simpl. repeat split.
    + intros F0 F1. rewrite F0, F1, getTask_run in E. eexists _, _, _, _.
      split; [exact E|]. simpl. repeat split.
  - intros updates ex Hex.
    pose proof (updateTask_eval i updates queueId now w ex Hex) as E. cbv zeta in E.
    split; [| split].
    + intros F0. rewrite F0 in E. eexists. split; [exact E | reflexivity].
    + intros F0 F1. rewrite F0, F1 in E. eexists _, _. split; [exact E|].
      simpl. split; [apply (selectTask_updated i _ (db w) ex (setUpdated_id _ _ _ _) Hex)|].
      repeat split.
    + intros F0 F1. rewrite F0, F1, getTask_run in E. eexists _, _, _, _.
      split; [exact E|]. simpl.
      split; [apply (selectTask_updated i _ (db w) ex (setUpdated_id _ _ _ _) Hex)|].
      repeat split.
  - intros ex Hex.
    pose proof (deleteTask_eval i queueId now w ex Hex) as E. cbv zeta in E.
    split; [| split].
    + intros F0. rewrite F0 in E. eexists. split; [exact E | reflexivity].
    + intros F0 F1. rewrite F0, F1 in E. eexists _, _. split; [exact E|].
      simpl. split; [apply (selectTask_updated i _ (db w) ex (setDeleted_id _) Hex)|].
      repeat split.
    + intros F0 F1. rewrite F0, F1 in E. eexists _, _, _.
      split; [exact E|]. simpl.
      split; [apply (selectTask_updated i _ (db w) ex (setDeleted_id _) Hex)|].
      repeat split.
Qed.

(** ** Sync engine: the steps of a run *)

Section SyncSteps.

Variable remote : nat -> list SyncQueueItem -> HttpReply.
Variable batchSize : nat.
Variable now : Z.

(** The world [handleSyncError] leaves when the database accepts its
    writes. *)
Lemma handleSyncError_run (item : SyncQueueItem) (msg : string) (w : World) :
  faults w = [] ->
  handleSyncError now item msg w =
  (Ok tt,
   {| db := (if (3 <=? retry_count item + 1)%nat
             then updateTasksWhere (task_id item) setError
             else fun s => s)
              (updateQueueWhereId (q_id item) (retry_count item + 1) msg (db w));
      faults := []; outbox := outbox w |}).
Proof.
  intros Hf. unfold handleSyncError.
  erewrite bind_ok; [cbv beta | now apply dbRun_accepted].
  destruct (3 <=? retry_count item + 1)%nat.
  - unfold updateSyncStatus. now rewrite dbRun_accepted.
  - reflexivity.
Qed.

Lemma updateSyncStatus_synced_run (taskId : string) (serverId : option string) (w : World) :
  faults w = [] ->
  updateSyncStatus now taskId Synced serverId w =
  (Ok tt,
   {| db := deleteQueueWhereTask taskId
              (updateTasksWhere taskId (setSynced serverId now) (db w));
      faults := []; outbox := outbox w |}).
Proof.
  intros Hf. unfold updateSyncStatus.
  erewrite bind_ok; [cbv beta | now apply dbRun_accepted].
  now rewrite dbRun_accepted.
Qed.

Lemma liftW_ok {A : Type} (m : M World A) (s : Run) (a : A) (w' : World) :
  m (world s) = (Ok a, w') ->
  liftW m s = (Ok a, {| world := w'; synced := synced s; failed := failed s;
                        errorList := errorList s |}).
Proof. intros H. unfold liftW. now rewrite H. Qed.

Lemma liftW_thrown {A : Type} (m : M World A) (s : Run) (e : string) (w' : World) :
  m (world s) = (Thrown e, w') ->
  liftW m s = (Thrown e, {| world := w'; synced := synced s; failed := failed s;
                            errorList := errorList s |}).
Proof. intros H. unfold liftW. now rewrite H. Qed.

(** A failed outcome, as [sync] records it for the entry [original]. *)
Lemma record_failure_run (original : SyncQueueItem) (msg shown : string) (s : Run) :
  faults (world s) = [] ->
  (liftW (handleSyncError now original msg) ;;;
   countFailed {| e_task_id := task_id original; e_operation := operation original;
                  e_error := shown; e_timestamp := now |}) s =
  (Ok tt,
   {| world := snd (handleSyncError now original msg (world s));
      synced := synced s;
      failed := failed s + 1;
      errorList := errorList s ++
        [ {| e_task_id := task_id original; e_operation := operation original;
             e_error := shown; e_timestamp := now |} ] |}).
Proof.
  intros Hf.
  erewrite bind_ok; [cbv beta | apply liftW_ok; now apply handleSyncError_run].
  rewrite (handleSyncError_run original msg (world s) Hf). reflexivity.
Qed.

(** Whatever a result is, applying it under a database that accepts its
    writes ends (normally or by a throw), keeps the database accepting,
    posts nothing, and counts one error record per failure. *)
Lemma applyProcessed_keeps (batch : list SyncQueueItem) (p : ProcessedItem) (s : Run) :
  faults (world s) = [] ->
  exists r s',
    applyProcessed now batch p s = (r, s') /\ r <> OutOfFuel /\
    faults (world s') = [] /\ outbox (world s') = outbox (world s) /\
    (List.length (errorList s) = failed s -> List.length (errorList s') = failed s').
Proof.
  intros Hf. unfold applyProcessed.
  destruct (find _ batch) as [original|].
  2:{ eexists _, _. split; [reflexivity|]. repeat split; auto. discriminate. }
  destruct (status p).
  - erewrite bind_ok;
      [cbv beta | apply liftW_ok; now apply updateSyncStatus_synced_run].
    eexists _, _. split; [reflexivity|]. simpl. repeat split; auto. discriminate.
  - destruct (resolved_data p) as [serverTask|].
    + erewrite bind_ok; [cbv beta | apply liftW_ok; apply getTask_run].
      destruct (match selectTask (task_id original) (db (world s)) with
                | Some r => if row_is_deleted r then None else Some (mapRowToTask r)
                | None => None
                end) as [l|].
      * unfold bind at 1, resolvedToISOString.
        destruct (js_ge _ _); [destruct (updated_at l) as [ms|] |].
        -- cbn [ret].
           erewrite bind_ok;
             [cbv beta | apply liftW_ok; simpl; now apply dbRun_accepted].
           erewrite bind_ok;
             [cbv beta | apply liftW_ok; simpl; now apply dbRun_accepted].
           eexists _, _. split; [reflexivity|]. simpl. repeat split; auto. discriminate.
        -- eexists _, _. split; [reflexivity|]. simpl. repeat split; auto. discriminate.
        -- eexists _, _. split; [reflexivity|]. simpl. repeat split; auto. discriminate.
      * eexists _, _. split; [reflexivity|]. simpl. repeat split; auto. discriminate.
    + rewrite record_failure_run by exact Hf.
      rewrite (handleSyncError_run original _ (world s) Hf).
      eexists _, _. split; [reflexivity|]. simpl. repeat split; auto; try discriminate.
      intros H. rewrite length_app. simpl. lia.
  - rewrite record_failure_run by exact Hf.
    rewrite (handleSyncError_run original _ (world s) Hf).
    eexists _, _. split; [reflexivity|]. simpl. repeat split; auto; try discriminate.
    intros H. rewrite length_app. simpl. lia.
Qed.

Lemma applyAll_keeps (batch : list SyncQueueItem) (ps : list ProcessedItem) (s : Run) :
  faults (world s) = [] ->
  exists r s',
    applyAll now batch ps s = (r, s') /\ r <> OutOfFuel /\
    faults (world s') = [] /\ outbox (world s') = outbox (world s) /\
    (List.length (errorList s) = failed s -> List.length (errorList s') = failed s').
Proof.
  revert s. induction ps as [|p ps IH]; intros s Hf; simpl.
  - eexists _, _. split; [reflexivity|]. repeat split; auto; try discriminate.
  - destruct (applyProcessed_keeps batch p s Hf) as [r [s1 [E [Hr [Hf1 [Ho1 Hl1]]]]]].
    unfold bind. rewrite E. destruct r as [[]|e|].
    + destruct (IH s1 Hf1) as [r2 [s2 [E2 [Hr2 [Hf2 [Ho2 Hl2]]]]]].
      exists r2, s2. rewrite Ho2, Ho1. repeat split; auto.
    + exists (Thrown e), s1. repeat split; auto; try discriminate.
    + contradiction.
Qed.

(** The [catch] block: every item of the batch goes through
    [handleSyncError] with the error's message, in order, and each adds one
    failure and one error record. *)
Lemma failAll_run (items : list SyncQueueItem) (msg : string) (s : Run) :
  faults (world s) = [] ->
  failAll now items msg s =
  (Ok tt,
   {| world := fold_left (fun w item => snd (handleSyncError now item msg w))
                         items (world s);
      synced := synced s;
      failed := failed s + List.length items;
      errorList := errorList s ++
        map (fun item => {| e_task_id := task_id item;
                            e_operation := operation item;
                            e_error := orDefault msg "Batch failed";
                            e_timestamp := now |}) items |}) /\
  faults (fold_left (fun w item => snd (handleSyncError now item msg w))
                    items (world s)) = [] /\
  outbox (fold_left (fun w item => snd (handleSyncError now item msg w))
                    items (world s)) = outbox (world s).
Proof.
  revert s. induction items as [|item rest IH]; intros s Hf.
  - simpl. rewrite Nat.add_0_r, app_nil_r. destruct s. auto.
  - cbn [failAll].
    erewrite bind_ok; [cbv beta | apply liftW_ok; now apply handleSyncError_run].
    unfold bind at 1. cbn [countFailed].
    match goal with |- context [failAll now rest msg ?s1] =>
      destruct (IH s1) as [E [Hf' Ho']]; [reflexivity|]; rewrite E
    end.
    cbn [world synced failed errorList fold_left List.length map] in *.
    rewrite (handleSyncError_run item msg (world s) Hf). cbn [snd].
    rewrite <- app_assoc. cbn [app].
    replace (failed s + 1 + List.length rest) with (failed s + S (List.length rest)) by lia.
    repeat split; auto.
Qed.

Lemma syncBatch_keeps (batch : list SyncQueueItem) (s : Run) :
  faults (world s) = [] ->
  exists s',
    syncBatch remote now batch s = (Ok tt, s') /\
    faults (world s') = [] /\ outbox (world s') = outbox (world s) ++ [batch] /\
    (List.length (errorList s) = failed s -> List.length (errorList s') = failed s').
Proof.
  intros Hf. unfold syncBatch, tryCatch, bind, liftW, processBatch.
  destruct (remote (List.length (outbox (world s))) batch) as [body|msg].
  - match goal with |- context [applyAll now batch _ ?s1] =>
      destruct (applyAll_keeps batch (processed_items body) s1 Hf)
        as [r [s2 [E [Hr [Hf2 [Ho2 Hl2]]]]]]
    end.
    rewrite E. destruct r as [[]|e|].
    + exists s2. repeat split; auto.
    + destruct (failAll_run batch e s2 Hf2) as [E3 [Hf3 Ho3]]. rewrite E3.
      eexists. split; [reflexivity|]. cbn [world failed errorList].
      rewrite Hf3, Ho3, Ho2. repeat split; auto.
      intros H. rewrite length_app, length_map. specialize (Hl2 H). simpl in Hl2. lia.
    + contradiction.
  - match goal with |- context [failAll now batch msg ?s1] =>
      destruct (failAll_run batch msg s1 Hf) as [E3 [Hf3 Ho3]]; rewrite E3
    end.
    eexists. split; [reflexivity|]. cbn [world failed errorList] in *.
    rewrite Hf3, Ho3. repeat split; auto.
    intros H. rewrite length_app, length_map. lia.
Qed.

End SyncSteps.

(** ** Reading the queue and cutting it into batches *)

Lemma insertByCreatedAt_perm (x : SyncQueueItem) (l : list SyncQueueItem) :
  Permutation (insertByCreatedAt x l) (x :: l).
Proof.
  induction l as [|y l IH]; simpl.
  - apply Permutation_refl.
  - destruct (q_created_at x <? q_created_at y)%Z.
    + apply Permutation_refl.
    + eapply Permutation_trans; [apply perm_skip, IH | apply perm_swap].
Qed.

Lemma orderByCreatedAt_perm (l : list SyncQueueItem) :
  Permutation (orderByCreatedAt l) l.
Proof.
  unfold orderByCreatedAt.
  assert (G : forall acc, Permutation (fold_left (fun a x => insertByCreatedAt x a) l acc)
                                      (acc ++ l)).
  { induction l as [|x l IH]; intros acc; simpl.
    - rewrite app_nil_r. apply Permutation_refl.
    - eapply Permutation_trans; [apply IH|].
      eapply Permutation_trans;
        [apply Permutation_app_tail, insertByCreatedAt_perm|].
      simpl. apply Permutation_middle. }
  apply (G []).
Qed.

Lemma insertByCreatedAt_sorted (x : SyncQueueItem) (l : list SyncQueueItem) :
  StronglySorted oldestFirst l -> StronglySorted oldestFirst (insertByCreatedAt x l).
Proof.
  induction l as [|y l IH]; simpl; intros Hs.
  - constructor; constructor.
  - inversion Hs as [|? ? Hl Hy]; subst.
    destruct (Z.ltb_spec (q_created_at x) (q_created_at y)) as [Hlt|Hge].
    + constructor; [exact Hs|]. constructor.
      * unfold oldestFirst. lia.
      * eapply Forall_impl; [|exact Hy]. unfold oldestFirst. intros a Ha. lia.
    + constructor; [now apply IH|].
      eapply Permutation_Forall; [apply Permutation_sym, insertByCreatedAt_perm|].
      constructor; [exact Hge | exact Hy].
Qed.

Lemma orderByCreatedAt_sorted (l : list SyncQueueItem) :
  StronglySorted oldestFirst (orderByCreatedAt l).
Proof.
  unfold orderByCreatedAt.
  assert (G : forall acc, StronglySorted oldestFirst acc ->
                          StronglySorted oldestFirst
                            (fold_left (fun a x => insertByCreatedAt x a) l acc)).
  { induction l as [|x l IH]; intros acc Hacc; simpl.
    - exact Hacc.
    - apply IH. now apply insertByCreatedAt_sorted. }
  apply G. constructor.
Qed.

Section Batching.

Variable batchSize : nat.

Lemma slice_length (i : nat) (items : list SyncQueueItem) :
  List.length (slice i (i + batchSize) items) = Nat.min batchSize (List.length items - i).
Proof.
  unfold slice. rewrite length_firstn, length_skipn.
  replace (i + batchSize - i) with batchSize by lia. reflexivity.
Qed.

Lemma batchesFrom_step (fuel i : nat) (items : list SyncQueueItem) :
  i < List.length items ->
  batchesFrom batchSize (S fuel) items i =
  slice i (i + batchSize) items :: batchesFrom batchSize fuel items (i + batchSize).
Proof.
  intros H. simpl. destruct (Nat.ltb_spec i (List.length items)); [reflexivity | lia].
Qed.

Lemma batchesFrom_done (fuel i : nat) (items : list SyncQueueItem) :
  List.length items <= i -> batchesFrom batchSize fuel items i = [].
Proof.
  intros H. destruct fuel; simpl;
    destruct (Nat.ltb_spec i (List.length items)); try reflexivity; lia.
Qed.

Hypothesis batchSize_positive : 0 < batchSize.

(** With enough turns, the batches are the consecutive pieces of the item
    list from [i] on, none empty and none longer than the batch size. *)
Lemma batchesFrom_partition (fuel : nat) (items : list SyncQueueItem) (i : nat) :
  List.length items - i <= fuel ->
  List.concat (batchesFrom batchSize fuel items i) = skipn i items /\
  Forall (fun b => 0 < List.length b <= batchSize) (batchesFrom batchSize fuel items i).
Proof.
  revert i. induction fuel as [|fuel IH]; intros i Hfuel.
  - rewrite batchesFrom_done by lia. simpl. split; [|constructor].
    symmetry. apply skipn_all2. lia.
  - destruct (Nat.lt_ge_cases i (List.length items)) as [Hlt|Hge].
    + rewrite batchesFrom_step by exact Hlt.
      destruct (IH (i + batchSize)) as [Hc Hall]; [lia|].
      split.
      * simpl. rewrite Hc. unfold slice.
        replace (i + batchSize - i) with batchSize by lia.
        rewrite Nat.add_comm, <- skipn_skipn. apply firstn_skipn.
      * constructor; [|exact Hall]. rewrite slice_length. lia.
    + rewrite batchesFrom_done by exact Hge. simpl. split; [|constructor].
      symmetry. apply skipn_all2. exact Hge.
Qed.

End Batching.

Lemma batches_of_120_by_50 (items : list SyncQueueItem) :
  List.length items = 120 ->
  map (@List.length SyncQueueItem) (batchesFrom 50 120 items 0) = [50; 50; 20].
Proof.
  intros H.
  rewrite (batchesFrom_step 50 119 0 items) by lia.
  change (0 + 50) with 50.
  rewrite (batchesFrom_step 50 118 50 items) by lia.
  change (50 + 50) with 100.
  rewrite (batchesFrom_step 50 117 100 items) by lia.
  change (100 + 50) with 150.
  rewrite (batchesFrom_done 50 117 150 items) by lia.
  cbn [map]. unfold slice. rewrite !length_firstn, !length_skipn, H. reflexivity.
Qed.

(** ** Sync engine: a whole run *)

Section SyncRun.

Variable remote : nat -> list SyncQueueItem -> HttpReply.
Variable batchSize : nat.
Variable now : Z.
Hypothesis batchSize_positive : 0 < batchSize.

Lemma syncLoop_runs (fuel : nat) (items : list SyncQueueItem) (i : nat) (s : Run) :
  List.length items - i <= fuel ->
  faults (world s) = [] ->
  exists s',
    syncLoop remote batchSize now fuel items i s = (Ok tt, s') /\
    faults (world s') = [] /\
    outbox (world s') = outbox (world s) ++ batchesFrom batchSize fuel items i /\
    (List.length (errorList s) = failed s -> List.length (errorList s') = failed s').
Proof.
  revert i s. induction fuel as [|fuel IH]; intros i s Hfuel Hf.
  - rewrite batchesFrom_done by lia. simpl.
    destruct (Nat.ltb_spec i (List.length items)); [lia|].
    exists s. rewrite app_nil_r. repeat split; auto.
  - destruct (Nat.lt_ge_cases i (List.length items)) as [Hlt|Hge].
    + rewrite batchesFrom_step by exact Hlt. simpl.
      destruct (Nat.ltb_spec i (List.length items)); [|lia].
      destruct (syncBatch_keeps remote now (slice i (i + batchSize) items) s Hf)
        as [s1 [E1 [Hf1 [Ho1 Hl1]]]].
      unfold bind. rewrite E1.
      destruct (IH (i + batchSize) s1) as [s2 [E2 [Hf2 [Ho2 Hl2]]]]; [lia | exact Hf1 |].
      exists s2. rewrite Ho2, Ho1, <- app_assoc. simpl. repeat split; auto.
    + rewrite batchesFrom_done by exact Hge. simpl.
      destruct (Nat.ltb_spec i (List.length items)); [lia|].
      exists s. rewrite app_nil_r. repeat split; auto.
Qed.

(** Under a database that accepts its writes, a run given at least as many
    turns as there are queue entries returns a summary, whatever the remote
    answers: every batch is posted, [success] says whether nothing failed,
    and there is one error record per failure. *)
Lemma sync_runs (fuel : nat) (w : World) :
  List.length (sync_queue (db w)) <= fuel ->
  faults w = [] ->
  exists r w',
    sync remote batchSize now fuel w = (Ok r, w') /\
    faults w' = [] /\
    outbox w' = outbox w ++ batchesFrom batchSize fuel (selectQueue (db w)) 0 /\
    success r = (failed_items r =? 0)%nat /\
    List.length (errors r) = failed_items r.
Proof.
  intros Hfuel Hf. unfold sync.
  destruct (syncLoop_runs fuel (selectQueue (db w)) 0
              {| world := w; synced := 0; failed := 0; errorList := [] |})
    as [s' [E [Hf' [Ho' Hl']]]].
  - unfold selectQueue.
    rewrite (Permutation_length (orderByCreatedAt_perm (sync_queue (db w)))). lia.
  - exact Hf.
  - rewrite E. eexists _, _. split; [reflexivity|]. simpl.
    repeat split; auto.
Qed.

(** C6. A run reads the queue oldest first ([created_at] ascending) and
    posts it to the remote in consecutive batches, one after the other,
    each holding at most [batchSize] entries; 120 entries with the default
    batch size of 50 are posted as three batches of 50, 50 and 20. *)
Theorem sync_batches_oldest_first (w : World) :
  faults w = [] ->
  exists r w' batches,
    sync remote batchSize now (List.length (sync_queue (db w))) w = (Ok r, w') /\
    outbox w' = outbox w ++ batches /\
    List.concat batches = selectQueue (db w) /\
    Permutation (selectQueue (db w)) (sync_queue (db w)) /\
    StronglySorted oldestFirst (selectQueue (db w)) /\
    Forall (fun b => 0 < List.length b <= batchSize) batches /\
    (batchSize = configuredBatchSize None ->
     List.length (sync_queue (db w)) = 120 ->
     map (@List.length SyncQueueItem) batches = [50; 50; 20]).
Proof.
  intros Hf.
  destruct (sync_runs (List.length (sync_queue (db w))) w (le_n _) Hf)
    as [r [w' [E [_ [Ho _]]]]].
  exists r, w', (batchesFrom batchSize (List.length (sync_queue (db w)))
                             (selectQueue (db w)) 0).
  assert (Hlen : List.length (selectQueue (db w)) = List.length (sync_queue (db w))).
  { apply Permutation_length, orderByCreatedAt_perm. }
  destruct (batchesFrom_partition batchSize batchSize_positive
              (List.length (sync_queue (db w))) (selectQueue (db w)) 0) as [Hc Hall].
  { lia. }
  repeat split; auto.
  - apply orderByCreatedAt_perm.
  - apply orderByCreatedAt_sorted.
  - intros Hb H120. rewrite Hb, H120. simpl configuredBatchSize.
    apply batches_of_120_by_50. lia.
Qed.

End SyncRun.

(** ** Sync engine: what each outcome does *)

Section SyncOutcomes.

Variable remote : nat -> list SyncQueueItem -> HttpReply.
Variable batchSize : nat.
Variable now : Z.

(** C5. When the connectivity probe fails, [POST /sync] answers 503
    "Server unreachable" and the world is left as it was: no write was
    asked of the task store or the queue, and nothing was posted. *)
Theorem postSync_unreachable (fuel : nat) (w : World) :
  checkConnectivity false w = (Ok false, w) /\
  postSync remote batchSize now false fuel w = (Ok (Error503 "Server unreachable"), w).
Proof. split; reflexivity. Qed.

Lemma find_task_id (batch : list SyncQueueItem) (cid : string) (original : SyncQueueItem) :
  find (fun b => String.eqb (task_id b) cid) batch = Some original ->
  In original batch /\ task_id original = cid.
Proof.
  intros H. apply find_some in H. destruct H as [Hin He].
  split; [exact Hin | now apply String.eqb_eq].
Qed.

(** C2. A success result marks the task it is matched with as synced,
    sets [server_id] when the result carries one (and keeps the stored one
    otherwise), sets [last_synced_at] to the current time, and deletes
    every queue entry whose [task_id] is that task, whichever entry was
    matched; entries of other tasks stay. *)
Theorem success_outcome (batch : list SyncQueueItem) (p : ProcessedItem)
    (original : SyncQueueItem) (s : Run) :
  faults (world s) = [] ->
  find (fun b => String.eqb (task_id b) (client_id p)) batch = Some original ->
  status p = StatusSuccess ->
  exists s',
    applyProcessed now batch p s = (Ok tt, s') /\
    synced s' = synced s + 1 /\ failed s' = failed s /\ errorList s' = errorList s /\
    task_id original = client_id p /\
    tasks (db (world s')) =
      map (fun r => if String.eqb (row_id r) (client_id p)
                    then setSynced (p_server_id p) now r else r)
          (tasks (db (world s))) /\
    (forall r, In r (tasks (db (world s'))) -> row_id r = client_id p ->
               row_sync_status r = Synced /\ row_last_synced_at r = Some now /\
               (forall sid, p_server_id p = Some sid -> row_server_id r = Some sid)) /\
    sync_queue (db (world s')) =
      filter (fun q => negb (String.eqb (task_id q) (client_id p)))
             (sync_queue (db (world s))) /\
    (forall q, In q (sync_queue (db (world s'))) -> task_id q <> client_id p) /\
    (forall q, In q (sync_queue (db (world s))) -> task_id q <> client_id p ->
               In q (sync_queue (db (world s')))).
Proof.
  intros Hf Hfind Hst.
  destruct (find_task_id batch (client_id p) original Hfind) as [_ Hid].
  unfold applyProcessed. rewrite Hfind, Hst.
  erewrite bind_ok;
    [cbv beta | apply liftW_ok; now apply updateSyncStatus_synced_run].
  eexists. split; [reflexivity|]. simpl. rewrite Hid.
  split; [reflexivity|]. split; [reflexivity|]. split; [reflexivity|].
  split; [reflexivity|]. split; [reflexivity|]. split; [| split; [reflexivity | split]].
  - intros r Hr Hrid. apply in_update in Hr.
    destruct Hr as [[r0 [_ [_ ->]]]|[_ Hne]]; [|contradiction].
    split; [reflexivity|]. split; [reflexivity|].
    intros sid Hsid. simpl. now rewrite Hsid.
  - intros q Hin Heq. apply filter_In in Hin. destruct Hin as [_ Hb].
    rewrite Heq, String.eqb_refl in Hb. discriminate.
  - intros q Hin Hne. apply filter_In. split; [exact Hin|].
    apply String.eqb_neq in Hne. now rewrite Hne.
Qed.

End SyncOutcomes.

(** ** Failure bookkeeping *)

Lemma existsb_ext_in {A : Type} (f h : A -> bool) (l : list A) :
  (forall x, In x l -> f x = h x) -> existsb f l = existsb h l.
Proof.
  induction l as [|x l IH]; simpl; intros H; [reflexivity|].
  rewrite (H x (or_introl eq_refl)), IH; [reflexivity|].
  intros y Hy. apply H. now right.
Qed.

Lemma existsb_never {A : Type} (l : list A) : existsb (fun _ => false) l = false.
Proof. induction l as [|x l IH]; simpl; [reflexivity | exact IH]. Qed.

Lemma find_unique_entry (l : list SyncQueueItem) (q : SyncQueueItem) :
  NoDup (map q_id l) -> In q l ->
  find (fun it => String.eqb (q_id it) (q_id q)) l = Some q.
Proof.
  induction l as [|a l IH]; simpl; intros Hnd Hin; [destruct Hin|].
  inversion Hnd as [|? ? Hnot Hnd']; subst.
  destruct Hin as [->|Hin].
  - now rewrite String.eqb_refl.
  - destruct (String.eqb_spec (q_id a) (q_id q)) as [E|_].
    + exfalso. apply Hnot. rewrite E. now apply in_map.
    + now apply IH.
Qed.

Lemma find_exists {A : Type} (f : A -> bool) (l : list A) (x : A) :
  In x l -> f x = true -> exists y, find f l = Some y.
Proof.
  induction l as [|a l IH]; simpl; intros Hin Hx; [destruct Hin|].
  destruct (f a) eqn:E; [eauto|].
  destruct Hin as [->|Hin]; [congruence | now apply IH].
Qed.

Section FailureBookkeeping.

Variable remote : nat -> list SyncQueueItem -> HttpReply.
Variable now : Z.

Lemma setFailed_ids (n : nat) (msg : string) (q : SyncQueueItem) :
  q_id (setFailed n msg q) = q_id q /\ task_id (setFailed n msg q) = task_id q.
Proof. split; reflexivity. Qed.

Lemma handleSyncError_queue (item : SyncQueueItem) (msg : string) (w : World) :
  faults w = [] ->
  sync_queue (db (snd (handleSyncError now item msg w))) =
  map (fun q => if String.eqb (q_id q) (q_id item)
                then setFailed (retry_count item + 1) msg q else q)
      (sync_queue (db w)).
Proof.
  intros Hf. rewrite handleSyncError_run by exact Hf. cbn [snd db].
  destruct (3 <=? retry_count item + 1)%nat; reflexivity.
Qed.

Lemma handleSyncError_tasks (item : SyncQueueItem) (msg : string) (w : World) :
  faults w = [] ->
  tasks (db (snd (handleSyncError now item msg w))) =
  if (3 <=? retry_count item + 1)%nat
  then map (fun r => if String.eqb (row_id r) (task_id item) then setError r else r)
           (tasks (db w))
  else tasks (db w).
Proof.
  intros Hf. rewrite handleSyncError_run by exact Hf. cbn [snd db].
  destruct (3 <=? retry_count item + 1)%nat; reflexivity.
Qed.

Lemma handleSyncError_keeps (item : SyncQueueItem) (msg : string) (w : World) :
  faults w = [] ->
  faults (snd (handleSyncError now item msg w)) = [] /\
  outbox (snd (handleSyncError now item msg w)) = outbox w.
Proof. intros Hf. rewrite handleSyncError_run by exact Hf. split; reflexivity. Qed.

Lemma map_ids_updated (c : SyncQueueItem -> bool) (n : nat) (msg : string)
    (l : list SyncQueueItem) :
  map q_id (map (fun q => if c q then setFailed n msg q else q) l) = map q_id l.
Proof.
  rewrite map_map. apply map_ext. intros q. now destruct (c q).
Qed.

(** Once the rows of a task say [error], further failures leave them so. *)
Lemma failStep_keeps_error (item : SyncQueueItem) (msg t : string) (w : World) :
  faults w = [] ->
  (forall r, In r (tasks (db w)) -> row_id r = t -> row_sync_status r = Error) ->
  forall r, In r (tasks (db (snd (handleSyncError now item msg w)))) ->
            row_id r = t -> row_sync_status r = Error.
Proof.
  intros Hf Hall r Hin Hid. rewrite handleSyncError_tasks in Hin by exact Hf.
  destruct (3 <=? retry_count item + 1)%nat; [|now apply Hall].
  apply in_update in Hin. destruct Hin as [[r0 [_ [_ ->]]]|[Hin _]]; [reflexivity|].
  now apply Hall.
Qed.

Lemma failAll_keeps_error (items : list SyncQueueItem) (msg t : string) (w : World) :
  faults w = [] ->
  (forall r, In r (tasks (db w)) -> row_id r = t -> row_sync_status r = Error) ->
  forall r, In r (tasks (db (fold_left (fun w0 it0 => snd (handleSyncError now it0 msg w0)) items w))) ->
            row_id r = t -> row_sync_status r = Error.
Proof.
  revert w. induction items as [|item rest IH]; intros w Hf Hall; simpl.
  - exact Hall.
  - apply IH.
    + now apply handleSyncError_keeps.
    + now apply failStep_keeps_error.
Qed.

Lemma failAll_marks_error (items : list SyncQueueItem) (msg : string) (w : World) :
  faults w = [] ->
  forall item, In item items -> 3 <= retry_count item + 1 ->
  forall r, In r (tasks (db (fold_left (fun w0 it0 => snd (handleSyncError now it0 msg w0)) items w))) ->
            row_id r = task_id item -> row_sync_status r = Error.
Proof.
  revert w. induction items as [|it rest IH]; intros w Hf item Hin Hge; simpl.
  - destruct Hin.
  - destruct Hin as [->|Hin].
    + apply failAll_keeps_error.
      * now apply handleSyncError_keeps.
      * intros r Hr Hid. rewrite handleSyncError_tasks in Hr by exact Hf.
        destruct (Nat.leb_spec 3 (retry_count item + 1)); [|lia].
        apply in_update in Hr.
        destruct Hr as [[r0 [_ [_ ->]]]|[_ Hne]]; [reflexivity|contradiction].
    + apply IH; auto. now apply handleSyncError_keeps.
Qed.

Lemma failAll_ids (items : list SyncQueueItem) (msg : string) (w : World) :
  faults w = [] ->
  map q_id (sync_queue (db (fold_left (fun w0 it0 => snd (handleSyncError now it0 msg w0)) items w))) =
  map q_id (sync_queue (db w)).
Proof.
  revert w. induction items as [|it rest IH]; intros w Hf; simpl.
  - reflexivity.
  - rewrite IH by now apply handleSyncError_keeps.
    rewrite handleSyncError_queue by exact Hf. apply map_ids_updated.
Qed.

(** An entry that a later failure does not name stays as it is. *)
Lemma failAll_other_entry (items : list SyncQueueItem) (msg : string) (w : World)
    (q : SyncQueueItem) :
  faults w = [] ->
  In q (sync_queue (db w)) ->
  ~ In (q_id q) (map q_id items) ->
  In q (sync_queue (db (fold_left (fun w0 it0 => snd (handleSyncError now it0 msg w0)) items w))).
Proof.
  revert w. induction items as [|it rest IH]; intros w Hf Hin Hnot; simpl.
  - exact Hin.
  - apply IH.
    + now apply handleSyncError_keeps.
    + rewrite handleSyncError_queue by exact Hf. apply in_map_iff.
      exists q. split; [|exact Hin].
      destruct (String.eqb_spec (q_id q) (q_id it)) as [E|_]; [|reflexivity].
      exfalso. apply Hnot. simpl. left. now symmetry.
    + intros H. apply Hnot. simpl. now right.
Qed.

Lemma failAll_stored (items : list SyncQueueItem) (msg : string) (w : World) :
  faults w = [] ->
  NoDup (map q_id items) ->
  forall item, In item items -> In item (sync_queue (db w)) ->
  In (setFailed (retry_count item + 1) msg item)
     (sync_queue (db (fold_left (fun w0 it0 => snd (handleSyncError now it0 msg w0)) items w))).
Proof.
  revert w. induction items as [|it rest IH]; intros w Hf Hnd item Hin Hq; simpl.
  - destruct Hin.
  - inversion Hnd as [|? ? Hnotin Hnd']; subst.
    destruct Hin as [->|Hin].
    + apply failAll_other_entry.
      * now apply handleSyncError_keeps.
      * rewrite handleSyncError_queue by exact Hf. apply in_map_iff.
        exists item. split; [|exact Hq]. now rewrite String.eqb_refl.
      * exact Hnotin.
    + apply IH; auto.
      * now apply handleSyncError_keeps.
      * rewrite handleSyncError_queue by exact Hf. apply in_map_iff.
        exists item. split; [|exact Hq].
        destruct (String.eqb_spec (q_id item) (q_id it)) as [E|_]; [|reflexivity].
        exfalso. apply Hnotin. rewrite <- E. now apply in_map.
Qed.

(** The queue after the failure bookkeeping of a list of items with distinct
    ids: each stored entry named by an item carries that item's count plus
    one and the message. *)
Lemma failAll_queue (msg : string) (items : list SyncQueueItem) (w : World) :
  faults w = [] -> NoDup (map q_id items) ->
  sync_queue (db (fold_left (fun w0 it0 => snd (handleSyncError now it0 msg w0)) items w)) =
  map (fun q => match find (fun it => String.eqb (q_id it) (q_id q)) items with
                | Some it => setFailed (retry_count it + 1) msg q
                | None => q
                end)
      (sync_queue (db w)).
Proof.
  revert w. induction items as [|it rest IH]; intros w Hf Hnd; simpl.
  - symmetry. apply map_id.
  - inversion Hnd as [|? ? Hnot Hnd']; subst.
    rewrite IH; [| now apply handleSyncError_keeps | exact Hnd'].
    rewrite handleSyncError_queue by exact Hf. rewrite map_map.
    apply map_ext. intros q.
    rewrite (String.eqb_sym (q_id it) (q_id q)).
    destruct (String.eqb_spec (q_id q) (q_id it)) as [E|E]; [|reflexivity].
    cbn [q_id setFailed].
    destruct (find (fun it0 => String.eqb (q_id it0) (q_id q)) rest) as [it1|] eqn:F;
      [|reflexivity].
    exfalso. apply find_some in F. destruct F as [Hin Heq].
    apply String.eqb_eq in Heq. apply Hnot. rewrite <- E, <- Heq. now apply in_map.
Qed.

(** The task rows after the failure bookkeeping of a list of items: a row is
    set to [error] when some item of its task reaches a count of 3, and is
    untouched otherwise. *)
Lemma failAll_tasks (msg : string) (items : list SyncQueueItem) (w : World) :
  faults w = [] ->
  tasks (db (fold_left (fun w0 it0 => snd (handleSyncError now it0 msg w0)) items w)) =
  map (fun r => if existsb (fun it => andb (String.eqb (task_id it) (row_id r))
                                           (3 <=? retry_count it + 1)%nat) items
                then setError r else r)
      (tasks (db w)).
Proof.
  revert w. induction items as [|it rest IH]; intros w Hf; cbn [fold_left existsb].
  - symmetry. apply map_id.
  - rewrite IH by now apply handleSyncError_keeps.
    rewrite handleSyncError_tasks by exact Hf.
    destruct (3 <=? retry_count it + 1)%nat.
    + rewrite map_map. apply map_ext. intros r.
      rewrite (String.eqb_sym (task_id it) (row_id r)).
      destruct (String.eqb (row_id r) (task_id it)); cbn [andb orb].
      * cbn [row_id setError]. now destruct (existsb _ rest).
      * reflexivity.
    + apply map_ext. intros r. now rewrite Bool.andb_false_r.
Qed.

(** What the failure bookkeeping of a list of items with distinct ids made
    of an entry that carries the id of one of them. *)
Lemma failAll_entry (msg : string) (items : list SyncQueueItem) (w : World) :
  faults w = [] -> NoDup (map q_id items) ->
  forall item, In item items ->
  forall q', In q' (sync_queue (db (fold_left (fun w0 it0 => snd (handleSyncError now it0 msg w0)) items w))) ->
  q_id q' = q_id item ->
  exists q, In q (sync_queue (db w)) /\ q_id q = q_id item /\
            q' = setFailed (retry_count item + 1) msg q.
Proof.
  intros Hf Hnd item Hin q' Hq' Hid.
  rewrite failAll_queue in Hq' by assumption.
  apply in_map_iff in Hq'. destruct Hq' as [q [Hq Hqin]].
  assert (Hqid : q_id q = q_id item).
  { rewrite <- Hid, <- Hq. now destruct (find _ items). }
  rewrite Hqid, (find_unique_entry items item Hnd Hin) in Hq.
  exists q. auto.
Qed.

End FailureBookkeeping.

(** C3, as stated, fails: a failure writes the count the run read at its
    start plus one, and a result is matched to the first entry of its batch
    with the result's task.  Task A has two entries (create, update) and the
    remote reports an error for each: both failures land on the first entry,
    whose count goes from 0 to 1 once, and the second entry keeps count 0
    and no message. *)
Lemma second_failure_does_not_increment :
  map retry_count (sync_queue (db Examples.twoEntriesWorld)) = [0; 0] /\
  exists r w',
    sync (Examples.answering [Examples.errorResult "A" "bad title";
                              Examples.errorResult "A" "bad title"])
         50 900 2 Examples.twoEntriesWorld = (Ok r, w') /\
    failed_items r = 2 /\
    map q_id (sync_queue (db w')) = ["q1"; "q2"] /\
    map retry_count (sync_queue (db w')) = [1; 0] /\
    map error_message (sync_queue (db w')) = [Some "bad title"; None].
Proof.
  split; [reflexivity|]. eexists _, _. split; [vm_compute; reflexivity|].
  repeat split.
Qed.

Lemma find_first {A : Type} (f : A -> bool) (l : list A) (x : A) :
  find f l = Some x ->
  exists pre post, l = pre ++ x :: post /\ forall y, In y pre -> f y = false.
Proof.
  induction l as [|a l IH]; simpl; intros H; [discriminate|].
  destruct (f a) eqn:E.
  - injection H as ->. exists [], l. split; [reflexivity|]. intros y [].
  - destruct (IH H) as [pre [post [-> Hpre]]].
    exists (a :: pre), post. split; [reflexivity|].
    intros y [<-|Hy]; [exact E | now apply Hpre].
Qed.

Section FailureOutcome.

Variable remote : nat -> list SyncQueueItem -> HttpReply.
Variable now : Z.

(** C3, amended.  A failed outcome (an error result, a conflict result
    without resolution data, or any item of a batch whose post was
    rejected) sets, on the queue entry that has the id of the item it is
    applied to, [retry_count] to the item's count as read at the start of
    the run plus one, and [error_message] to the message; an entry still
    stored as it was read thus has its count incremented by one, and keeps
    its task, operation, data and enqueue time.  No entry is removed, and an
    entry of another id is left as it is.  When the new count is 3 or more,
    the task's [sync_status] becomes error; below 3 the tasks are
    untouched.  The failure is counted once and reported with the task, the
    operation and the message.  A result is applied to the first entry of
    its batch that has the result's task; and a result after which the
    queue no longer holds the same entries is a success or a conflict with
    resolution data. *)
Theorem failure_outcome :
  (forall (item : SyncQueueItem) (msg : string) (w : World),
      faults w = [] ->
      exists w',
        handleSyncError now item msg w = (Ok tt, w') /\
        map q_id (sync_queue (db w')) = map q_id (sync_queue (db w)) /\
        (forall q', In q' (sync_queue (db w')) -> q_id q' = q_id item ->
                    retry_count q' = retry_count item + 1 /\
                    error_message q' = Some msg) /\
        (In item (sync_queue (db w)) ->
         exists q', In q' (sync_queue (db w')) /\
                    q_id q' = q_id item /\ task_id q' = task_id item /\
                    operation q' = operation item /\ data q' = data item /\
                    q_created_at q' = q_created_at item /\
                    retry_count q' = retry_count item + 1 /\
                    error_message q' = Some msg) /\
        (forall q, In q (sync_queue (db w)) -> q_id q <> q_id item ->
                   In q (sync_queue (db w'))) /\
        (3 <= retry_count item + 1 ->
         map row_id (tasks (db w')) = map row_id (tasks (db w)) /\
         (forall r, In r (tasks (db w')) -> row_id r = task_id item ->
                    row_sync_status r = Error) /\
         (forall r, In r (tasks (db w)) -> row_id r <> task_id item ->
                    In r (tasks (db w')))) /\
        (retry_count item + 1 < 3 -> tasks (db w') = tasks (db w))) /\
  (forall (batch : list SyncQueueItem) (p : ProcessedItem) (original : SyncQueueItem)
          (s : Run),
      faults (world s) = [] ->
      find (fun b => String.eqb (task_id b) (client_id p)) batch = Some original ->
      status p = StatusError \/ (status p = StatusConflict /\ resolved_data p = None) ->
      exists msg s',
        msg = match status p with
              | StatusConflict => "Conflict without resolution data"
              | _ => orDefaultOpt (p_error p) "Unknown error"
              end /\
        applyProcessed now batch p s = (Ok tt, s') /\
        task_id original = client_id p /\
        (exists earlier later,
            batch = earlier ++ original :: later /\
            forall b, In b earlier -> task_id b <> client_id p) /\
        synced s' = synced s /\
        failed s' = failed s + 1 /\
        errorList s' = errorList s ++
          [ {| e_task_id := task_id original; e_operation := operation original;
               e_error := msg; e_timestamp := now |} ] /\
        map q_id (sync_queue (db (world s'))) = map q_id (sync_queue (db (world s))) /\
        (forall q', In q' (sync_queue (db (world s'))) -> q_id q' = q_id original ->
                    retry_count q' = retry_count original + 1 /\
                    error_message q' = Some msg) /\
        (forall q, In q (sync_queue (db (world s))) -> q_id q <> q_id original ->
                   In q (sync_queue (db (world s')))) /\
        (3 <= retry_count original + 1 ->
         forall r, In r (tasks (db (world s'))) -> row_id r = task_id original ->
                   row_sync_status r = Error) /\
        (retry_count original + 1 < 3 ->
         tasks (db (world s')) = tasks (db (world s)))) /\
  (forall (batch : list SyncQueueItem) (s : Run) (msg : string),
      faults (world s) = [] ->
      remote (List.length (outbox (world s))) batch = Rejected msg ->
      NoDup (map q_id batch) ->
      exists s',
        syncBatch remote now batch s = (Ok tt, s') /\
        synced s' = synced s /\
        failed s' = failed s + List.length batch /\
        map q_id (sync_queue (db (world s'))) = map q_id (sync_queue (db (world s))) /\
        (forall item, In item batch ->
         forall q', In q' (sync_queue (db (world s'))) -> q_id q' = q_id item ->
                    retry_count q' = retry_count item + 1 /\
                    error_message q' = Some msg) /\
        (forall item, In item batch -> In item (sync_queue (db (world s))) ->
         exists q', In q' (sync_queue (db (world s'))) /\
                    q_id q' = q_id item /\ task_id q' = task_id item /\
                    operation q' = operation item /\ data q' = data item /\
                    q_created_at q' = q_created_at item /\
                    retry_count q' = retry_count item + 1 /\
                    error_message q' = Some msg) /\
        (forall q, In q (sync_queue (db (world s))) -> ~ In (q_id q) (map q_id batch) ->
                   In q (sync_queue (db (world s')))) /\
        (forall item, In item batch -> 3 <= retry_count item + 1 ->
                      forall r, In r (tasks (db (world s'))) ->
                                row_id r = task_id item -> row_sync_status r = Error) /\
        ((forall item, In item batch -> retry_count item + 1 < 3) ->
         tasks (db (world s')) = tasks (db (world s)))) /\
  (forall (batch : list SyncQueueItem) (p : ProcessedItem) (s s' : Run)
          (r : Outcome unit),
      faults (world s) = [] ->
      applyProcessed now batch p s = (r, s') ->
      map q_id (sync_queue (db (world s'))) <> map q_id (sync_queue (db (world s))) ->
      status p = StatusSuccess \/
      (status p = StatusConflict /\ exists d, resolved_data p = Some d)).
Proof.
  assert (Hone : forall (item : SyncQueueItem) (msg : string) (w : World),
      faults w = [] ->
      exists w',
        handleSyncError now item msg w = (Ok tt, w') /\
        map q_id (sync_queue (db w')) = map q_id (sync_queue (db w)) /\
        (forall q', In q' (sync_queue (db w')) -> q_id q' = q_id item ->
                    retry_count q' = retry_count item + 1 /\
                    error_message q' = Some msg) /\
        (In item (sync_queue (db w)) ->
         exists q', In q' (sync_queue (db w')) /\
                    q_id q' = q_id item /\ task_id q' = task_id item /\
                    operation q' = operation item /\ data q' = data item /\
                    q_created_at q' = q_created_at item /\
                    retry_count q' = retry_count item + 1 /\
                    error_message q' = Some msg) /\
        (forall q, In q (sync_queue (db w)) -> q_id q <> q_id item ->
                   In q (sync_queue (db w'))) /\
        (3 <= retry_count item + 1 ->
         map row_id (tasks (db w')) = map row_id (tasks (db w)) /\
         (forall r, In r (tasks (db w')) -> row_id r = task_id item ->
                    row_sync_status r = Error) /\
         (forall r, In r (tasks (db w)) -> row_id r <> task_id item ->
                    In r (tasks (db w')))) /\
        (retry_count item + 1 < 3 -> tasks (db w') = tasks (db w))).
  { intros item msg w Hf.
    exists (snd (handleSyncError now item msg w)).
    split; [rewrite handleSyncError_run by exact Hf; reflexivity|].
    rewrite handleSyncError_queue, handleSyncError_tasks by exact Hf.
    split; [apply map_ids_updated|].
    split; [| split; [| split; [| split]]].
    - intros q' Hq' Hid. apply in_map_iff in Hq'. destruct Hq' as [q [Hq _]].
      destruct (String.eqb_spec (q_id q) (q_id item)) as [_|Hne].
      + subst q'. split; reflexivity.
      + subst q'. contradiction.
    - intros Hin. exists (setFailed (retry_count item + 1) msg item).
      split; [|repeat split].
      apply in_map_iff. exists item. split; [|exact Hin]. now rewrite String.eqb_refl.
    - intros q Hq Hne. apply in_map_iff. exists q. split; [|exact Hq].
      apply String.eqb_neq in Hne. now rewrite Hne.
    - intros Hge. destruct (Nat.leb_spec 3 (retry_count item + 1)); [|lia].
      split; [| split].
      + rewrite map_map. apply map_ext. intros r.
        now destruct (String.eqb (row_id r) (task_id item)).
      + intros r Hr Hid. apply in_update in Hr.
        destruct Hr as [[r0 [_ [_ ->]]]|[_ Hne]]; [reflexivity|contradiction].
      + intros r Hr Hne. apply in_map_iff. exists r. split; [|exact Hr].
        apply String.eqb_neq in Hne. now rewrite Hne.
    - intros Hlt. destruct (Nat.leb_spec 3 (retry_count item + 1)); [lia|reflexivity]. }
  assert (Hresult : forall (batch : list SyncQueueItem) (p : ProcessedItem)
                           (original : SyncQueueItem) (s : Run),
      faults (world s) = [] ->
      find (fun b => String.eqb (task_id b) (client_id p)) batch = Some original ->
      status p = StatusError \/ (status p = StatusConflict /\ resolved_data p = None) ->
      exists msg s',
        msg = match status p with
              | StatusConflict => "Conflict without resolution data"
              | _ => orDefaultOpt (p_error p) "Unknown error"
              end /\
        applyProcessed now batch p s = (Ok tt, s') /\
        task_id original = client_id p /\
        (exists earlier later,
            batch = earlier ++ original :: later /\
            forall b, In b earlier -> task_id b <> client_id p) /\
        synced s' = synced s /\
        failed s' = failed s + 1 /\
        errorList s' = errorList s ++
          [ {| e_task_id := task_id original; e_operation := operation original;
               e_error := msg; e_timestamp := now |} ] /\
        map q_id (sync_queue (db (world s'))) = map q_id (sync_queue (db (world s))) /\
        (forall q', In q' (sync_queue (db (world s'))) -> q_id q' = q_id original ->
                    retry_count q' = retry_count original + 1 /\
                    error_message q' = Some msg) /\
        (forall q, In q (sync_queue (db (world s))) -> q_id q <> q_id original ->
                   In q (sync_queue (db (world s')))) /\
        (3 <= retry_count original + 1 ->
         forall r, In r (tasks (db (world s'))) -> row_id r = task_id original ->
                   row_sync_status r = Error) /\
        (retry_count original + 1 < 3 ->
         tasks (db (world s')) = tasks (db (world s)))).
  2: split; [exact Hone | split; [exact Hresult | split]].
  - intros batch p original s Hf Hfind Hkind.
    destruct (find_task_id batch (client_id p) original Hfind) as [Hin Hid].
    set (msg := match status p with
                | StatusConflict => "Conflict without resolution data"
                | _ => orDefaultOpt (p_error p) "Unknown error"
                end).
    destruct (Hone original msg (world s) Hf)
      as [w' [E [Hids [Hset [_ [Hother [Hge Hlt]]]]]]].
    exists msg,
      {| world := w'; synced := synced s; failed := failed s + 1;
         errorList := errorList s ++
           [ {| e_task_id := task_id original; e_operation := operation original;
                e_error := msg; e_timestamp := now |} ] |}.
    split; [reflexivity|]. split.
    { unfold applyProcessed. rewrite Hfind. subst msg.
      destruct Hkind as [Hst|[Hst Hnone]]; rewrite Hst in *; [|rewrite Hnone];
        rewrite record_failure_run by exact Hf; rewrite E; reflexivity. }
    cbn [world synced failed errorList].
    split; [exact Hid|]. split.
    { destruct (find_first _ _ _ Hfind) as [pre [post [Hb Hpre]]].
      exists pre, post. split; [exact Hb|].
      intros b Hb0. apply String.eqb_neq. now apply Hpre. }
    split; [reflexivity|]. split; [reflexivity|]. split; [reflexivity|].
    split; [exact Hids|]. split; [exact Hset|]. split; [exact Hother|].
    split; [|exact Hlt].
    intros H3. now apply Hge.
  - intros batch s msg Hf Hrej Hnd.
    unfold syncBatch, tryCatch, bind, liftW, processBatch. rewrite Hrej.
    match goal with |- context [failAll now batch msg ?s1] =>
      destruct (failAll_run now batch msg s1 Hf) as [E _]; rewrite E
    end.
    eexists. split; [reflexivity|]. cbn [world synced failed db sync_queue tasks].
    split; [reflexivity|]. split; [reflexivity|].
    split; [now rewrite failAll_ids|].
    split; [| split; [| split; [| split]]].
    + intros item Hin q' Hq' Hid.
      match type of Hq' with In _ (sync_queue (db (fold_left _ _ ?w1))) =>
        destruct (failAll_entry now msg batch w1 Hf Hnd item Hin q' Hq' Hid)
          as [q [_ [_ ->]]]
      end.
      split; reflexivity.
    + intros item Hin Hq. exists (setFailed (retry_count item + 1) msg item).
      split; [now apply failAll_stored | repeat split].
    + intros q Hq Hnot. now apply failAll_other_entry.
    + intros item Hin Hge. now apply failAll_marks_error.
    + intros Hlow. rewrite failAll_tasks by exact Hf. cbn [db tasks].
      rewrite <- (map_id (tasks (db (world s)))) at 2. apply map_ext. intros r.
      rewrite (existsb_ext_in _ (fun _ => false)).
      * now rewrite existsb_never.
      * intros item Hin. specialize (Hlow item Hin).
        destruct (Nat.leb_spec 3 (retry_count item + 1)); [lia|].
        apply Bool.andb_false_r.
  - intros batch p s s' r Hf Hrun Hchanged.
    destruct (find (fun b => String.eqb (task_id b) (client_id p)) batch)
      as [original|] eqn:Hfind.
    2:{ unfold applyProcessed in Hrun. rewrite Hfind in Hrun.
        inversion Hrun; subst. now contradiction Hchanged. }
    destruct (status p) eqn:Hst; [now left | |].
    + destruct (resolved_data p) as [d|] eqn:Hd; [right; eauto|].
      destruct (Hresult batch p original s Hf Hfind) as [msg [s1 [_ [E [_ [_ [_ [_ [_ [Hids _]]]]]]]]]].
      { right. auto. }
      rewrite E in Hrun. inversion Hrun; subst. contradiction.
    + destruct (Hresult batch p original s Hf Hfind) as [msg [s1 [_ [E [_ [_ [_ [_ [_ [Hids _]]]]]]]]]].
      { left. exact Hst. }
      rewrite E in Hrun. inversion Hrun; subst. contradiction.
Qed.

End FailureOutcome.

(** ** A rejected batch and the summary of a run *)

Lemma liftW_inv {A : Type} (m : M World A) (s s' : Run) (r : Outcome A) :
  liftW m s = (r, s') ->
  m (world s) = (r, world s') /\
  synced s' = synced s /\ failed s' = failed s /\ errorList s' = errorList s.
Proof.
  unfold liftW. destruct (m (world s)) as [r0 w1]. intros H. inversion H; subst.
  simpl. auto.
Qed.

Section BatchFailure.

Variable remote : nat -> list SyncQueueItem -> HttpReply.
Variable batchSize : nat.
Variable now : Z.











End BatchFailure.

(** ** What a result leaves alone *)

Lemma filter_map_frame {A : Type} (f c : A -> bool) (g : A -> A) (l : list A) :
  (forall x, In x l -> c x = true -> f x = false /\ f (g x) = false) ->
  filter f (map (fun x => if c x then g x else x) l) = filter f l.
Proof.
  induction l as [|x l IH]; simpl; intros H; [reflexivity|].
  rewrite IH by (intros y Hy; apply H; now right).
  destruct (c x) eqn:Ec; [|reflexivity].
  destruct (H x (or_introl eq_refl) Ec) as [H1 H2]. now rewrite H1, H2.
Qed.


Section Frame.

Variable now : Z.
(** The task whose rows and entries are followed. *)
Variable t : string.

(** [UPDATE tasks ... WHERE id = i] for another id. *)
Lemma rows_frame (i : string) (g : TaskRow -> TaskRow) (l : list TaskRow) :
  i <> t -> (forall r, row_id (g r) = row_id r) ->
  filter (fun r => String.eqb (row_id r) t)
         (map (fun r => if String.eqb (row_id r) i then g r else r) l)
  = filter (fun r => String.eqb (row_id r) t) l.
Proof.
  intros Hne Hg. apply filter_map_frame. intros r _ Hc.
  apply String.eqb_eq in Hc. rewrite Hg, Hc.
  apply String.eqb_neq in Hne. auto.
Qed.



End Frame.

Section ResultFrame.

Variable now : Z.
Variable t : string.






End ResultFrame.

(** ** Results that are missing or match nothing *)


Section MissingResults.

Variable remote : nat -> list SyncQueueItem -> HttpReply.
Variable batchSize : nat.
Variable now : Z.

Lemma syncBatch_no_results (batch : list SyncQueueItem) (s : Run) :
  remote (List.length (outbox (world s))) batch = Replied {| processed_items := [] |} ->
  syncBatch remote now batch s =
  (Ok tt, {| world := {| db := db (world s); faults := faults (world s);
                         outbox := outbox (world s) ++ [batch] |};
             synced := synced s; failed := failed s; errorList := errorList s |}).
Proof.
  intros H. unfold syncBatch, tryCatch, bind, liftW, processBatch. now rewrite H.
Qed.



End MissingResults.

(** A batch size of 0 is left out of the statements on whole runs for a
    reason: the loop then adds 0 to [i] at every turn and never gets past a
    queue that is not empty. *)
Lemma zero_batch_size_never_ends (fuel : nat) :
  fst (sync (Examples.answering []) 0 900 fuel Examples.oneTaskWorld) = OutOfFuel.
Proof.
  unfold sync.
  change (selectQueue (db Examples.oneTaskWorld))
    with [Examples.entry "q1" "A" Create 100 0].
  assert (G : forall s, exists s',
             syncLoop (Examples.answering []) 0 900 fuel
                      [Examples.entry "q1" "A" Create 100 0] 0 s = (OutOfFuel, s')).
  { induction fuel as [|fuel IH]; intros s.
    - eexists. reflexivity.
    - cbn [syncLoop List.length Nat.ltb Nat.leb Nat.add]. unfold bind.
      rewrite syncBatch_no_results by reflexivity. apply IH. }
  destruct (G {| world := Examples.oneTaskWorld; synced := 0; failed := 0;
                 errorList := [] |}) as [s' E].
  now rewrite E.
Qed.

(** ** The statements above at concrete inputs *)

Lemma mutation_two_writes_witness :
  (exists w' row,
      createTask Examples.milk "A" "q1" 100 Examples.secondWriteFails =
        (Thrown "SQLITE_ERROR", w') /\
      tasks (db w') = tasks (db Examples.secondWriteFails) ++ [row] /\
      row_id row = "A" /\
      sync_queue (db w') = sync_queue (db Examples.secondWriteFails)) /\
  (exists w',
      createTask Examples.milk "A" "q1" 100 Examples.firstWriteFails =
        (Thrown "SQLITE_ERROR", w') /\
      db w' = db Examples.firstWriteFails) /\
  (exists w' r' e,
      deleteTask "A" "q2" 200 Examples.oneTaskWorld = (Ok true, w') /\
      selectTask "A" (db w') = Some r' /\ row_is_deleted r' = true /\
      row_sync_status r' = Pending /\ row_updated_at r' = 200%Z /\
      sync_queue (db w') = sync_queue (db Examples.oneTaskWorld) ++ [e] /\
      task_id e = "A" /\ operation e = Delete).
Proof.
  split; [| split].
  - apply (proj1 (mutation_two_writes Examples.secondWriteFails "A" "q1" 100)
             Examples.milk "Buy milk"); try reflexivity. discriminate.
  - apply (proj1 (mutation_two_writes Examples.firstWriteFails "A" "q1" 100)
             Examples.milk "Buy milk"); try reflexivity. discriminate.
  - apply (proj2 (proj2 (mutation_two_writes Examples.oneTaskWorld "A" "q2" 200))
             (Examples.rowA false Pending)); reflexivity.
Defined.

Lemma success_outcome_witness :
  exists s',
    applyProcessed 900 [Examples.entry "q1" "A" Create 100 0;
                        Examples.entry "q2" "A" Update 200 0]
                   (Examples.successResult "A" "srv-1")
                   {| world := Examples.twoEntriesWorld; synced := 0; failed := 0;
                      errorList := [] |} = (Ok tt, s') /\
    synced s' = 1 /\
    (forall r, In r (tasks (db (world s'))) -> row_id r = "A" ->
               row_sync_status r = Synced /\ row_last_synced_at r = Some 900%Z /\
               row_server_id r = Some "srv-1") /\
    List.length (sync_queue (db Examples.twoEntriesWorld)) = 2 /\
    sync_queue (db (world s')) = [] /\
    (forall q, In q (sync_queue (db (world s'))) -> task_id q <> "A").
Proof.
  destruct (success_outcome 900 [Examples.entry "q1" "A" Create 100 0;
                                 Examples.entry "q2" "A" Update 200 0]
              (Examples.successResult "A" "srv-1") (Examples.entry "q1" "A" Create 100 0)
              {| world := Examples.twoEntriesWorld; synced := 0; failed := 0;
                 errorList := [] |} eq_refl eq_refl eq_refl)
    as [s' [E [H1 [_ [_ [_ [_ [H2 [Hq [H3 _]]]]]]]]]].
  exists s'. split; [exact E|]. split; [exact H1|].
  split; [| split; [reflexivity | split; [rewrite Hq; reflexivity | exact H3]]].
  intros r Hr Hid. destruct (H2 r Hr Hid) as [A1 [A2 A3]].
  split; [exact A1|]. split; [exact A2|]. now apply A3.
Defined.

Lemma failure_outcome_witness :
  (exists w',
      handleSyncError 900 (Examples.entry "q1" "A" Create 100 0) "boom"
                      Examples.oneTaskWorld = (Ok tt, w') /\
      exists q', In q' (sync_queue (db w')) /\ q_id q' = "q1" /\
                 retry_count q' = 1 /\ error_message q' = Some "boom") /\
  (exists s',
      syncBatch (Examples.rejecting "Network Error") 900
                [Examples.entry "q3" "C" Update 300 2]
                {| world := Examples.threeEntriesWorld; synced := 0; failed := 0;
                   errorList := [] |} = (Ok tt, s') /\
      failed s' = 1 /\
      (exists q', In q' (sync_queue (db (world s'))) /\ q_id q' = "q3" /\
                  retry_count q' = 3 /\ error_message q' = Some "Network Error") /\
      (forall r, In r (tasks (db (world s'))) -> row_id r = "C" ->
                 row_sync_status r = Error)).
Proof.
  split.
  - destruct (proj1 (failure_outcome (Examples.rejecting "x") 900)
                (Examples.entry "q1" "A" Create 100 0) "boom" Examples.oneTaskWorld eq_refl)
      as [w' [E [_ [_ [Hin _]]]]].
    exists w'. split; [exact E|].
    destruct Hin as [q' [H1 [H2 [_ [_ [_ [_ [H3 H4]]]]]]]]; [left; reflexivity|].
    exists q'. repeat split; assumption.
  - destruct (proj1 (proj2 (proj2 (failure_outcome (Examples.rejecting "Network Error")
                                                    900)))
                [Examples.entry "q3" "C" Update 300 2]
                {| world := Examples.threeEntriesWorld; synced := 0; failed := 0;
                   errorList := [] |} "Network Error" eq_refl eq_refl)
      as [s' [E [_ [Hfailed [_ [_ [Hin [_ [Herr _]]]]]]]]].
    + constructor; [intros [] | constructor].
    + exists s'. split; [exact E|]. split; [exact Hfailed|]. split.
      * destruct (Hin (Examples.entry "q3" "C" Update 300 2))
          as [q' [H1 [H2 [_ [_ [_ [_ [H3 H4]]]]]]]].
        -- left. reflexivity.
        -- right. right. left. reflexivity.
        -- exists q'. repeat split; assumption.
      * apply (Herr (Examples.entry "q3" "C" Update 300 2)).
        -- left. reflexivity.
        -- simpl. lia.
Defined.

Lemma sync_batches_oldest_first_witness :
  exists r w' batches,
    sync (Examples.answering []) 2 900 3 Examples.threeEntriesWorld = (Ok r, w') /\
    outbox w' = batches /\
    List.concat batches = selectQueue (db Examples.threeEntriesWorld) /\
    Forall (fun b => 0 < List.length b <= 2) batches.
Proof.
  destruct (sync_batches_oldest_first (Examples.answering []) 2 900 (Nat.lt_0_succ 1)
              Examples.threeEntriesWorld eq_refl)
    as [r [w' [batches [E [Ho [Hc [_ [_ [Hall _]]]]]]]]].
  exists r, w', batches. repeat split; assumption.
Defined.



(** * Further properties of the services and the routes *)

(** ** TaskService: validation, lookups and listings *)

(** X1. [createTask] refuses a missing or empty title with "Title is required"
    before any write: the world is left as it was. *)
Theorem createTask_requires_title (taskData : TaskInput) (i queueId : string) (now : Z)
    (w : World) :
  in_title taskData = None \/ in_title taskData = Some "" ->
  createTask taskData i queueId now w = (Thrown "Title is required", w).
Proof.
  intros [H|H]; unfold createTask; rewrite H; reflexivity.
Qed.

Lemma createTask_requires_title_witness :
  createTask {| in_title := Some ""; in_description := Some "x"; in_completed := None |}
             "A" "q1" 100 Examples.oneTaskWorld
  = (Thrown "Title is required", Examples.oneTaskWorld).
Proof.
  apply createTask_requires_title. right. reflexivity.
Defined.

Lemma find_other_id (i j : string) (g : TaskRow -> TaskRow) (l : list TaskRow) :
  j <> i -> (forall r, row_id (g r) = row_id r) ->
  find (fun r => String.eqb (row_id r) j)
       (map (fun r => if String.eqb (row_id r) i then g r else r) l)
  = find (fun r => String.eqb (row_id r) j) l.
Proof.
  intros Hne Hg. induction l as [|r l IH]; simpl; [reflexivity|].
  destruct (String.eqb_spec (row_id r) i) as [E|E].
  - rewrite Hg, E. apply String.eqb_neq in Hne. rewrite String.eqb_sym, Hne.
    exact IH.
  - destruct (String.eqb (row_id r) j); [reflexivity | exact IH].
Qed.

Lemma find_app_other {A : Type} (f : A -> bool) (l : list A) (x : A) :
  f x = false -> find f (l ++ [x]) = find f l.
Proof.
  intros Hx. induction l as [|y l IH]; simpl.
  - now rewrite Hx.
  - destruct (f y); [reflexivity | exact IH].
Qed.

(** The task a fresh, valid [createTask] stores. *)
Lemma created_row_maps (taskData : TaskInput) (t i : string) (now : Z) :
  mapRowToTask
    {| row_id := i; row_title := t; row_description := in_description taskData;
       row_completed := orElse (in_completed taskData) false;
       row_created_at := now; row_updated_at := now; row_is_deleted := false;
       row_sync_status := Pending; row_server_id := new_row_server_id;
       row_last_synced_at := new_row_last_synced_at |}
  = {| id := i; title := t; description := in_description taskData;
       completed := orElse (in_completed taskData) false;
       created_at := Valid now; updated_at := Valid now; is_deleted := false;
       sync_status := Pending; server_id := None; last_synced_at := None |}.
Proof. reflexivity. Qed.

(** X2. Create, then look up.  A valid [createTask] under a fresh id returns the
    task it stored: the given title and description, [completed] false unless
    given, both timestamps the current time, not deleted, pending, no server
    id.  [getTask] on that id then returns the same task, [getAllTasks] lists
    it last after the tasks listed before, and the lookup of any other id
    answers as before. *)
Theorem create_then_get (taskData : TaskInput) (t i queueId : string) (now : Z) (w : World) :
  in_title taskData = Some t -> t <> "" ->
  nth 0 (faults w) false = false -> nth 1 (faults w) false = false ->
  selectTask i (db w) = None ->
  let task := {| id := i; title := t; description := in_description taskData;
                 completed := orElse (in_completed taskData) false;
                 created_at := Valid now; updated_at := Valid now; is_deleted := false;
                 sync_status := Pending; server_id := None; last_synced_at := None |} in
  exists w',
    createTask taskData i queueId now w = (Ok (Some task), w') /\
    getTask i w' = (Ok (Some task), w') /\
    (forall all, fst (getAllTasks w) = Ok all -> fst (getAllTasks w') = Ok (all ++ [task])) /\
    (forall j, j <> i -> fst (getTask j w') = fst (getTask j w)).
Proof.
  intros Ht Hne F0 F1 Hfresh task.
  assert (Hfind : forall y, In y (tasks (db w)) -> String.eqb (row_id y) i = false).
  { intros y Hy. unfold selectTask in Hfresh. exact (find_none _ _ Hfresh y Hy). }
  rewrite (createTask_eval taskData t i queueId now w Ht Hne), F0, F1.
  eexists. split; [| split; [| split]].
  - rewrite getTask_run. unfold selectTask. cbn [db insertQueue insertTask tasks].
    rewrite find_app_fresh by exact Hfind. cbn [row_id]. rewrite String.eqb_refl.
    cbn [row_is_deleted]. rewrite created_row_maps. reflexivity.
  - rewrite getTask_run. unfold selectTask. cbn [db insertQueue insertTask tasks].
    rewrite find_app_fresh by exact Hfind. cbn [row_id]. rewrite String.eqb_refl.
    cbn [row_is_deleted]. rewrite created_row_maps. reflexivity.
  - intros all Hall. unfold getAllTasks, bind, dbGet, ret, selectActive in *.
    cbn [fst db insertQueue insertTask tasks] in *.
    rewrite filter_app, map_app. cbn [filter row_is_deleted negb map].
    rewrite created_row_maps. inversion Hall. reflexivity.
  - intros j Hj. rewrite !getTask_run. unfold selectTask.
    cbn [fst db insertQueue insertTask tasks].
    rewrite find_app_other; [reflexivity|].
    cbn [row_id]. apply String.eqb_neq. now apply not_eq_sym.
Qed.

Lemma create_then_get_witness :
  exists w',
    createTask Examples.milk "C" "q9" 500 Examples.oneTaskWorld =
      (Ok (Some {| id := "C"; title := "Buy milk"; description := None;
                   completed := false; created_at := Valid 500; updated_at := Valid 500;
                   is_deleted := false; sync_status := Pending; server_id := None;
                   last_synced_at := None |}), w') /\
    fst (getTask "A" w') = fst (getTask "A" Examples.oneTaskWorld).
Proof.
  destruct (create_then_get Examples.milk "Buy milk" "C" "q9" 500 Examples.oneTaskWorld
              eq_refl ltac:(discriminate) eq_refl eq_refl eq_refl)
    as [w' [E [_ [_ Hother]]]].
  exists w'. split; [exact E|]. apply Hother. discriminate.
Defined.

(** X3. Update, then look up.  [updateTask] on a stored task that is not deleted
    returns that task with each of [title], [description] and [completed]
    replaced when the update carries it (an empty title included) and kept
    otherwise, [updated_at] the current time and [sync_status] pending;
    [created_at], [server_id] and [last_synced_at] are kept.  The queued
    snapshot carries the resulting fields, [getTask] returns the same task
    afterwards, and the lookup of any other id answers as before. *)
Theorem update_merges_fields (i : string) (updates : TaskInput) (queueId : string) (now : Z)
    (w : World) (ex : TaskRow) :
  selectTask i (db w) = Some ex -> row_is_deleted ex = false ->
  nth 0 (faults w) false = false -> nth 1 (faults w) false = false ->
  let task := {| id := i;
                 title := orElse (in_title updates) (row_title ex);
                 description := orElseOpt (in_description updates) (row_description ex);
                 completed := orElse (in_completed updates) (row_completed ex);
                 created_at := Valid (row_created_at ex);
                 updated_at := Valid now;
                 is_deleted := false;
                 sync_status := Pending;
                 server_id := row_server_id ex;
                 last_synced_at := option_map Valid (row_last_synced_at ex) |} in
  exists w' e,
    updateTask i updates queueId now w = (Ok (Some task), w') /\
    getTask i w' = (Ok (Some task), w') /\
    sync_queue (db w') = sync_queue (db w) ++ [e] /\
    d_title (data e) = Some (title task) /\
    d_description (data e) = description task /\
    d_completed (data e) = Some (completed task) /\
    d_updated_at (data e) = now /\
    (forall j, j <> i -> fst (getTask j w') = fst (getTask j w)).
Proof.
  intros Hex Hlive F0 F1 task.
  assert (Hid : row_id ex = i).
  { unfold selectTask in Hex. apply find_some in Hex. now apply String.eqb_eq. }
  rewrite (updateTask_eval i updates queueId now w ex Hex), F0, F1.
  assert (Hget : forall fs o,
    getTask i {| db := insertQueue queueId i Update
                        {| d_id := i;
                           d_title := Some (orElse (in_title updates) (row_title ex));
                           d_description :=
                             orElseOpt (in_description updates) (row_description ex);
                           d_completed :=
                             Some (orElse (in_completed updates) (row_completed ex));
                           d_updated_at := now |} now
                        (updateTasksWhere i
                           (setUpdated (orElse (in_title updates) (row_title ex))
                              (orElseOpt (in_description updates) (row_description ex))
                              (orElse (in_completed updates) (row_completed ex)) now)
                           (db w));
                 faults := fs; outbox := o |}
    = (Ok (Some task),
       {| db := insertQueue queueId i Update
                        {| d_id := i;
                           d_title := Some (orElse (in_title updates) (row_title ex));
                           d_description :=
                             orElseOpt (in_description updates) (row_description ex);
                           d_completed :=
                             Some (orElse (in_completed updates) (row_completed ex));
                           d_updated_at := now |} now
                        (updateTasksWhere i
                           (setUpdated (orElse (in_title updates) (row_title ex))
                              (orElseOpt (in_description updates) (row_description ex))
                              (orElse (in_completed updates) (row_completed ex)) now)
                           (db w));
          faults := fs; outbox := o |})).
  { intros fs o. rewrite getTask_run. cbn [db].
    assert (Hsel : forall qd d, selectTask i (insertQueue queueId i Update qd now d)
                                = selectTask i d) by reflexivity.
    rewrite Hsel.
    rewrite (selectTask_updated i _ (db w) ex (setUpdated_id _ _ _ _) Hex).
    cbn [row_is_deleted setUpdated]. rewrite Hlive.
    unfold mapRowToTask, task. cbn. rewrite Hid, Hlive. reflexivity. }
  eexists _, _. split; [apply Hget|]. split; [apply Hget|].
  split; [reflexivity|]. repeat split.
  intros j Hj. rewrite !getTask_run. unfold selectTask.
  cbn [fst db insertQueue updateTasksWhere tasks].
  rewrite find_other_id; [reflexivity | exact Hj | reflexivity].
Qed.

Lemma update_merges_fields_witness :
  exists w' e,
    updateTask "A" {| in_title := Some ""; in_description := None;
                      in_completed := Some true |} "q2" 200 Examples.oneTaskWorld =
      (Ok (Some {| id := "A"; title := ""; description := None; completed := true;
                   created_at := Valid 100; updated_at := Valid 200; is_deleted := false;
                   sync_status := Pending; server_id := None; last_synced_at := None |}),
       w') /\
    sync_queue (db w') = sync_queue (db Examples.oneTaskWorld) ++ [e] /\
    d_title (data e) = Some "".
Proof.
  destruct (update_merges_fields "A" {| in_title := Some ""; in_description := None;
                                        in_completed := Some true |} "q2" 200
              Examples.oneTaskWorld (Examples.rowA false Pending)
              eq_refl eq_refl eq_refl eq_refl)
    as [w' [e [E [_ [Hq [Ht _]]]]]].
  exists w', e. repeat split; assumption.
Defined.

Lemma rows_of_deleted (i : string) (now : Z) (l : list TaskRow) :
  filter (fun r => negb (row_is_deleted r))
         (map (fun r => if String.eqb (row_id r) i then setDeleted now r else r) l)
  = filter (fun r => negb (String.eqb (row_id r) i))
           (filter (fun r => negb (row_is_deleted r)) l).
Proof.
  induction l as [|r l IH]; simpl; [reflexivity|].
  destruct (String.eqb (row_id r) i) eqn:E; simpl.
  - rewrite IH. destruct (row_is_deleted r); simpl; [reflexivity|].
    now rewrite E.
  - destruct (row_is_deleted r); simpl; [exact IH|]. rewrite E. simpl. now rewrite IH.
Qed.

Lemma filter_map_commute {A B : Type} (f : A -> B) (p : B -> bool) (l : list A) :
  filter p (map f l) = map f (filter (fun x => p (f x)) l).
Proof.
  induction l as [|x l IH]; simpl; [reflexivity|].
  destruct (p (f x)); simpl; now rewrite IH.
Qed.

(** X4. Delete, then look up.  [deleteTask] on a stored task answers true; from
    then on [getTask] answers null for it and [getAllTasks] lists what it
    listed before without the tasks of that id, while the row itself stays
    in the table (marked deleted, pending, [updated_at] the current time)
    and a [delete] entry is queued behind the entries already there.  The
    lookup of any other id answers as before. *)
Theorem delete_hides_task (i queueId : string) (now : Z) (w : World) (ex : TaskRow) :
  selectTask i (db w) = Some ex ->
  nth 0 (faults w) false = false -> nth 1 (faults w) false = false ->
  exists w' e,
    deleteTask i queueId now w = (Ok true, w') /\
    getTask i w' = (Ok None, w') /\
    (forall all, fst (getAllTasks w) = Ok all ->
       fst (getAllTasks w') = Ok (filter (fun t => negb (String.eqb (id t) i)) all)) /\
    map row_id (tasks (db w')) = map row_id (tasks (db w)) /\
    selectTask i (db w') = Some (setDeleted now ex) /\
    sync_queue (db w') = sync_queue (db w) ++ [e] /\
    task_id e = i /\ operation e = Delete /\ retry_count e = 0 /\
    (forall j, j <> i -> fst (getTask j w') = fst (getTask j w)).
Proof.
  intros Hex F0 F1.
  rewrite (deleteTask_eval i queueId now w ex Hex), F0, F1.
  assert (Hsel : selectTask i (updateTasksWhere i (setDeleted now) (db w))
                 = Some (setDeleted now ex)).
  { apply (selectTask_updated i _ (db w) ex (setDeleted_id _) Hex). }
  eexists _, _. split; [reflexivity|]. split; [| split; [| split; [| split]]].
  - rewrite getTask_run. cbn [db].
    change (selectTask i (insertQueue queueId i Delete
              {| d_id := i; d_title := None; d_description := None;
                 d_completed := None; d_updated_at := now |} now
              (updateTasksWhere i (setDeleted now) (db w))))
      with (selectTask i (updateTasksWhere i (setDeleted now) (db w))).
    rewrite Hsel. reflexivity.
  - intros all Hall. unfold getAllTasks, bind, dbGet, ret, selectActive in *.
    cbn [fst db insertQueue updateTasksWhere tasks] in *.
    inversion Hall. rewrite rows_of_deleted.
    rewrite (filter_map_commute mapRowToTask). reflexivity.
  - cbn [db insertQueue updateTasksWhere tasks]. rewrite map_map.
    apply map_ext. intros r. now destruct (String.eqb (row_id r) i).
  - exact Hsel.
  - split; [reflexivity|]. repeat split.
    intros j Hj. rewrite !getTask_run. unfold selectTask.
    cbn [fst db insertQueue updateTasksWhere tasks].
    rewrite find_other_id; [reflexivity | exact Hj | reflexivity].
Qed.

Lemma delete_hides_task_witness :
  exists w',
    deleteTask "A" "q2" 200 Examples.oneTaskWorld = (Ok true, w') /\
    getTask "A" w' = (Ok None, w') /\
    fst (getAllTasks w') = Ok [].
Proof.
  destruct (delete_hides_task "A" "q2" 200 Examples.oneTaskWorld
              (Examples.rowA false Pending) eq_refl eq_refl eq_refl)
    as [w' [e [E [Hg [Hall _]]]]].
  exists w'. split; [exact E|]. split; [exact Hg|].
  exact (Hall _ eq_refl).
Defined.

Lemma find_unique_row (l : list TaskRow) (r : TaskRow) :
  NoDup (map row_id l) -> In r l ->
  find (fun x => String.eqb (row_id x) (row_id r)) l = Some r.
Proof.
  induction l as [|a l IH]; simpl; intros Hnd Hin; [destruct Hin|].
  inversion Hnd as [|? ? Hnot Hnd']; subst.
  destruct Hin as [->|Hin].
  - now rewrite String.eqb_refl.
  - destruct (String.eqb_spec (row_id a) (row_id r)) as [E|_].
    + exfalso. apply Hnot. rewrite E. now apply in_map.
    + now apply IH.
Qed.

(** X5. Listing and lookup agree.  When the stored task ids are distinct,
    [getAllTasks] lists exactly the tasks that [getTask] finds under their
    own id; neither call changes the world. *)
Theorem listing_agrees_with_lookup (w : World) :
  NoDup (map row_id (tasks (db w))) ->
  exists all,
    getAllTasks w = (Ok all, w) /\
    forall t, In t all <-> getTask (id t) w = (Ok (Some t), w).
Proof.
  intros Hnd. eexists. split; [reflexivity|].
  intros t. rewrite getTask_run. unfold selectActive, selectTask. split.
  - intros Hin. apply in_map_iff in Hin. destruct Hin as [r [<- Hr]].
    apply filter_In in Hr. destruct Hr as [Hr Hlive].
    change (id (mapRowToTask r)) with (row_id r).
    rewrite (find_unique_row _ r Hnd Hr).
    destruct (row_is_deleted r); [discriminate | reflexivity].
  - intros H.
    destruct (find (fun r => String.eqb (row_id r) (id t)) (tasks (db w))) as [r|] eqn:E;
      [|discriminate].
    destruct (row_is_deleted r) eqn:Hd; [discriminate|].
    inversion H as [Ht]. apply in_map_iff. exists r. split; [reflexivity|].
    apply filter_In. apply find_some in E. split; [tauto|]. now rewrite Hd.
Qed.

Lemma listing_agrees_with_lookup_witness :
  exists all,
    getAllTasks Examples.threeEntriesWorld = (Ok all, Examples.threeEntriesWorld) /\
    In (mapRowToTask Examples.rowB) all.
Proof.
  destruct (listing_agrees_with_lookup Examples.threeEntriesWorld) as [all [E H]].
  - repeat constructor; simpl; intuition discriminate.
  - exists all. split; [exact E|]. apply H. reflexivity.
Defined.

Lemma dbRun_inv (stmt : Store -> Store) (w w' : World) (r : Outcome unit) :
  dbRun stmt w = (r, w') ->
  outbox w' = outbox w /\
  ((r = Ok tt /\ db w' = stmt (db w)) \/ (r = Thrown "SQLITE_ERROR" /\ db w' = db w)).
Proof.
  unfold dbRun. destruct (faults w) as [|[] fs]; intros H; inversion H; subst; simpl; auto.
Qed.

(** X6. What still needs syncing.  [getTasksNeedingSync] lists, in the same
    order, the tasks of [getAllTasks] whose [sync_status] is pending or
    error: none of them is deleted or synced.  Once [updateSyncStatus] has
    marked a task synced, no task of that id is listed. *)
Theorem needing_sync_listing (w : World) :
  exists all needing,
    getAllTasks w = (Ok all, w) /\
    getTasksNeedingSync w = (Ok needing, w) /\
    needing = filter (fun t => pendingOrError (sync_status t)) all /\
    (forall t, In t needing -> is_deleted t = false /\ sync_status t <> Synced) /\
    (forall now i sid w' after,
        updateSyncStatus now i Synced sid w = (Ok tt, w') ->
        fst (getTasksNeedingSync w') = Ok after ->
        forall t, In t after -> id t <> i).
Proof.
  eexists _, _. split; [reflexivity|]. split; [reflexivity|].
  split; [| split].
  - unfold selectNeedingSync, selectActive.
    rewrite (filter_map_commute mapRowToTask).
    f_equal. induction (tasks (db w)) as [|r l IH]; simpl; [reflexivity|].
    destruct (row_is_deleted r); simpl.
    + rewrite Bool.andb_false_r. exact IH.
    + rewrite Bool.andb_true_r. destruct (pendingOrError (row_sync_status r)); simpl;
        now rewrite IH.
  - intros t Hin. apply in_map_iff in Hin. destruct Hin as [r [<- Hr]].
    unfold selectNeedingSync in Hr. apply filter_In in Hr. destruct Hr as [_ Hr].
    apply Bool.andb_true_iff in Hr. destruct Hr as [Hp Hd]. simpl.
    split; [now destruct (row_is_deleted r)|].
    intros Hs. rewrite Hs in Hp. discriminate.
  - intros now i sid w' after Hrun Hafter t Hin.
    unfold updateSyncStatus, bind in Hrun.
    destruct (dbRun _ w) as [[[]|e|] w1] eqn:E1; try discriminate.
    apply dbRun_inv in E1. destruct E1 as [_ [[_ D1]|[D1 _]]]; [|discriminate].
    apply dbRun_inv in Hrun. destruct Hrun as [_ [[_ D2]|[D2 _]]]; [|discriminate].
    unfold getTasksNeedingSync, bind, dbGet, ret in Hafter. simpl in Hafter.
    inversion Hafter; subst after. clear Hafter.
    apply in_map_iff in Hin. destruct Hin as [r [<- Hr]].
    unfold selectNeedingSync in Hr. apply filter_In in Hr. destruct Hr as [Hr Hp].
    rewrite D2, D1 in Hr. cbn [tasks deleteQueueWhereTask updateTasksWhere] in Hr.
    apply in_update in Hr. simpl.
    destruct Hr as [[r0 [_ [_ ->]]]|[_ Hne]]; [|exact Hne].
    simpl in Hp. discriminate.
Qed.

Lemma needing_sync_listing_witness :
  exists after,
    fst (getTasksNeedingSync
           (snd (updateSyncStatus 900 "A" Synced (Some "srv-1") Examples.threeEntriesWorld)))
      = Ok after /\
    forall t, In t after -> id t <> "A".
Proof.
  destruct (needing_sync_listing Examples.threeEntriesWorld)
    as [all [needing [_ [_ [_ [_ H]]]]]].
  eexists. split; [reflexivity|].
  exact (H 900%Z "A" (Some "srv-1") _ _ eq_refl eq_refl).
Defined.

(** ** Sync engine: further runs *)

(** X7. A run over an empty queue posts nothing, writes nothing and reports
    [success] with no item synced or failed, whatever the batch size (0
    included), the remote and the step budget. *)
Theorem sync_empty_queue (remote : nat -> list SyncQueueItem -> HttpReply)
    (batchSize : nat) (now : Z) (fuel : nat) (w : World) :
  sync_queue (db w) = [] ->
  sync remote batchSize now fuel w =
  (Ok {| success := true; synced_items := 0; failed_items := 0; errors := [] |}, w).
Proof.
  intros Hq. unfold sync, selectQueue. rewrite Hq.
  destruct fuel; reflexivity.
Qed.

Lemma sync_empty_queue_witness :
  sync (Examples.rejecting "Network Error") 0 900 0 Examples.deletedWorld =
  (Ok {| success := true; synced_items := 0; failed_items := 0; errors := [] |},
   Examples.deletedWorld).
Proof. apply sync_empty_queue. reflexivity. Defined.

Section ConflictWithoutLocal.

Variable remote : nat -> list SyncQueueItem -> HttpReply.
Variable now : Z.

(** X9. A conflict with resolution data for a task that is not stored, or is
    soft-deleted, cannot be resolved: reading the local task gives null and
    the resolver throws on it.  Applying the result changes nothing and
    throws; when it is the first result of a batch's response, the [catch]
    block takes over: nothing of the batch is counted as synced, every item
    of the batch is counted as failed with that error's message, and no queue
    entry is removed. *)
Theorem conflict_without_local_task (batch : list SyncQueueItem) (p : ProcessedItem)
    (original : SyncQueueItem) (serverTask : Task) (s : Run) :
  find (fun q => String.eqb (task_id q) (client_id p)) batch = Some original ->
  status p = StatusConflict ->
  resolved_data p = Some serverTask ->
  (selectTask (client_id p) (db (world s)) = None \/
   exists r, selectTask (client_id p) (db (world s)) = Some r /\ row_is_deleted r = true) ->
  applyProcessed now batch p s =
    (Thrown "Cannot read properties of null (reading 'updated_at')", s) /\
  (forall rest,
      faults (world s) = [] ->
      remote (List.length (outbox (world s))) batch =
        Replied {| processed_items := p :: rest |} ->
      exists s',
        syncBatch remote now batch s = (Ok tt, s') /\
        synced s' = synced s /\
        failed s' = failed s + List.length batch /\
        errorList s' = errorList s ++
          map (fun item =>
                 {| e_task_id := task_id item; e_operation := operation item;
                    e_error := "Cannot read properties of null (reading 'updated_at')";
                    e_timestamp := now |}) batch /\
        map q_id (sync_queue (db (world s'))) = map q_id (sync_queue (db (world s)))).
Proof.
  intros Hfind Hst Hd Hgone.
  destruct (find_task_id batch (client_id p) original Hfind) as [_ Hid].
  assert (Hthrow : forall s0,
             db (world s0) = db (world s) ->
             applyProcessed now batch p s0 =
             (Thrown "Cannot read properties of null (reading 'updated_at')", s0)).
  { intros s0 Hdb. unfold applyProcessed. rewrite Hfind, Hst, Hd.
    erewrite bind_ok; [cbv beta | apply liftW_ok; apply getTask_run].
    rewrite Hid, Hdb.
    destruct Hgone as [-> | [r [-> ->]]]; destruct s0; reflexivity. }
  split; [now apply Hthrow|].
  intros rest Hf Hrep.
  unfold syncBatch, tryCatch, bind, liftW, processBatch. rewrite Hrep.
  cbn [applyAll processed_items]. unfold bind.
  rewrite Hthrow by reflexivity.
  match goal with |- context [failAll now batch ?m ?s1] =>
    destruct (failAll_run now batch m s1 Hf) as [E _]; rewrite E
  end.
  eexists. split; [reflexivity|]. cbn [synced failed errorList world].
  repeat split.
  now rewrite failAll_ids.
Qed.

End ConflictWithoutLocal.

Lemma conflict_without_local_task_witness :
  exists s',
    syncBatch (Examples.answering [Examples.conflictResult "A" (Some (Examples.taskRemote 10))])
              900
              [Examples.entry "q1" "A" Delete 100 0; Examples.entry "q2" "B" Update 200 0]
              {| world := Examples.deletedAndLiveWorld; synced := 0; failed := 0;
                 errorList := [] |} = (Ok tt, s') /\
    synced s' = 0 /\ failed s' = 2.
Proof.
  destruct (proj2 (conflict_without_local_task
                     (Examples.answering
                        [Examples.conflictResult "A" (Some (Examples.taskRemote 10))])
                     900
                     [Examples.entry "q1" "A" Delete 100 0;
                      Examples.entry "q2" "B" Update 200 0]
                     (Examples.conflictResult "A" (Some (Examples.taskRemote 10)))
                     (Examples.entry "q1" "A" Delete 100 0)
                     (Examples.taskRemote 10)
                     {| world := Examples.deletedAndLiveWorld; synced := 0; failed := 0;
                        errorList := [] |}
                     eq_refl eq_refl eq_refl
                     (or_intror (ex_intro _ (Examples.rowA true Pending)
                                          (conj eq_refl eq_refl))))
              [] eq_refl eq_refl)
    as [s' [E [H1 [H2 _]]]].
  exists s'. repeat split; assumption.
Defined.

(** ** A run in which every post is rejected *)

Section AllRejected.

Variable remote : nat -> list SyncQueueItem -> HttpReply.
Variable batchSize : nat.
Variable now : Z.
Variable msg : string.

Lemma failStep_db_ext (item : SyncQueueItem) (w1 w2 : World) :
  faults w1 = [] -> faults w2 = [] -> db w1 = db w2 ->
  db (snd (handleSyncError now item msg w1)) = db (snd (handleSyncError now item msg w2)).
Proof.
  intros H1 H2 Hdb. rewrite !handleSyncError_run by assumption. cbn [snd db].
  now rewrite Hdb.
Qed.

Lemma failAll_db_ext (items : list SyncQueueItem) (w1 w2 : World) :
  faults w1 = [] -> faults w2 = [] -> db w1 = db w2 ->
  db (fold_left (fun w0 it0 => snd (handleSyncError now it0 msg w0)) items w1) =
  db (fold_left (fun w0 it0 => snd (handleSyncError now it0 msg w0)) items w2).
Proof.
  revert w1 w2. induction items as [|it rest IH]; intros w1 w2 H1 H2 Hdb; simpl.
  - exact Hdb.
  - apply IH; try (now apply handleSyncError_keeps). now apply failStep_db_ext.
Qed.

Lemma failAll_faults (items : list SyncQueueItem) (w : World) :
  faults w = [] ->
  faults (fold_left (fun w0 it0 => snd (handleSyncError now it0 msg w0)) items w) = [].
Proof.
  revert w. induction items as [|it rest IH]; intros w Hf; simpl; [exact Hf|].
  apply IH. now apply handleSyncError_keeps.
Qed.

Hypothesis batchSize_positive : 0 < batchSize.
Hypothesis always_rejected : forall n b, remote n b = Rejected msg.

Lemma syncBatch_rejected (batch : list SyncQueueItem) (s : Run) :
  faults (world s) = [] ->
  exists s',
    syncBatch remote now batch s = (Ok tt, s') /\
    faults (world s') = [] /\
    db (world s') =
      db (fold_left (fun w0 it0 => snd (handleSyncError now it0 msg w0)) batch (world s)) /\
    synced s' = synced s /\ failed s' = failed s + List.length batch.
Proof.
  intros Hf. unfold syncBatch, tryCatch, bind, liftW, processBatch.
  rewrite always_rejected.
  match goal with |- context [failAll now batch msg ?s1] =>
    destruct (failAll_run now batch msg s1 Hf) as [E [Hf' _]]; rewrite E
  end.
  eexists. split; [reflexivity|]. cbn [world synced failed] in *.
  split; [exact Hf'|]. split; [|split; reflexivity].
  apply failAll_db_ext; auto.
Qed.

Lemma syncLoop_rejected (fuel : nat) (items : list SyncQueueItem) (i : nat) (s : Run) :
  List.length items - i <= fuel ->
  faults (world s) = [] ->
  exists s',
    syncLoop remote batchSize now fuel items i s = (Ok tt, s') /\
    faults (world s') = [] /\
    db (world s') =
      db (fold_left (fun w0 it0 => snd (handleSyncError now it0 msg w0))
                    (skipn i items) (world s)) /\
    synced s' = synced s /\
    failed s' = failed s + List.length (skipn i items).
Proof.
  revert i s. induction fuel as [|fuel IH]; intros i s Hfuel Hf.
  - simpl. destruct (Nat.ltb_spec i (List.length items)); [lia|].
    exists s. rewrite skipn_all2 by lia. simpl. repeat split; auto.
  - simpl. destruct (Nat.ltb_spec i (List.length items)) as [Hlt|Hge].
    + destruct (syncBatch_rejected (slice i (i + batchSize) items) s Hf)
        as [s1 [E1 [Hf1 [Hd1 [Hs1 Hn1]]]]].
      unfold bind. rewrite E1.
      destruct (IH (i + batchSize) s1) as [s2 [E2 [Hf2 [Hd2 [Hs2 Hn2]]]]];
        [lia | exact Hf1 |].
      exists s2. split; [exact E2|]. split; [exact Hf2|].
      assert (Hsplit : skipn i items =
                       slice i (i + batchSize) items ++ skipn (i + batchSize) items).
      { unfold slice. replace (i + batchSize - i) with batchSize by lia.
        rewrite (Nat.add_comm i batchSize), <- skipn_skipn.
        symmetry. apply firstn_skipn. }
      split; [| split].
      * rewrite Hd2, Hsplit, fold_left_app.
        apply failAll_db_ext; [exact Hf1 | now apply failAll_faults | exact Hd1].
      * lia.
      * rewrite Hn2, Hn1, Hsplit, length_app. lia.
    + exists s. rewrite skipn_all2 by lia. simpl. repeat split; auto.
Qed.

End AllRejected.

Section ConflictOutcome.

Variable remote : nat -> list SyncQueueItem -> HttpReply.
Variable now : Z.

Lemma conflict_local_run (batch : list SyncQueueItem) (p : ProcessedItem)
    (original : SyncQueueItem) (s : Run) (serverTask : Task) (r : TaskRow) (b : Z) :
  faults (world s) = [] ->
  find (fun q => String.eqb (task_id q) (client_id p)) batch = Some original ->
  status p = StatusConflict ->
  resolved_data p = Some serverTask ->
  selectTask (client_id p) (db (world s)) = Some r ->
  row_is_deleted r = false ->
  updated_at serverTask = Valid b ->
  (b <= row_updated_at r)%Z ->
  applyProcessed now batch p s =
  (Ok tt,
   {| world := {| db := deleteQueueWhereTask (row_id r)
                          (persistResolved now (mapRowToTask r) (row_updated_at r)
                             (p_server_id p) (db (world s)));
                  faults := []; outbox := outbox (world s) |};
      synced := synced s + 1; failed := failed s; errorList := errorList s |}).
Proof.
  intros Hf Hfind Hst Hd Hsel Hlive Hb Hle.
  destruct (find_task_id batch (client_id p) original Hfind) as [_ Hid].
  unfold applyProcessed. rewrite Hfind, Hst, Hd.
  erewrite bind_ok; [cbv beta | apply liftW_ok; apply getTask_run].
  rewrite Hid, Hsel, Hlive.
  unfold bind at 1, resolvedToISOString, resolveConflict. rewrite Hb.
  cbn [mapRowToTask updated_at getTime js_ge].
  destruct (Z.leb_spec b (row_updated_at r)) as [_|Hlt]; [|lia].
  cbn [ret].
  erewrite bind_ok; [cbv beta | apply liftW_ok; simpl; now apply dbRun_accepted].
  erewrite bind_ok; [cbv beta | apply liftW_ok; simpl; now apply dbRun_accepted].
  reflexivity.
Qed.

Lemma conflict_remote_run (batch : list SyncQueueItem) (p : ProcessedItem)
    (original : SyncQueueItem) (s : Run) (serverTask : Task) (r : TaskRow) :
  find (fun q => String.eqb (task_id q) (client_id p)) batch = Some original ->
  status p = StatusConflict ->
  resolved_data p = Some serverTask ->
  selectTask (client_id p) (db (world s)) = Some r ->
  row_is_deleted r = false ->
  js_ge (Some (row_updated_at r)) (getTime (updated_at serverTask)) = false ->
  applyProcessed now batch p s =
  (Thrown "resolved.updated_at.toISOString is not a function", s).
Proof.
  intros Hfind Hst Hd Hsel Hlive Hlater.
  destruct (find_task_id batch (client_id p) original Hfind) as [_ Hid].
  unfold applyProcessed. rewrite Hfind, Hst, Hd.
  erewrite bind_ok; [cbv beta | apply liftW_ok; apply getTask_run].
  rewrite Hid, Hsel, Hlive.
  unfold bind, resolvedToISOString.
  cbn [mapRowToTask updated_at getTime]. rewrite Hlater.
  destruct s; reflexivity.
Qed.

(** X8. A conflict with resolution data, for a task that is stored and not
    deleted.  When the local [updated_at] is at least the remote one, the
    local task is the winner and is written back: its rows keep title,
    description, completed flag and [updated_at], become synced with
    [last_synced_at] the current time and [server_id] the one of the result
    (none if it carries none), every queue entry of the task is deleted, one
    item is counted as synced, and the rows of every other id are as before.
    When the remote [updated_at] is later, or is no valid date, the server's
    task is the winner, and formatting its [updated_at] throws before any
    statement is issued: nothing is written, and when this was the first
    result of a batch's response the [catch] block counts every item of the
    batch as failed with that error's message; nothing is counted as synced,
    no queue entry is removed, and no row takes a title, description,
    completed flag or [updated_at] from the remote data. *)
Theorem conflict_outcome (batch : list SyncQueueItem) (p : ProcessedItem)
    (original : SyncQueueItem) (s : Run) (serverTask : Task) (r : TaskRow) :
  faults (world s) = [] ->
  find (fun q => String.eqb (task_id q) (client_id p)) batch = Some original ->
  status p = StatusConflict ->
  resolved_data p = Some serverTask ->
  selectTask (client_id p) (db (world s)) = Some r ->
  row_is_deleted r = false ->
  (forall b, updated_at serverTask = Valid b -> (b <= row_updated_at r)%Z ->
     exists s',
       applyProcessed now batch p s = (Ok tt, s') /\
       synced s' = synced s + 1 /\ failed s' = failed s /\
       errorList s' = errorList s /\
       (forall x, In x (tasks (db (world s'))) -> row_id x = client_id p ->
          row_title x = row_title r /\ row_description x = row_description r /\
          row_completed x = row_completed r /\ row_updated_at x = row_updated_at r /\
          row_sync_status x = Synced /\ row_server_id x = p_server_id p /\
          row_last_synced_at x = Some now) /\
       sync_queue (db (world s')) =
         filter (fun q => negb (String.eqb (task_id q) (client_id p)))
                (sync_queue (db (world s))) /\
       (forall t, t <> client_id p -> rowsOf t (world s') = rowsOf t (world s))) /\
  ((updated_at serverTask = Invalid \/
    exists b, updated_at serverTask = Valid b /\ (row_updated_at r < b)%Z) ->
   applyProcessed now batch p s =
     (Thrown "resolved.updated_at.toISOString is not a function", s) /\
   (forall rest,
      remote (List.length (outbox (world s))) batch =
        Replied {| processed_items := p :: rest |} ->
      exists s',
        syncBatch remote now batch s = (Ok tt, s') /\
        synced s' = synced s /\
        failed s' = failed s + List.length batch /\
        errorList s' = errorList s ++
          map (fun item =>
                 {| e_task_id := task_id item; e_operation := operation item;
                    e_error := "resolved.updated_at.toISOString is not a function";
                    e_timestamp := now |}) batch /\
        map q_id (sync_queue (db (world s'))) = map q_id (sync_queue (db (world s))) /\
        map (fun x => (row_id x, row_title x, row_description x, row_completed x,
                       row_updated_at x, row_server_id x, row_last_synced_at x))
            (tasks (db (world s'))) =
        map (fun x => (row_id x, row_title x, row_description x, row_completed x,
                       row_updated_at x, row_server_id x, row_last_synced_at x))
            (tasks (db (world s))) /\
        (forall x, In x (tasks (db (world s'))) -> row_sync_status x <> Synced \/
                                                   In x (tasks (db (world s)))))).
Proof.
  intros Hf Hfind Hst Hd Hsel Hlive.
  assert (Hrid : row_id r = client_id p).
  { unfold selectTask in Hsel. apply find_some in Hsel. now apply String.eqb_eq. }
  split.
  - intros b Hb Hle.
    rewrite (conflict_local_run batch p original s serverTask r b
               Hf Hfind Hst Hd Hsel Hlive Hb Hle).
    eexists. split; [reflexivity|].
    cbn [synced failed errorList world db].
    split; [reflexivity|]. split; [reflexivity|]. split; [reflexivity|].
    unfold persistResolved, rowsOf.
    cbn [tasks sync_queue deleteQueueWhereTask updateTasksWhere mapRowToTask id world db].
    rewrite Hrid. split; [| split].
    + intros x Hx Hxid. apply in_update in Hx.
      destruct Hx as [[r0 [_ [_ ->]]]|[_ Hne]]; [|contradiction].
      cbn. repeat split.
    + reflexivity.
    + intros t Ht. apply rows_frame; [now apply not_eq_sym | reflexivity].
  - intros Hlater.
    assert (Hge : js_ge (Some (row_updated_at r)) (getTime (updated_at serverTask)) = false).
    { destruct Hlater as [-> | [b [-> Hlt]]]; [reflexivity|].
      cbn [getTime js_ge]. apply Z.leb_gt. exact Hlt. }
    assert (Hthrow : forall s0,
               db (world s0) = db (world s) ->
               applyProcessed now batch p s0 =
               (Thrown "resolved.updated_at.toISOString is not a function", s0)).
    { intros s0 Hdb.
      apply (conflict_remote_run batch p original s0 serverTask r Hfind Hst Hd);
        [rewrite Hdb; exact Hsel | exact Hlive | exact Hge]. }
    split; [now apply Hthrow|].
    intros rest Hrep.
    unfold syncBatch, tryCatch, bind, liftW, processBatch. rewrite Hrep.
    cbn [applyAll processed_items]. unfold bind.
    rewrite Hthrow by reflexivity.
    match goal with |- context [failAll now batch ?m ?s1] =>
      destruct (failAll_run now batch m s1 Hf) as [E _]; rewrite E
    end.
    eexists. split; [reflexivity|]. cbn [synced failed errorList world].
    split; [reflexivity|]. split; [reflexivity|]. split; [reflexivity|].
    split; [now rewrite failAll_ids|].
    rewrite failAll_tasks by exact Hf. cbn [db tasks]. split.
    + rewrite map_map. apply map_ext. intros x. now destruct (existsb _ batch).
    + intros x Hx. apply in_map_iff in Hx. destruct Hx as [x0 [<- Hx0]].
      destruct (existsb _ batch); [left; discriminate | now right].
Qed.

End ConflictOutcome.

Lemma conflict_outcome_witness :
  (exists s',
      applyProcessed 900 [Examples.entry "q1" "A" Create 100 0]
                     (Examples.conflictResult "A" (Some (Examples.taskRemote 10)))
                     {| world := Examples.oneTaskWorld; synced := 0; failed := 0;
                        errorList := [] |} = (Ok tt, s') /\
      (forall x, In x (tasks (db (world s'))) -> row_id x = "A" ->
                 row_title x = "Buy milk" /\ row_sync_status x = Synced) /\
      sync_queue (db (world s')) = []) /\
  (exists s',
      syncBatch (Examples.answering
                   [Examples.conflictResult "A" (Some (Examples.taskRemote 200))])
                900 [Examples.entry "q1" "A" Create 100 0]
                {| world := Examples.oneTaskWorld; synced := 0; failed := 0;
                   errorList := [] |} = (Ok tt, s') /\
      synced s' = 0 /\ failed s' = 1 /\
      map e_error (errorList s') =
        ["resolved.updated_at.toISOString is not a function"] /\
      map q_id (sync_queue (db (world s'))) = ["q1"]).
Proof.
  split.
  - destruct (proj1 (conflict_outcome
                       (Examples.answering [])
                       900 [Examples.entry "q1" "A" Create 100 0]
                       (Examples.conflictResult "A" (Some (Examples.taskRemote 10)))
                       (Examples.entry "q1" "A" Create 100 0)
                       {| world := Examples.oneTaskWorld; synced := 0; failed := 0;
                          errorList := [] |}
                       (Examples.taskRemote 10) (Examples.rowA false Pending)
                       eq_refl eq_refl eq_refl eq_refl eq_refl eq_refl)
                    10%Z eq_refl)
      as [s' [E [_ [_ [_ [Hrows [Hq _]]]]]]]; [simpl; lia|].
    exists s'. split; [exact E|]. split; [|exact Hq].
    intros x Hx Hid. destruct (Hrows x Hx Hid) as [A1 [_ [_ [_ [A5 _]]]]].
    split; [exact A1 | exact A5].
  - destruct (proj2 (conflict_outcome
                       (Examples.answering
                          [Examples.conflictResult "A" (Some (Examples.taskRemote 200))])
                       900 [Examples.entry "q1" "A" Create 100 0]
                       (Examples.conflictResult "A" (Some (Examples.taskRemote 200)))
                       (Examples.entry "q1" "A" Create 100 0)
                       {| world := Examples.oneTaskWorld; synced := 0; failed := 0;
                          errorList := [] |}
                       (Examples.taskRemote 200) (Examples.rowA false Pending)
                       eq_refl eq_refl eq_refl eq_refl eq_refl eq_refl))
      as [_ Hbatch].
    + right. exists 200%Z. split; [reflexivity | simpl; lia].
    + destruct (Hbatch [] eq_refl) as [s' [E [H1 [H2 [H3 [H4 _]]]]]].
      exists s'. split; [exact E|]. split; [exact H1|]. split; [exact H2|].
      split; [rewrite H3; reflexivity | exact H4].
Defined.

Lemma existsb_perm {A : Type} (f : A -> bool) (l l' : list A) :
  Permutation l l' -> existsb f l = existsb f l'.
Proof.
  intros Hp. destruct (existsb f l) eqn:E1; destruct (existsb f l') eqn:E2; try reflexivity.
  - apply existsb_exists in E1. destruct E1 as [x [Hin Hx]].
    assert (existsb f l' = true).
    { apply existsb_exists. exists x. split; [|exact Hx].
      eapply Permutation_in; eassumption. }
    congruence.
  - apply existsb_exists in E2. destruct E2 as [x [Hin Hx]].
    assert (existsb f l = true).
    { apply existsb_exists. exists x. split; [|exact Hx].
      eapply Permutation_in; [apply Permutation_sym|]; eassumption. }
    congruence.
Qed.

Lemma rejected_run_effect (remote : nat -> list SyncQueueItem -> HttpReply)
    (batchSize : nat) (now : Z) (msg : string) (w : World) :
  0 < batchSize ->
  (forall n b, remote n b = Rejected msg) ->
  faults w = [] ->
  NoDup (map q_id (sync_queue (db w))) ->
  exists r w',
    sync remote batchSize now (List.length (sync_queue (db w))) w = (Ok r, w') /\
    faults w' = [] /\
    synced_items r = 0 /\
    failed_items r = List.length (sync_queue (db w)) /\
    sync_queue (db w') =
      map (fun q => setFailed (retry_count q + 1) msg q) (sync_queue (db w)) /\
    tasks (db w') =
      map (fun r => if existsb (fun q => andb (String.eqb (task_id q) (row_id r))
                                              (3 <=? retry_count q + 1)%nat)
                               (sync_queue (db w))
                    then setError r else r)
          (tasks (db w)).
Proof.
  intros Hpos Hrej Hf Hnd.
  pose proof (orderByCreatedAt_perm (sync_queue (db w))) as Hperm.
  fold (selectQueue (db w)) in Hperm.
  assert (Hlen : List.length (selectQueue (db w)) = List.length (sync_queue (db w))).
  { now apply Permutation_length. }
  destruct (syncLoop_rejected remote batchSize now msg Hpos Hrej
              (List.length (sync_queue (db w))) (selectQueue (db w)) 0
              {| world := w; synced := 0; failed := 0; errorList := [] |})
    as [s' [E [Hf' [Hdb [Hs Hn]]]]]; [lia | exact Hf |].
  unfold sync. rewrite E. eexists _, _. split; [reflexivity|].
  cbn [synced_items failed_items world skipn synced failed] in *.
  split; [exact Hf'|]. split; [exact Hs|]. split; [lia|].
  rewrite Hdb. split.
  - rewrite failAll_queue; [| exact Hf |].
    + apply map_ext_in. intros q Hq.
      rewrite find_unique_entry; [reflexivity | |].
      * eapply Permutation_NoDup; [|exact Hnd].
        apply Permutation_map, Permutation_sym, Hperm.
      * eapply Permutation_in; [apply Permutation_sym, Hperm | exact Hq].
    + eapply Permutation_NoDup; [|exact Hnd].
      apply Permutation_map, Permutation_sym, Hperm.
  - rewrite failAll_tasks by exact Hf.
    apply map_ext. intros r. now rewrite (existsb_perm _ _ _ Hperm).
Qed.

(** X10. A run in which the remote rejects every post (it is unreachable, or
    answers with an error status), on a queue whose entry ids are distinct:
    the run returns, nothing is synced and every entry is counted as failed;
    the queue keeps all its entries in their order, each with [retry_count]
    one higher and the error's message stored; a task row is set to [error]
    exactly when one of its entries reached a count of 3, and every other
    row is untouched. *)
Theorem all_rejected_run (remote : nat -> list SyncQueueItem -> HttpReply)
    (batchSize : nat) (now : Z) (msg : string) (w : World) :
  0 < batchSize ->
  (forall n b, remote n b = Rejected msg) ->
  faults w = [] ->
  NoDup (map q_id (sync_queue (db w))) ->
  exists r w',
    sync remote batchSize now (List.length (sync_queue (db w))) w = (Ok r, w') /\
    faults w' = [] /\
    synced_items r = 0 /\
    failed_items r = List.length (sync_queue (db w)) /\
    sync_queue (db w') =
      map (fun q => setFailed (retry_count q + 1) msg q) (sync_queue (db w)) /\
    tasks (db w') =
      map (fun r => if existsb (fun q => andb (String.eqb (task_id q) (row_id r))
                                              (3 <=? retry_count q + 1)%nat)
                               (sync_queue (db w))
                    then setError r else r)
          (tasks (db w)) /\
    map q_id (sync_queue (db w')) = map q_id (sync_queue (db w)) /\
    map retry_count (sync_queue (db w')) =
      map (fun q => retry_count q + 1) (sync_queue (db w)) /\
    map error_message (sync_queue (db w')) =
      map (fun _ => Some msg) (sync_queue (db w)) /\
    map row_sync_status (tasks (db w')) =
      map (fun r => if existsb (fun q => andb (String.eqb (task_id q) (row_id r))
                                              (3 <=? retry_count q + 1)%nat)
                               (sync_queue (db w))
                    then Error else row_sync_status r)
          (tasks (db w)).
Proof.
  intros Hpos Hrej Hf Hnd.
  destruct (rejected_run_effect remote batchSize now msg w Hpos Hrej Hf Hnd)
    as [r [w' [E [Hf' [Hs [Hn [Hq Ht]]]]]]].
  exists r, w'. split; [exact E|]. split; [exact Hf'|]. split; [exact Hs|].
  split; [exact Hn|]. split; [exact Hq|]. split; [exact Ht|].
  rewrite Hq, Ht, !map_map. cbn [q_id retry_count error_message setFailed].
  split; [reflexivity|]. split; [reflexivity|]. split; [reflexivity|].
  apply map_ext. intros x. now destruct (existsb _ (sync_queue (db w))).
Qed.

Lemma all_rejected_run_witness :
  exists r w',
    sync (Examples.rejecting "Network Error") 2 900 3 Examples.threeEntriesWorld
      = (Ok r, w') /\
    failed_items r = 3 /\
    map retry_count (sync_queue (db w')) = [1; 1; 3].
Proof.
  destruct (all_rejected_run (Examples.rejecting "Network Error") 2 900 "Network Error"
              Examples.threeEntriesWorld (Nat.lt_0_succ 1) (fun _ _ => eq_refl) eq_refl)
    as [r [w' [E [_ [_ [Hn [_ [_ [_ [Hq _]]]]]]]]]].
  - repeat constructor; simpl; intuition discriminate.
  - exists r, w'. split; [exact E|]. split; [exact Hn|]. rewrite Hq. reflexivity.
Defined.

Lemma existsb_map_ext {A B : Type} (f : B -> bool) (g : A -> B) (h : A -> bool)
    (l : list A) :
  (forall x, In x l -> f (g x) = h x) -> existsb f (map g l) = existsb h l.
Proof.
  induction l as [|x l IH]; simpl; intros H; [reflexivity|].
  rewrite (H x (or_introl eq_refl)), IH; [reflexivity|].
  intros y Hy. apply H. now right.
Qed.

(** X11. Three strikes.  Starting from entries that have never failed (and have
    distinct ids), three runs in a row in which every post is rejected
    behave as follows: after the second run no task row has changed; after
    the third, every entry is still queued, in order, with [retry_count] 3
    and the message, and the rows set to [error] are exactly those of the
    tasks that have a queue entry. *)
Theorem three_rejected_runs (remote : nat -> list SyncQueueItem -> HttpReply)
    (batchSize : nat) (now : Z) (msg : string) (w : World) :
  0 < batchSize ->
  (forall n b, remote n b = Rejected msg) ->
  faults w = [] ->
  NoDup (map q_id (sync_queue (db w))) ->
  (forall q, In q (sync_queue (db w)) -> retry_count q = 0) ->
  exists r1 w1 r2 w2 r3 w3,
    sync remote batchSize now (List.length (sync_queue (db w))) w = (Ok r1, w1) /\
    sync remote batchSize now (List.length (sync_queue (db w))) w1 = (Ok r2, w2) /\
    sync remote batchSize now (List.length (sync_queue (db w))) w2 = (Ok r3, w3) /\
    tasks (db w2) = tasks (db w) /\
    sync_queue (db w2) = map (setFailed 2 msg) (sync_queue (db w)) /\
    sync_queue (db w3) = map (setFailed 3 msg) (sync_queue (db w)) /\
    tasks (db w3) =
      map (fun r => if existsb (fun q => String.eqb (task_id q) (row_id r))
                               (sync_queue (db w))
                    then setError r else r)
          (tasks (db w)) /\
    map retry_count (sync_queue (db w2)) = map (fun _ => 2) (sync_queue (db w)) /\
    map q_id (sync_queue (db w3)) = map q_id (sync_queue (db w)) /\
    map retry_count (sync_queue (db w3)) = map (fun _ => 3) (sync_queue (db w)) /\
    map error_message (sync_queue (db w3)) =
      map (fun _ => Some msg) (sync_queue (db w)) /\
    map row_sync_status (tasks (db w3)) =
      map (fun r => if existsb (fun q => String.eqb (task_id q) (row_id r))
                               (sync_queue (db w))
                    then Error else row_sync_status r)
          (tasks (db w)).
Proof.
  intros Hpos Hrej Hf Hnd Hzero.
  assert (Hids : forall n l, map q_id (map (setFailed n msg) l) = map q_id l).
  { intros n l. rewrite map_map. now apply map_ext. }
  destruct (rejected_run_effect remote batchSize now msg w Hpos Hrej Hf Hnd)
    as [r1 [w1 [E1 [Hf1 [_ [_ [Hq1 Ht1]]]]]]].
  assert (Q1 : sync_queue (db w1) = map (setFailed 1 msg) (sync_queue (db w))).
  { rewrite Hq1. apply map_ext_in. intros q Hq. now rewrite (Hzero q Hq). }
  assert (T1 : tasks (db w1) = tasks (db w)).
  { rewrite Ht1. rewrite <- (map_id (tasks (db w))) at 2. apply map_ext. intros r.
    rewrite (existsb_ext_in _ (fun _ => false)).
    - now rewrite existsb_never.
    - intros q Hq. rewrite (Hzero q Hq). simpl. apply Bool.andb_false_r. }
  destruct (rejected_run_effect remote batchSize now msg w1 Hpos Hrej Hf1)
    as [r2 [w2 [E2 [Hf2 [_ [_ [Hq2 Ht2]]]]]]].
  { rewrite Q1, Hids. exact Hnd. }
  assert (Q2 : sync_queue (db w2) = map (setFailed 2 msg) (sync_queue (db w))).
  { rewrite Hq2, Q1, map_map. now apply map_ext. }
  assert (T2 : tasks (db w2) = tasks (db w)).
  { rewrite Ht2, T1. rewrite <- (map_id (tasks (db w))) at 2. apply map_ext. intros r.
    rewrite Q1. rewrite (existsb_map_ext _ _ (fun _ => false)).
    - now rewrite existsb_never.
    - intros q _. simpl. apply Bool.andb_false_r. }
  destruct (rejected_run_effect remote batchSize now msg w2 Hpos Hrej Hf2)
    as [r3 [w3 [E3 [Hf3 [_ [_ [Hq3 Ht3]]]]]]].
  { rewrite Q2, Hids. exact Hnd. }
  assert (L1 : List.length (sync_queue (db w1)) = List.length (sync_queue (db w))).
  { now rewrite Q1, length_map. }
  assert (L2 : List.length (sync_queue (db w2)) = List.length (sync_queue (db w))).
  { now rewrite Q2, length_map. }
  rewrite L1 in E2. rewrite L2 in E3.
  exists r1, w1, r2, w2, r3, w3.
  split; [exact E1|]. split; [exact E2|]. split; [exact E3|].
  assert (Q3 : sync_queue (db w3) = map (setFailed 3 msg) (sync_queue (db w))).
  { rewrite Hq3, Q2, map_map. now apply map_ext. }
  assert (T3 : tasks (db w3) =
               map (fun r => if existsb (fun q => String.eqb (task_id q) (row_id r))
                                        (sync_queue (db w))
                             then setError r else r)
                   (tasks (db w))).
  { rewrite Ht3, T2. apply map_ext. intros r.
    rewrite Q2. rewrite (existsb_map_ext _ _ (fun q => String.eqb (task_id q) (row_id r))).
    - reflexivity.
    - intros q _. simpl. apply Bool.andb_true_r. }
  split; [exact T2|]. split; [exact Q2|]. split; [exact Q3|]. split; [exact T3|].
  rewrite Q2, Q3, T3, !map_map. cbn [q_id retry_count error_message setFailed].
  split; [reflexivity|]. split; [reflexivity|]. split; [reflexivity|].
  split; [reflexivity|].
  apply map_ext. intros x. now destruct (existsb _ (sync_queue (db w))).
Qed.

Lemma three_rejected_runs_witness :
  exists w3,
    snd (sync (Examples.rejecting "down") 50 900 1
           (snd (sync (Examples.rejecting "down") 50 900 1
                   (snd (sync (Examples.rejecting "down") 50 900 1
                              Examples.oneTaskWorld))))) = w3 /\
    map retry_count (sync_queue (db w3)) = [3] /\
    map row_sync_status (tasks (db w3)) = [Error].
Proof.
  destruct (three_rejected_runs (Examples.rejecting "down") 50 900 "down"
              Examples.oneTaskWorld (Nat.lt_0_succ 49) (fun _ _ => eq_refl) eq_refl)
    as [r1 [w1 [r2 [w2 [r3 [w3 [E1 [E2 [E3 [_ [_ [_ [_ [_ [_ [Hq [_ Ht]]]]]]]]]]]]]]]]].
  - repeat constructor. intros [].
  - intros q [<-|[]]. reflexivity.
  - exists w3. split.
    + simpl List.length in E1, E2, E3. rewrite E1. simpl snd. rewrite E2. simpl snd.
      now rewrite E3.
    + rewrite Hq, Ht. split; reflexivity.
Defined.

(** ** A run in which the remote accepts every item *)

Lemma filter_filter_and {A : Type} (f g : A -> bool) (l : list A) :
  filter f (filter g l) = filter (fun x => andb (g x) (f x)) l.
Proof.
  induction l as [|x l IH]; simpl; [reflexivity|].
  destruct (g x); simpl; [destruct (f x)|]; now rewrite IH.
Qed.

Section AllAccepted.

Variable remote : nat -> list SyncQueueItem -> HttpReply.
Variable batchSize : nat.
Variable now : Z.
Variable w0 : World.

Lemma handled_step (done : list string) (cid : string) (sid : option string) (w : World) :
  handled now w0 done w ->
  handled now w0 (cid :: done)
          {| db := deleteQueueWhereTask cid (updateTasksWhere cid (setSynced sid now) (db w));
             faults := []; outbox := outbox w |}.
Proof.
  intros [Hf [Hq [Hrows Hframe]]]. unfold handled.
  cbn [db faults sync_queue tasks deleteQueueWhereTask updateTasksWhere existsb].
  split; [reflexivity|]. split; [| split].
  - rewrite Hq, filter_filter_and. apply filter_ext. intros q.
    rewrite Bool.negb_orb. apply Bool.andb_comm.
  - intros r Hr Hin. apply in_update in Hr.
    destruct Hr as [[r0 [_ [_ ->]]]|[Hr Hne]]; [split; reflexivity|].
    apply Hrows; [exact Hr|].
    apply String.eqb_neq in Hne. now rewrite Hne in Hin.
  - intros t Ht. apply Bool.orb_false_iff in Ht. destruct Ht as [Hne Ht].
    rewrite <- (Hframe t Ht). unfold rowsOf.
    cbn [db tasks deleteQueueWhereTask updateTasksWhere].
    apply rows_frame; [|reflexivity].
    apply String.eqb_neq in Hne. now apply not_eq_sym.
Qed.

Lemma applyAll_accepted (batch : list SyncQueueItem) (ps : list ProcessedItem)
    (done : list string) (s : Run) :
  handled now w0 done (world s) ->
  (forall p, In p ps -> status p = StatusSuccess /\
                        exists o, In o batch /\ task_id o = client_id p) ->
  exists s',
    applyAll now batch ps s = (Ok tt, s') /\
    handled now w0 (rev (map client_id ps) ++ done) (world s') /\
    outbox (world s') = outbox (world s) /\
    synced s' = synced s + List.length ps /\
    failed s' = failed s /\ errorList s' = errorList s.
Proof.
  revert done s. induction ps as [|p ps IH]; intros done s Hh Hps.
  - exists s. simpl. rewrite Nat.add_0_r.
    split; [reflexivity|]. split; [exact Hh|]. repeat split; reflexivity.
  - destruct (Hps p (or_introl eq_refl)) as [Hst [o [Ho Hoid]]].
    destruct (find_exists (fun b => String.eqb (task_id b) (client_id p)) batch o Ho)
      as [original Hfind]; [now apply String.eqb_eq|].
    destruct (find_task_id batch (client_id p) original Hfind) as [_ Hid].
    assert (Hf : faults (world s) = []) by apply Hh.
    cbn [applyAll]. unfold bind at 1. unfold applyProcessed. rewrite Hfind, Hst.
    erewrite bind_ok;
      [cbv beta | apply liftW_ok; now apply updateSyncStatus_synced_run].
    cbn [countSynced]. rewrite Hid.
    match goal with |- context [applyAll now batch ps ?s1] =>
      destruct (IH (client_id p :: done) s1) as [s' [E [Hh' [Ho' [Hs' [Hf' He']]]]]]
    end.
    + cbn [world]. now apply handled_step.
    + intros q Hq. apply Hps. now right.
    + exists s'. split; [exact E|]. cbn [world synced failed errorList] in *.
      split.
      * cbn [map rev]. rewrite <- app_assoc. exact Hh'.
      * split; [exact Ho'|]. split; [|split; assumption].
        rewrite Hs'. cbn [List.length]. lia.
Qed.

Hypothesis batchSize_positive : 0 < batchSize.
Hypothesis always_accepted :
  forall n b, exists ps,
    remote n b = Replied {| processed_items := ps |} /\
    map client_id ps = map task_id b /\
    (forall p, In p ps -> status p = StatusSuccess).

Lemma syncBatch_accepted (batch : list SyncQueueItem) (done : list string) (s : Run) :
  handled now w0 done (world s) ->
  exists s',
    syncBatch remote now batch s = (Ok tt, s') /\
    handled now w0 (rev (map task_id batch) ++ done) (world s') /\
    synced s' = synced s + List.length batch /\
    failed s' = failed s /\ errorList s' = errorList s.
Proof.
  intros Hh.
  destruct (always_accepted (List.length (outbox (world s))) batch) as [ps [Hrep [Hids Hst]]].
  unfold syncBatch, tryCatch, bind, liftW, processBatch. rewrite Hrep.
  cbn [processed_items].
  match goal with |- context [applyAll now batch ps ?s1] =>
    destruct (applyAll_accepted batch ps done s1) as [s' [E [Hh' [_ [Hs' [Hf' He']]]]]]
  end.
  - exact Hh.
  - intros p Hp. split; [now apply Hst|].
    assert (Hin : In (client_id p) (map task_id batch)).
    { rewrite <- Hids. now apply in_map. }
    apply in_map_iff in Hin. destruct Hin as [o [Ho1 Ho2]]. eauto.
  - rewrite E. exists s'. split; [reflexivity|]. cbn [synced failed errorList] in *.
    rewrite <- Hids. split; [exact Hh'|].
    rewrite Hs'. rewrite <- (length_map client_id ps), Hids, length_map. auto.
Qed.

Lemma syncLoop_accepted (fuel : nat) (items : list SyncQueueItem) (i : nat)
    (done : list string) (s : Run) :
  List.length items - i <= fuel ->
  handled now w0 done (world s) ->
  exists s',
    syncLoop remote batchSize now fuel items i s = (Ok tt, s') /\
    handled now w0 (rev (map task_id (skipn i items)) ++ done) (world s') /\
    synced s' = synced s + List.length (skipn i items) /\
    failed s' = failed s /\ errorList s' = errorList s.
Proof.
  revert i done s. induction fuel as [|fuel IH]; intros i done s Hfuel Hh.
  - simpl. destruct (Nat.ltb_spec i (List.length items)); [lia|].
    exists s. rewrite skipn_all2 by lia. simpl. rewrite Nat.add_0_r.
    split; [reflexivity|]. split; [exact Hh|]. repeat split; reflexivity.
  - simpl. destruct (Nat.ltb_spec i (List.length items)) as [Hlt|Hge].
    + destruct (syncBatch_accepted (slice i (i + batchSize) items) done s Hh)
        as [s1 [E1 [Hh1 [Hs1 [Hf1 He1]]]]].
      unfold bind. rewrite E1.
      destruct (IH (i + batchSize) _ s1 ltac:(lia) Hh1) as [s2 [E2 [Hh2 [Hs2 [Hf2 He2]]]]].
      exists s2. split; [exact E2|].
      assert (Hsplit : skipn i items =
                       slice i (i + batchSize) items ++ skipn (i + batchSize) items).
      { unfold slice. replace (i + batchSize - i) with batchSize by lia.
        rewrite (Nat.add_comm i batchSize), <- skipn_skipn.
        symmetry. apply firstn_skipn. }
      rewrite Hsplit, map_app, rev_app_distr, <- app_assoc, length_app.
      split; [exact Hh2|]. split; [lia|]. split; congruence.
    + exists s. rewrite skipn_all2 by lia. simpl. rewrite Nat.add_0_r.
      split; [reflexivity|]. split; [exact Hh|]. repeat split; reflexivity.
Qed.

End AllAccepted.

Lemma filter_all {A : Type} (f : A -> bool) (l : list A) :
  (forall x, In x l -> f x = true) -> filter f l = l.
Proof.
  induction l as [|x l IH]; simpl; intros H; [reflexivity|].
  rewrite (H x (or_introl eq_refl)), IH; [reflexivity|].
  intros y Hy. apply H. now right.
Qed.

Lemma in_done (t : string) (items : list SyncQueueItem) :
  existsb (String.eqb t) (rev (map task_id items) ++ []) = true <->
  exists q, In q items /\ task_id q = t.
Proof.
  rewrite app_nil_r, existsb_exists. split.
  - intros [x [Hin Hx]]. apply String.eqb_eq in Hx. subst x.
    apply in_rev in Hin. apply in_map_iff in Hin. destruct Hin as [q [E Hq]]. eauto.
  - intros [q [Hq E]]. exists t. split; [|apply String.eqb_refl].
    apply in_rev. rewrite rev_involutive. rewrite <- E. now apply in_map.
Qed.

(** X12. The happy path.  When the remote answers every post with one success
    per submitted item, a run (positive batch size, database accepting its
    writes) reports [success] with as many items synced as there were queue
    entries and none failed; it leaves the queue empty, every task that had a
    queue entry synced with [last_synced_at] the current time, and the rows
    of every other task as they were.  A further run then has nothing to do:
    it posts nothing and changes nothing. *)
Theorem all_accepted_run (remote : nat -> list SyncQueueItem -> HttpReply)
    (batchSize : nat) (now : Z) (w : World) :
  0 < batchSize ->
  (forall n b, exists ps,
      remote n b = Replied {| processed_items := ps |} /\
      map client_id ps = map task_id b /\
      (forall p, In p ps -> status p = StatusSuccess)) ->
  faults w = [] ->
  exists w',
    sync remote batchSize now (List.length (sync_queue (db w))) w =
      (Ok {| success := true; synced_items := List.length (sync_queue (db w));
             failed_items := 0; errors := [] |}, w') /\
    sync_queue (db w') = [] /\
    (forall x, In x (tasks (db w')) ->
               (exists q, In q (sync_queue (db w)) /\ task_id q = row_id x) ->
               row_sync_status x = Synced /\ row_last_synced_at x = Some now) /\
    (forall t, (forall q, In q (sync_queue (db w)) -> task_id q <> t) ->
               rowsOf t w' = rowsOf t w) /\
    (forall fuel,
        sync remote batchSize now fuel w' =
        (Ok {| success := true; synced_items := 0; failed_items := 0; errors := [] |}, w')).
Proof.
  intros Hpos Hacc Hf.
  pose proof (orderByCreatedAt_perm (sync_queue (db w))) as Hperm.
  fold (selectQueue (db w)) in Hperm.
  assert (Hlen : List.length (selectQueue (db w)) = List.length (sync_queue (db w))).
  { now apply Permutation_length. }
  assert (Hstart : handled now w [] w).
  { unfold handled. split; [exact Hf|]. split; [| split].
    - symmetry. now apply filter_all.
    - intros r _ H. discriminate H.
    - reflexivity. }
  destruct (syncLoop_accepted remote batchSize now w Hpos Hacc
              (List.length (sync_queue (db w))) (selectQueue (db w)) 0 []
              {| world := w; synced := 0; failed := 0; errorList := [] |})
    as [s' [E [[Hf' [Hq [Hrows Hframe]]] [Hs [Hfl He]]]]]; [lia | exact Hstart |].
  cbn [skipn synced failed errorList world] in *.
  assert (Hempty : sync_queue (db (world s')) = []).
  { rewrite Hq. apply filter_none. intros q Hin.
    apply Bool.negb_false_iff. apply in_done. exists q. split; [|reflexivity].
    eapply Permutation_in; [apply Permutation_sym, Hperm | exact Hin]. }
  unfold sync at 1. rewrite E, Hfl, He, Hs, Hlen. exists (world s').
  split; [reflexivity|]. split; [exact Hempty|]. split; [| split].
  - intros x Hx [q [Hqin Hqid]]. apply Hrows; [exact Hx|].
    apply in_done. exists q. split; [|exact Hqid].
    eapply Permutation_in; [apply Permutation_sym, Hperm | exact Hqin].
  - intros t Hnone. apply Hframe.
    destruct (existsb (String.eqb t) (rev (map task_id (selectQueue (db w))) ++ []))
      eqn:Ex; [|reflexivity].
    apply in_done in Ex. destruct Ex as [q [Hqin Hqid]].
    exfalso. apply (Hnone q); [|exact Hqid].
    eapply Permutation_in; [exact Hperm | exact Hqin].
  - intros fuel. unfold sync, selectQueue. rewrite Hempty.
    destruct fuel; reflexivity.
Qed.

Lemma all_accepted_run_witness :
  exists w',
    sync (fun _ b => Replied {| processed_items :=
                                  map (fun q => Examples.successResult (task_id q) "srv")
                                      b |})
         2 900 3 Examples.threeEntriesWorld =
      (Ok {| success := true; synced_items := 3; failed_items := 0; errors := [] |}, w') /\
    sync_queue (db w') = [].
Proof.
  destruct (all_accepted_run
              (fun _ b => Replied {| processed_items :=
                                       map (fun q => Examples.successResult (task_id q) "srv")
                                           b |})
              2 900 Examples.threeEntriesWorld (Nat.lt_0_succ 1))
    as [w' [E [Hq _]]].
  - intros n b. eexists. split; [reflexivity|]. split.
    + rewrite map_map. reflexivity.
    + intros p Hp. apply in_map_iff in Hp. destruct Hp as [q [<- _]]. reflexivity.
  - reflexivity.
  - exists w'. split; [exact E | exact Hq].
Defined.

(** ** What a run never does *)

Lemma keepsShape_refl (s : Store) : keepsShape s s.
Proof.
  unfold keepsShape. split; [reflexivity|]. split; [|lia]. intros q Hq. eauto.
Qed.

Lemma keepsShape_trans (s1 s2 s3 : Store) :
  keepsShape s1 s2 -> keepsShape s2 s3 -> keepsShape s1 s3.
Proof.
  intros [A1 [B1 C1]] [A2 [B2 C2]]. unfold keepsShape.
  split; [congruence|]. split; [|lia].
  intros q3 H3. destruct (B2 q3 H3) as [q2 [H2 E2]].
  destruct (B1 q2 H2) as [q1 [H1 E1]]. exists q1. split; [exact H1 | congruence].
Qed.

Lemma keepsShape_update_tasks (i : string) (g : TaskRow -> TaskRow) (s : Store) :
  (forall r, rowShape (g r) = rowShape r) ->
  keepsShape s (updateTasksWhere i g s).
Proof.
  intros Hg. unfold keepsShape, updateTasksWhere. cbn [tasks sync_queue].
  split; [| split; [|lia]].
  - rewrite map_map. apply map_ext. intros r.
    destruct (String.eqb (row_id r) i); [apply Hg | reflexivity].
  - intros q Hq. eauto.
Qed.

Lemma keepsShape_delete_queue (t : string) (s : Store) :
  keepsShape s (deleteQueueWhereTask t s).
Proof.
  unfold keepsShape, deleteQueueWhereTask. cbn [tasks sync_queue].
  split; [reflexivity|]. split.
  - intros q Hq. apply filter_In in Hq. exists q. tauto.
  - apply filter_length_le.
Qed.

Lemma keepsShape_update_queue (qid : string) (n : nat) (msg : string) (s : Store) :
  keepsShape s (updateQueueWhereId qid n msg s).
Proof.
  unfold keepsShape, updateQueueWhereId. cbn [tasks sync_queue].
  split; [reflexivity|]. split.
  - intros q' Hq'. apply in_map_iff in Hq'. destruct Hq' as [q [E Hq]].
    exists q. split; [exact Hq|].
    destruct (String.eqb (q_id q) qid); subst q'; reflexivity.
  - now rewrite length_map.
Qed.

Lemma dbRun_keeps (stmt : Store -> Store) (w w' : World) (r : Outcome unit) :
  (forall d, keepsShape d (stmt d)) ->
  dbRun stmt w = (r, w') ->
  keepsShape (db w) (db w') /\ outbox w' = outbox w.
Proof.
  intros Hstmt H. apply dbRun_inv in H. destruct H as [Ho [[_ D]|[_ D]]]; rewrite D.
  - split; [apply Hstmt | exact Ho].
  - split; [apply keepsShape_refl | exact Ho].
Qed.

Section NeverDoes.

Variable remote : nat -> list SyncQueueItem -> HttpReply.
Variable batchSize : nat.
Variable now : Z.

Lemma updateSyncStatus_keeps (t : string) (st : SyncStatus) (sid : option string)
    (w w' : World) (r : Outcome unit) :
  updateSyncStatus now t st sid w = (r, w') ->
  keepsShape (db w) (db w') /\ outbox w' = outbox w.
Proof.
  assert (Herr : forall w0 w1 r0,
             dbRun (updateTasksWhere t setError) w0 = (r0, w1) ->
             keepsShape (db w0) (db w1) /\ outbox w1 = outbox w0).
  { intros w0 w1 r0. apply dbRun_keeps. intros d.
    now apply keepsShape_update_tasks. }
  unfold updateSyncStatus. destruct st; try apply Herr.
  unfold bind. intros H.
  destruct (dbRun (updateTasksWhere t (setSynced sid now)) w) as [[[]|e|] w1] eqn:E1.
  - apply dbRun_keeps in E1; [|intros d; now apply keepsShape_update_tasks].
    apply dbRun_keeps in H; [|intros d; apply keepsShape_delete_queue].
    destruct E1 as [K1 O1]. destruct H as [K2 O2].
    split; [eapply keepsShape_trans; eassumption | congruence].
  - apply dbRun_keeps in E1; [|intros d; now apply keepsShape_update_tasks].
    inversion H; subst. exact E1.
  - apply dbRun_keeps in E1; [|intros d; now apply keepsShape_update_tasks].
    inversion H; subst. exact E1.
Qed.

Lemma handleSyncError_keeps_shape (item : SyncQueueItem) (msg : string)
    (w w' : World) (r : Outcome unit) :
  handleSyncError now item msg w = (r, w') ->
  keepsShape (db w) (db w') /\ outbox w' = outbox w.
Proof.
  unfold handleSyncError, bind. intros H.
  destruct (dbRun _ w) as [[[]|e|] w1] eqn:E1;
    (apply dbRun_keeps in E1; [|intros d; apply keepsShape_update_queue]).
  - destruct E1 as [K1 O1].
    destruct (3 <=? retry_count item + 1)%nat.
    + apply updateSyncStatus_keeps in H. destruct H as [K2 O2].
      split; [eapply keepsShape_trans; eassumption | congruence].
    + inversion H; subst. auto.
  - inversion H; subst. exact E1.
  - inversion H; subst. exact E1.
Qed.

(** The property followed: the store keeps its shape and nothing is posted. *)
Lemma applyProcessed_keeps_shape (batch : list SyncQueueItem) (p : ProcessedItem)
    (s s' : Run) (r : Outcome unit) :
  applyProcessed now batch p s = (r, s') ->
  keepsShape (db (world s)) (db (world s')) /\ outbox (world s') = outbox (world s).
Proof.
  assert (Hfail : forall original msg shown s1 r1,
    (liftW (handleSyncError now original msg) ;;;
     countFailed {| e_task_id := task_id original; e_operation := operation original;
                    e_error := shown; e_timestamp := now |}) s = (r1, s1) ->
    keepsShape (db (world s)) (db (world s1)) /\ outbox (world s1) = outbox (world s)).
  { intros original msg shown s1 r1 H. unfold bind in H.
    destruct (liftW (handleSyncError now original msg) s) as [[[]|e|] s2] eqn:E;
      apply liftW_inv in E; destruct E as [E _];
      apply handleSyncError_keeps_shape in E;
      inversion H; subst; exact E. }
  unfold applyProcessed.
  destruct (find _ batch) as [original|].
  2:{ intros H. inversion H; subst. split; [apply keepsShape_refl | reflexivity]. }
  destruct (status p).
  - unfold bind. intros H.
    destruct (liftW (updateSyncStatus now (task_id original) Synced (p_server_id p)) s)
      as [[[]|e|] s2] eqn:E;
      apply liftW_inv in E; destruct E as [E _];
      apply updateSyncStatus_keeps in E;
      inversion H; subst; exact E.
  - destruct (resolved_data p) as [serverTask|]; [|apply Hfail].
    unfold bind at 1. intros H.
    destruct (liftW (getTask (task_id original)) s) as [rl s2] eqn:E.
    apply liftW_inv in E. destruct E as [E _]. rewrite getTask_run in E.
    injection E as Hl Hw. subst rl. rewrite Hw.
    destruct (match selectTask (task_id original) (db (world s)) with
              | Some r0 => if row_is_deleted r0 then None else Some (mapRowToTask r0)
              | None => None
              end) as [l|].
    2:{ inversion H; subst.
        split; [apply keepsShape_refl | reflexivity]. }
    unfold bind at 1, resolvedToISOString in H.
    destruct (js_ge _ _); [destruct (updated_at l) as [ms|] |].
    2,3: inversion H; subst; split; [apply keepsShape_refl | reflexivity].
    cbn [ret] in H. unfold bind in H.
    destruct (liftW (dbRun (persistResolved now (resolveConflict l serverTask) ms
                              (p_server_id p))) s2) as [[[]|e|] s3] eqn:E3;
      apply liftW_inv in E3; destruct E3 as [E3 _];
      (apply dbRun_keeps in E3;
       [|intros d; unfold persistResolved; now apply keepsShape_update_tasks]).
    + destruct (liftW (dbRun (deleteQueueWhereTask (id (resolveConflict l serverTask)))) s3)
        as [[[]|e|] s4] eqn:E4;
        apply liftW_inv in E4; destruct E4 as [E4 _];
        (apply dbRun_keeps in E4; [|intros d; apply keepsShape_delete_queue]);
        inversion H; subst; cbn [world];
        destruct E3 as [K3 O3]; destruct E4 as [K4 O4];
        (split; [eapply keepsShape_trans; eassumption | congruence]).
    + inversion H; subst. exact E3.
    + inversion H; subst. exact E3.
  - apply Hfail.
Qed.

End NeverDoes.

Section NeverDoesRun.

Variable remote : nat -> list SyncQueueItem -> HttpReply.
Variable batchSize : nat.
Variable now : Z.

Lemma applyAll_keeps_shape (batch : list SyncQueueItem) (ps : list ProcessedItem)
    (s s' : Run) (r : Outcome unit) :
  applyAll now batch ps s = (r, s') ->
  keepsShape (db (world s)) (db (world s')) /\ outbox (world s') = outbox (world s).
Proof.
  revert s. induction ps as [|p ps IH]; intros s H.
  - inversion H; subst. split; [apply keepsShape_refl | reflexivity].
  - cbn [applyAll] in H. unfold bind in H.
    destruct (applyProcessed now batch p s) as [[[]|e|] s1] eqn:E;
      apply applyProcessed_keeps_shape in E; destruct E as [K1 O1].
    + apply IH in H. destruct H as [K2 O2].
      split; [eapply keepsShape_trans; eassumption | congruence].
    + inversion H; subst. auto.
    + inversion H; subst. auto.
Qed.

Lemma failAll_keeps_shape (items : list SyncQueueItem) (msg : string)
    (s s' : Run) (r : Outcome unit) :
  failAll now items msg s = (r, s') ->
  keepsShape (db (world s)) (db (world s')) /\ outbox (world s') = outbox (world s).
Proof.
  revert s. induction items as [|item rest IH]; intros s H.
  - inversion H; subst. split; [apply keepsShape_refl | reflexivity].
  - cbn [failAll] in H. unfold bind at 1 in H.
    destruct (liftW (handleSyncError now item msg) s) as [[[]|e|] s1] eqn:E;
      apply liftW_inv in E; destruct E as [E _];
      apply handleSyncError_keeps_shape in E; destruct E as [K1 O1].
    + unfold bind in H. cbn [countFailed] in H. apply IH in H.
      cbn [world] in H. destruct H as [K2 O2].
      split; [eapply keepsShape_trans; eassumption | congruence].
    + inversion H; subst. auto.
    + inversion H; subst. auto.
Qed.

Lemma syncBatch_keeps_shape (batch : list SyncQueueItem) (s s' : Run) (r : Outcome unit) :
  syncBatch remote now batch s = (r, s') ->
  keepsShape (db (world s)) (db (world s')) /\
  outbox (world s') = outbox (world s) ++ [batch].
Proof.
  unfold syncBatch, tryCatch, bind, liftW, processBatch. intros H.
  destruct (remote (List.length (outbox (world s))) batch) as [body|msg].
  - match type of H with context [applyAll now batch _ ?s1] =>
      destruct (applyAll now batch (processed_items body) s1) as [[[]|e|] s2] eqn:E;
        apply applyAll_keeps_shape in E; cbn [world db outbox] in E;
        destruct E as [K1 O1]
    end.
    + inversion H; subst. auto.
    + apply failAll_keeps_shape in H. destruct H as [K2 O2].
      split; [eapply keepsShape_trans; eassumption | congruence].
    + inversion H; subst. auto.
  - apply failAll_keeps_shape in H. cbn [world db outbox] in H. exact H.
Qed.

Lemma syncLoop_keeps_shape (fuel : nat) (items : list SyncQueueItem) (i : nat)
    (s s' : Run) (r : Outcome unit) :
  syncLoop remote batchSize now fuel items i s = (r, s') ->
  keepsShape (db (world s)) (db (world s')) /\
  exists sent, outbox (world s') = outbox (world s) ++ sent.
Proof.
  revert i s. induction fuel as [|fuel IH]; intros i s H; cbn [syncLoop] in H;
    destruct (i <? List.length items)%nat.
  - inversion H; subst. split; [apply keepsShape_refl|]. exists []. now rewrite app_nil_r.
  - inversion H; subst. split; [apply keepsShape_refl|]. exists []. now rewrite app_nil_r.
  - unfold bind in H.
    destruct (syncBatch remote now (slice i (i + batchSize) items) s)
      as [[[]|e|] s1] eqn:E;
      apply syncBatch_keeps_shape in E; destruct E as [K1 O1].
    + apply IH in H. destruct H as [K2 [sent O2]].
      split; [eapply keepsShape_trans; eassumption|].
      exists (slice i (i + batchSize) items :: sent).
      rewrite O2, O1, <- app_assoc. reflexivity.
    + inversion H; subst. split; [exact K1|]. eauto.
    + inversion H; subst. split; [exact K1|]. eauto.
  - inversion H; subst. split; [apply keepsShape_refl|]. exists []. now rewrite app_nil_r.
Qed.

(** X13. Whatever the remote answers, whatever the database does with the writes
    it is asked for, and however the run ends (a summary, an error that
    escapes, or no end within the budget), a sync run never inserts or
    removes a task row and never changes a row's id, creation time or
    deletion flag; it never adds a queue entry and never changes the id,
    task, operation, data snapshot or creation time of one; and what had
    been posted before stays on record, in order. *)
Theorem sync_keeps_shape (fuel : nat) (w : World) :
  keepsShape (db w) (db (snd (sync remote batchSize now fuel w))) /\
  exists sent, outbox (snd (sync remote batchSize now fuel w)) = outbox w ++ sent.
Proof.
  unfold sync.
  destruct (syncLoop remote batchSize now fuel (selectQueue (db w)) 0
              {| world := w; synced := 0; failed := 0; errorList := [] |})
    as [[[]|e|] s'] eqn:E;
    apply syncLoop_keeps_shape in E; exact E.
Qed.

End NeverDoesRun.

(** ** The status and sync routes *)

Lemma maxLastSynced_fold (l : list TaskRow) (acc : option Z) :
  let res := fold_left (fun a r =>
                          match row_last_synced_at r with
                          | None => a
                          | Some x => match a with
                                      | None => Some x
                                      | Some y => Some (Z.max y x)
                                      end
                          end) l acc in
  (res = None <-> acc = None /\ forall r, In r l -> row_last_synced_at r = None) /\
  (forall m, res = Some m ->
     (acc = Some m \/ exists r, In r l /\ row_last_synced_at r = Some m) /\
     (forall a, acc = Some a -> (a <= m)%Z) /\
     (forall r x, In r l -> row_last_synced_at r = Some x -> (x <= m)%Z)).
Proof.
  revert acc. induction l as [|r l IH]; intros acc; cbn [fold_left].
  - split.
    + split; [intros H; split; [exact H | intros r []] | intros [H _]; exact H].
    + intros m Hm. split; [now left|]. split.
      * intros a Ha. rewrite Hm in Ha. inversion Ha. lia.
      * intros r x [].
  - destruct (row_last_synced_at r) as [x|] eqn:Hr.
    + destruct (IH (match acc with None => Some x | Some y => Some (Z.max y x) end))
        as [IH1 IH2].
      split.
      * split.
        -- intros H. apply IH1 in H. destruct H as [H _]. destruct acc; discriminate.
        -- intros [_ H]. specialize (H r (or_introl eq_refl)). congruence.
      * intros m Hm. destruct (IH2 m Hm) as [Hsrc [Hacc Hall]].
        split; [| split].
        -- destruct Hsrc as [Hsrc|[r0 [Hin Hr0]]].
           ++ destruct acc as [y|].
              ** inversion Hsrc as [Hmax].
                 destruct (Z.max_spec y x) as [[_ E]|[_ E]]; rewrite E.
                 --- right. exists r. split; [now left|]. now rewrite Hr.
                 --- now left.
              ** right. exists r. split; [now left|]. now rewrite Hr.
           ++ right. exists r0. split; [now right | exact Hr0].
        -- intros a Ha. subst acc. specialize (Hacc _ eq_refl). lia.
        -- intros r0 x0 [<-|Hin] Hx0.
           ++ rewrite Hr in Hx0. inversion Hx0; subst x0.
              destruct acc as [y|]; specialize (Hacc _ eq_refl); lia.
           ++ now apply (Hall r0).
    + destruct (IH acc) as [IH1 IH2]. split.
      * split.
        -- intros H. apply IH1 in H. destruct H as [Ha Hl]. split; [exact Ha|].
           intros r0 [<-|Hin]; [exact Hr | now apply Hl].
        -- intros [Ha Hl]. apply IH1. split; [exact Ha|].
           intros r0 Hin. apply Hl. now right.
      * intros m Hm. destruct (IH2 m Hm) as [Hsrc [Hacc Hall]].
        split; [| split].
        -- destruct Hsrc as [Hsrc|[r0 [Hin Hr0]]]; [now left|].
           right. exists r0. split; [now right | exact Hr0].
        -- exact Hacc.
        -- intros r0 x0 [<-|Hin] Hx0; [congruence | now apply (Hall r0)].
Qed.

Lemma filter_split_length {A : Type} (f g : A -> bool) (l : list A) :
  List.length (filter f l) =
  List.length (filter (fun x => andb (f x) (negb (g x))) l) +
  List.length (filter (fun x => andb (f x) (g x)) l).
Proof.
  induction l as [|x l IH]; simpl; [reflexivity|].
  destruct (f x); destruct (g x); simpl; lia.
Qed.

(** X14. [GET /status] reads and never writes.  It answers with the number of
    queue entries, the outcome of the connectivity probe, and the number of
    task rows whose [sync_status] is pending or error: that is the number of
    tasks [getTasksNeedingSync] lists plus the soft-deleted rows in those
    states.  [last_sync_timestamp] is null exactly when no row has been
    synced, and otherwise the latest [last_synced_at] of the table. *)
Theorem status_reports_counts (healthy : bool) (w : World) :
  exists body,
    getStatus healthy w = (Ok (StatusJson body), w) /\
    is_online body = healthy /\
    sync_queue_size body = List.length (sync_queue (db w)) /\
    (forall needing, fst (getTasksNeedingSync w) = Ok needing ->
       pending_sync_count body =
       List.length needing +
       List.length (filter (fun r => andb (pendingOrError (row_sync_status r))
                                          (row_is_deleted r)) (tasks (db w)))) /\
    (last_sync_timestamp body = None <->
     forall r, In r (tasks (db w)) -> row_last_synced_at r = None) /\
    (forall m, last_sync_timestamp body = Some m ->
       (exists r, In r (tasks (db w)) /\ row_last_synced_at r = Some m) /\
       (forall r x, In r (tasks (db w)) -> row_last_synced_at r = Some x -> (x <= m)%Z)).
Proof.
  eexists. split.
  { unfold getStatus, tryCatch, bind, dbGet, checkConnectivity, ret, throw.
    destruct healthy; reflexivity. }
  cbn [is_online sync_queue_size pending_sync_count last_sync_timestamp].
  split; [now destruct healthy|]. split; [reflexivity|].
  destruct (maxLastSynced_fold (tasks (db w)) None) as [Hnone Hsome].
  split; [| split].
  - intros needing Hn. unfold getTasksNeedingSync, bind, dbGet, ret in Hn.
    cbn [fst] in Hn. inversion Hn. rewrite length_map.
    unfold countPending, selectNeedingSync.
    apply (filter_split_length (fun r => pendingOrError (row_sync_status r))
                               row_is_deleted).
  - unfold maxLastSynced. rewrite Hnone. split; [intros [_ H]; exact H | auto].
  - intros m Hm. unfold maxLastSynced in Hm. destruct (Hsome m Hm) as [Hsrc [_ Hall]].
    split; [|exact Hall].
    destruct Hsrc as [Hsrc|Hsrc]; [discriminate | exact Hsrc].
Qed.

Lemma status_reports_counts_witness :
  exists body,
    getStatus false Examples.deletedAndLiveWorld =
      (Ok (StatusJson body), Examples.deletedAndLiveWorld) /\
    pending_sync_count body = 2 /\ last_sync_timestamp body = None.
Proof.
  destruct (status_reports_counts false Examples.deletedAndLiveWorld)
    as [body [E [_ [_ [Hp [Hl _]]]]]].
  exists body. split; [exact E|]. split.
  - exact (Hp _ eq_refl).
  - apply Hl. intros r [<-|[<-|[]]]; reflexivity.
Defined.

Lemma slice_first_nonempty (batchSize : nat) (items : list SyncQueueItem) :
  0 < batchSize -> items <> [] ->
  exists x rest, slice 0 (0 + batchSize) items = x :: rest.
Proof.
  intros Hpos Hne. unfold slice. cbn [Nat.add skipn]. rewrite Nat.sub_0_r.
  destruct batchSize as [|n]; [lia|]. destruct items as [|x items]; [contradiction|].
  simpl. eauto.
Qed.

(** X15. A database failure while a failed batch is being recorded is not caught:
    when the post of the first batch is rejected and the database then
    rejects the first write of the failure bookkeeping, [sync] throws the
    database's error, with the store untouched and no further batch posted,
    and [POST /sync] answers 500 "Failed to sync". *)
Theorem sync_aborts_on_db_failure (remote : nat -> list SyncQueueItem -> HttpReply)
    (batchSize : nat) (now : Z) (fuel : nat) (msg : string) (w : World) :
  0 < batchSize ->
  sync_queue (db w) <> [] ->
  remote (List.length (outbox w)) (slice 0 (0 + batchSize) (selectQueue (db w)))
    = Rejected msg ->
  nth 0 (faults w) false = true ->
  let w' := {| db := db w; faults := tl (faults w);
               outbox := outbox w ++ [slice 0 (0 + batchSize) (selectQueue (db w))] |} in
  sync remote batchSize now (S fuel) w = (Thrown "SQLITE_ERROR", w') /\
  postSync remote batchSize now true (S fuel) w = (Ok (Error500 "Failed to sync"), w').
Proof.
  intros Hpos Hne Hrej Hfault w'.
  assert (Hitems : selectQueue (db w) <> []).
  { intros H. apply Hne. apply Permutation_nil.
    rewrite <- H. apply orderByCreatedAt_perm. }
  destruct (slice_first_nonempty batchSize (selectQueue (db w)) Hpos Hitems)
    as [x [rest Hslice]].
  assert (Hsync : sync remote batchSize now (S fuel) w = (Thrown "SQLITE_ERROR", w')).
  { unfold sync. cbn [syncLoop].
    destruct (Nat.ltb_spec 0 (List.length (selectQueue (db w)))) as [_|Hlen].
    2:{ destruct (selectQueue (db w)); [contradiction | simpl in Hlen; lia]. }
    unfold bind at 1. unfold syncBatch, tryCatch.
    unfold bind at 1. unfold liftW at 1. unfold processBatch. cbn [world].
    rewrite Hrej. unfold w'. rewrite Hslice.
    cbn [failAll]. unfold bind at 1. unfold liftW. cbn [world].
    unfold handleSyncError. unfold bind at 1.
    rewrite dbRun_fail by exact Hfault. reflexivity. }
  split; [exact Hsync|].
  unfold postSync, tryCatch, bind. cbn [checkConnectivity].
  unfold checkConnectivity, tryCatch, bind, ret. cbn [negb].
  rewrite Hsync. reflexivity.
Qed.

Lemma sync_aborts_on_db_failure_witness :
  postSync (Examples.rejecting "Network Error") 50 900 true 1
           {| db := db Examples.oneTaskWorld; faults := [true]; outbox := [] |}
  = (Ok (Error500 "Failed to sync"),
     {| db := db Examples.oneTaskWorld; faults := [];
        outbox := [[Examples.entry "q1" "A" Create 100 0]] |}).
Proof.
  apply (proj2 (sync_aborts_on_db_failure (Examples.rejecting "Network Error") 50 900 0
                  "Network Error"
                  {| db := db Examples.oneTaskWorld; faults := [true]; outbox := [] |}
                  (Nat.lt_0_succ 49) ltac:(discriminate) eq_refl eq_refl)).
Defined.

(** ** The task routes *)

(** The response built for a stored row: its dates are always valid, so
    [toTaskResponse] does not throw on it. *)
Lemma toTaskResponse_row (r : TaskRow) (w : World) :
  toTaskResponse (mapRowToTask r) w =
  (Ok {| resp_id := row_id r; resp_title := row_title r;
         resp_description := row_description r; resp_completed := row_completed r;
         resp_created_at := row_created_at r; resp_updated_at := row_updated_at r;
         resp_is_deleted := row_is_deleted r; resp_sync_status := row_sync_status r;
         resp_server_id := row_server_id r;
         resp_last_synced_at := row_last_synced_at r |}, w).
Proof.
  unfold toTaskResponse, bind, toISOString, ret. simpl.
  destruct (row_last_synced_at r); reflexivity.
Qed.

(** X16. Validation comes first.  [POST /] answers 400 "title is required" unless
    the title is a non-empty string; [PUT /:id] answers 400 "completed must
    be a boolean" when [completed] is present and not a boolean and, failing
    that, 400 "title must be a string" when [title] is present and not a
    string.  In each case the handler stops there: nothing is looked up or
    written, whether or not the task exists. *)
Theorem routes_validate_first (w : World) (i queueId : string) (now : Z) :
  (forall body : CreateBody,
      (forall t, cb_title body = JString t -> t = "") ->
      createTaskRoute body i queueId now w = (Ok (Reply400 "title is required"), w)) /\
  (forall updates : UpdateBody,
      ub_completed updates <> JUndefined ->
      (forall b, ub_completed updates <> JBool b) ->
      updateTaskRoute i updates queueId now w =
        (Ok (Reply400 "completed must be a boolean"), w)) /\
  (forall updates : UpdateBody,
      (ub_completed updates = JUndefined \/ exists b, ub_completed updates = JBool b) ->
      ub_title updates <> JUndefined ->
      (forall t, ub_title updates <> JString t) ->
      updateTaskRoute i updates queueId now w =
        (Ok (Reply400 "title must be a string"), w)).
Proof.
  split; [| split].
  - intros body Htitle. unfold createTaskRoute, tryCatch.
    destruct (cb_title body) as [| |b|n|t] eqn:E; try reflexivity.
    + destruct b; reflexivity.
    + destruct (n =? 0)%Z eqn:En; simpl; rewrite En; reflexivity.
    + rewrite (Htitle t eq_refl). reflexivity.
  - intros updates H1 H2. unfold updateTaskRoute, tryCatch.
    destruct (ub_completed updates) as [| |b|n|t]; try reflexivity.
    + contradiction.
    + exfalso. now apply (H2 b).
  - intros updates Hc H1 H2. unfold updateTaskRoute, tryCatch.
    destruct Hc as [-> | [b ->]]; cbn [isUndefined isBoolean negb andb];
      (destruct (ub_title updates) as [| |b'|n|t]; try reflexivity;
       [contradiction | exfalso; now apply (H2 t)]).
Qed.

Lemma routes_validate_first_witness :
  createTaskRoute {| cb_title := JNumber 7; cb_description := None; cb_completed := None |}
                  "C" "q9" 500 Examples.oneTaskWorld
    = (Ok (Reply400 "title is required"), Examples.oneTaskWorld) /\
  updateTaskRoute "A" {| ub_title := JString "x"; ub_description := None;
                         ub_completed := JString "yes" |} "q9" 500 Examples.oneTaskWorld
    = (Ok (Reply400 "completed must be a boolean"), Examples.oneTaskWorld) /\
  updateTaskRoute "A" {| ub_title := JNull; ub_description := None;
                         ub_completed := JBool true |} "q9" 500 Examples.oneTaskWorld
    = (Ok (Reply400 "title must be a string"), Examples.oneTaskWorld).
Proof.
  destruct (routes_validate_first Examples.oneTaskWorld "A" "q9" 500) as [_ [H2 H3]].
  destruct (routes_validate_first Examples.oneTaskWorld "C" "q9" 500) as [H1 _].
  split; [| split].
  - apply H1. intros t Ht. discriminate Ht.
  - apply H2; [discriminate | intros b; discriminate].
  - apply H3; [right; exists true; reflexivity | discriminate | intros t; discriminate].
Defined.

(** X17. Post, then get.  [POST /] with a non-empty string title, under a fresh
    id and a database that accepts the two writes, answers 201 with the new
    task: the given title and description, [completed] false unless given,
    both dates the current time, not deleted, pending, no server id and no
    last sync.  [GET /:id] on that id then answers 200 with the same body,
    and [GET /] lists it last. *)
Theorem post_then_get (body : CreateBody) (t i queueId path : string) (now later : Z)
    (w : World) :
  cb_title body = JString t -> t <> "" ->
  nth 0 (faults w) false = false -> nth 1 (faults w) false = false ->
  selectTask i (db w) = None ->
  let resp := {| resp_id := i; resp_title := t;
                 resp_description := cb_description body;
                 resp_completed := orElse (cb_completed body) false;
                 resp_created_at := now; resp_updated_at := now;
                 resp_is_deleted := false; resp_sync_status := Pending;
                 resp_server_id := None; resp_last_synced_at := None |} in
  exists w',
    createTaskRoute body i queueId now w = (Ok (Reply201 resp), w') /\
    getTaskRoute i path later w' = (Ok (Reply200 resp), w') /\
    (forall listed, listTasksRoute w = (Ok (Reply200List listed), w) ->
                    listTasksRoute w' = (Ok (Reply200List (listed ++ [resp])), w')).
Proof.
  intros Ht Hne F0 F1 Hfresh resp.
  assert (Hfind : forall y, In y (tasks (db w)) -> String.eqb (row_id y) i = false).
  { intros y Hy. unfold selectTask in Hfresh. exact (find_none _ _ Hfresh y Hy). }
  set (row := {| row_id := i; row_title := t; row_description := cb_description body;
                 row_completed := orElse (cb_completed body) false;
                 row_created_at := now; row_updated_at := now; row_is_deleted := false;
                 row_sync_status := Pending; row_server_id := new_row_server_id;
                 row_last_synced_at := new_row_last_synced_at |}).
  assert (Hget : forall d fs o,
             tasks d = tasks (db w) ++ [row] ->
             getTask i {| db := d; faults := fs; outbox := o |}
             = (Ok (Some (mapRowToTask row)), {| db := d; faults := fs; outbox := o |})).
  { intros d fs o Hd. rewrite getTask_run. unfold selectTask. cbn [db]. rewrite Hd.
    rewrite find_app_fresh by exact Hfind. cbn [row_id row]. rewrite String.eqb_refl.
    reflexivity. }
  eexists. split; [| split].
  - unfold createTaskRoute, tryCatch. rewrite Ht. cbn [falsy isString negb orb].
    destruct (String.eqb_spec t "") as [E|_]; [contradiction|].
    cbn [orb]. unfold bind at 1.
    match goal with |- context [createTask ?td i queueId now w] =>
      rewrite (createTask_eval td t i queueId now w eq_refl Hne), F0, F1
    end.
    cbn [in_description in_completed].
    rewrite Hget by reflexivity.
    unfold bind. cbn [toTaskResponseOf]. rewrite toTaskResponse_row. reflexivity.
  - unfold getTaskRoute, tryCatch, bind. rewrite Hget by reflexivity.
    rewrite toTaskResponse_row. reflexivity.
  - intros listed Hl.
    assert (Hall : forall rows w0,
               toTaskResponses (map mapRowToTask rows) w0 =
               (Ok (map (fun r =>
                      {| resp_id := row_id r; resp_title := row_title r;
                         resp_description := row_description r;
                         resp_completed := row_completed r;
                         resp_created_at := row_created_at r;
                         resp_updated_at := row_updated_at r;
                         resp_is_deleted := row_is_deleted r;
                         resp_sync_status := row_sync_status r;
                         resp_server_id := row_server_id r;
                         resp_last_synced_at := row_last_synced_at r |}) rows), w0)).
    { induction rows as [|r rows IH]; intros w0; [reflexivity|].
      cbn [map toTaskResponses]. unfold bind. rewrite toTaskResponse_row, IH.
      reflexivity. }
    unfold listTasksRoute, tryCatch, bind, getAllTasks, dbGet, ret in *.
    unfold bind in *. rewrite Hall in *. inversion Hl as [Hlisted].
    unfold selectActive. cbn [db insertQueue insertTask tasks].
    rewrite filter_app, map_app. reflexivity.
Qed.

Lemma post_then_get_witness :
  exists w',
    createTaskRoute {| cb_title := JString "Buy milk"; cb_description := None;
                       cb_completed := Some true |} "C" "q9" 500 Examples.oneTaskWorld
      = (Ok (Reply201 {| resp_id := "C"; resp_title := "Buy milk";
                         resp_description := None; resp_completed := true;
                         resp_created_at := 500; resp_updated_at := 500;
                         resp_is_deleted := false; resp_sync_status := Pending;
                         resp_server_id := None; resp_last_synced_at := None |}), w') /\
    getTaskRoute "C" "/C" 600 w'
      = (Ok (Reply200 {| resp_id := "C"; resp_title := "Buy milk";
                         resp_description := None; resp_completed := true;
                         resp_created_at := 500; resp_updated_at := 500;
                         resp_is_deleted := false; resp_sync_status := Pending;
                         resp_server_id := None; resp_last_synced_at := None |}), w').
Proof.
  destruct (post_then_get {| cb_title := JString "Buy milk"; cb_description := None;
                             cb_completed := Some true |}
              "Buy milk" "C" "q9" "/C" 500 600 Examples.oneTaskWorld
              eq_refl ltac:(discriminate) eq_refl eq_refl eq_refl)
    as [w' [E1 [E2 _]]].
  exists w'. split; assumption.
Defined.

Lemma toTaskResponse_stored (r : TaskRow) (w : World) :
  toTaskResponse (mapRowToTask r) w = (Ok (rowResponse r), w).
Proof. apply toTaskResponse_row. Qed.

Lemma toTaskResponses_stored (rows : list TaskRow) (w : World) :
  toTaskResponses (map mapRowToTask rows) w = (Ok (map rowResponse rows), w).
Proof.
  induction rows as [|r rows IH]; [reflexivity|].
  cbn [map toTaskResponses]. unfold bind. now rewrite toTaskResponse_stored, IH.
Qed.

Lemma listTasksRoute_run (w : World) :
  listTasksRoute w = (Ok (Reply200List (map rowResponse (selectActive (db w)))), w).
Proof.
  unfold listTasksRoute, tryCatch, bind, getAllTasks, dbGet, ret. unfold bind.
  now rewrite toTaskResponses_stored.
Qed.

Lemma getTaskRoute_run (i path : string) (now : Z) (w : World) :
  getTaskRoute i path now w =
  (Ok match selectTask i (db w) with
      | Some r => if row_is_deleted r then Reply404At "Task not found" now path
                  else Reply200 (rowResponse r)
      | None => Reply404At "Task not found" now path
      end, w).
Proof.
  unfold getTaskRoute, tryCatch, bind. rewrite getTask_run.
  destruct (selectTask i (db w)) as [r|]; [|reflexivity].
  destruct (row_is_deleted r); [reflexivity|].
  now rewrite toTaskResponse_stored.
Qed.

(** X18. [GET /] and [GET /:id] read and never fail on stored rows.  [GET /]
    answers 200 with one body per row that is not deleted, in table order;
    when the stored ids are distinct, [GET /:id] on the id of a listed body
    answers 200 with that same body, and on any id that no listed body
    carries it answers 404 "Task not found". *)
Theorem list_and_get_routes_agree (w : World) (path : string) (now : Z) :
  NoDup (map row_id (tasks (db w))) ->
  exists listed,
    listTasksRoute w = (Ok (Reply200List listed), w) /\
    map resp_id listed = map row_id (selectActive (db w)) /\
    (forall resp, In resp listed ->
       resp_is_deleted resp = false /\
       getTaskRoute (resp_id resp) path now w = (Ok (Reply200 resp), w)) /\
    (forall i, ~ In i (map resp_id listed) ->
       getTaskRoute i path now w = (Ok (Reply404At "Task not found" now path), w)).
Proof.
  intros Hnd. eexists. split; [apply listTasksRoute_run|].
  split; [| split].
  - rewrite map_map. reflexivity.
  - intros resp Hin. apply in_map_iff in Hin. destruct Hin as [r [<- Hr]].
    unfold selectActive in Hr. apply filter_In in Hr. destruct Hr as [Hr Hlive].
    apply Bool.negb_true_iff in Hlive. split; [exact Hlive|].
    rewrite getTaskRoute_run. cbn [resp_id rowResponse]. unfold selectTask.
    rewrite (find_unique_row _ r Hnd Hr), Hlive. reflexivity.
  - intros i Hnot. rewrite getTaskRoute_run.
    destruct (selectTask i (db w)) as [r|] eqn:E; [|reflexivity].
    destruct (row_is_deleted r) eqn:Hd; [reflexivity|].
    exfalso. apply Hnot. rewrite map_map. cbn [resp_id rowResponse].
    unfold selectTask in E. apply find_some in E. destruct E as [Hin Hid].
    apply String.eqb_eq in Hid. rewrite <- Hid.
    apply (in_map row_id). unfold selectActive. apply filter_In.
    split; [exact Hin | now rewrite Hd].
Qed.

Lemma list_and_get_routes_agree_witness :
  exists listed,
    listTasksRoute Examples.deletedAndLiveWorld
      = (Ok (Reply200List listed), Examples.deletedAndLiveWorld) /\
    map resp_id listed = ["B"] /\
    getTaskRoute "A" "/A" 700 Examples.deletedAndLiveWorld
      = (Ok (Reply404At "Task not found" 700 "/A"), Examples.deletedAndLiveWorld).
Proof.
  destruct (list_and_get_routes_agree Examples.deletedAndLiveWorld "/A" 700)
    as [listed [E [Hids [_ H404]]]].
  - repeat constructor; simpl; intuition discriminate.
  - exists listed. split; [exact E|]. split; [exact Hids|].
    apply H404. rewrite Hids. simpl. intuition discriminate.
Defined.

(** X19. [DELETE /:id].  For an id that no row carries the answer is 404 "Task not
    found" and nothing changes.  For a stored task, with both writes
    accepted, the answer is 204; afterwards [GET /:id] answers 404 for it and
    [GET /] lists what it listed before without the bodies of that id.  When
    the database rejects the first write the answer is 500 "Failed to delete
    task" and the store is unchanged. *)
Theorem delete_route_outcomes (i queueId path : string) (now later : Z) (w : World) :
  (selectTask i (db w) = None ->
   deleteTaskRoute i queueId now w = (Ok (Reply404 "Task not found"), w)) /\
  (forall ex, selectTask i (db w) = Some ex ->
     nth 0 (faults w) false = false -> nth 1 (faults w) false = false ->
     exists w',
       deleteTaskRoute i queueId now w = (Ok Reply204, w') /\
       getTaskRoute i path later w' = (Ok (Reply404At "Task not found" later path), w') /\
       (forall listed, listTasksRoute w = (Ok (Reply200List listed), w) ->
          listTasksRoute w' =
          (Ok (Reply200List (filter (fun b => negb (String.eqb (resp_id b) i)) listed)),
           w'))) /\
  (forall ex, selectTask i (db w) = Some ex ->
     nth 0 (faults w) false = true ->
     exists w',
       deleteTaskRoute i queueId now w = (Ok (Reply500 "Failed to delete task"), w') /\
       db w' = db w).
Proof.
  split; [| split].
  - intros Hnone. unfold deleteTaskRoute, tryCatch, bind.
    unfold deleteTask, bind, dbGet. rewrite Hnone. reflexivity.
  - intros ex Hex F0 F1. unfold deleteTaskRoute, tryCatch, bind.
    rewrite (deleteTask_eval i queueId now w ex Hex), F0, F1.
    eexists. split; [reflexivity|]. split.
    + rewrite getTaskRoute_run. cbn [db].
      change (selectTask i (insertQueue queueId i Delete
                {| d_id := i; d_title := None; d_description := None;
                   d_completed := None; d_updated_at := now |} now
                (updateTasksWhere i (setDeleted now) (db w))))
        with (selectTask i (updateTasksWhere i (setDeleted now) (db w))).
      rewrite (selectTask_updated i _ (db w) ex (setDeleted_id _) Hex). reflexivity.
    + intros listed Hl. rewrite listTasksRoute_run in Hl. inversion Hl as [Hlisted].
      rewrite listTasksRoute_run. unfold selectActive.
      cbn [db insertQueue updateTasksWhere tasks].
      rewrite rows_of_deleted, (filter_map_commute rowResponse). reflexivity.
  - intros ex Hex F0. unfold deleteTaskRoute, tryCatch, bind.
    rewrite (deleteTask_eval i queueId now w ex Hex), F0.
    eexists. split; reflexivity.
Qed.

Lemma delete_route_outcomes_witness :
  deleteTaskRoute "Z" "q9" 500 Examples.oneTaskWorld
    = (Ok (Reply404 "Task not found"), Examples.oneTaskWorld) /\
  exists w',
    deleteTaskRoute "A" "q9" 500 Examples.oneTaskWorld = (Ok Reply204, w') /\
    getTaskRoute "A" "/A" 600 w' = (Ok (Reply404At "Task not found" 600 "/A"), w').
Proof.
  destruct (delete_route_outcomes "Z" "q9" "/Z" 500 600 Examples.oneTaskWorld)
    as [H404 _].
  destruct (delete_route_outcomes "A" "q9" "/A" 500 600 Examples.oneTaskWorld)
    as [_ [H204 _]].
  split; [apply H404; reflexivity|].
  destruct (H204 (Examples.rowA false Pending) eq_refl eq_refl eq_refl)
    as [w' [E1 [E2 _]]].
  exists w'. split; assumption.
Defined.

(** X20. [PUT /:id] with a well-typed body.  For an id that no row carries the
    answer is 404 "Task not found" and nothing changes.  For a stored task
    that is not deleted, with both writes accepted, the answer is 200 with
    the task after the update: title and completed flag replaced when the
    body carries them, the description replaced when the body carries one,
    [updated_at] the current time, [sync_status] pending, everything else as
    stored; [GET /:id] then answers 200 with the same body. *)
Theorem put_route_outcomes (i queueId path : string) (updates : UpdateBody)
    (now later : Z) (w : World) :
  (ub_completed updates = JUndefined \/ exists b, ub_completed updates = JBool b) ->
  (ub_title updates = JUndefined \/ exists t, ub_title updates = JString t) ->
  (selectTask i (db w) = None ->
   updateTaskRoute i updates queueId now w = (Ok (Reply404 "Task not found"), w)) /\
  (forall ex, selectTask i (db w) = Some ex -> row_is_deleted ex = false ->
     nth 0 (faults w) false = false -> nth 1 (faults w) false = false ->
     let resp :=
       {| resp_id := i;
          resp_title := match ub_title updates with
                        | JString s => s
                        | _ => row_title ex
                        end;
          resp_description := orElseOpt (ub_description updates) (row_description ex);
          resp_completed := match ub_completed updates with
                            | JBool b => b
                            | _ => row_completed ex
                            end;
          resp_created_at := row_created_at ex;
          resp_updated_at := now;
          resp_is_deleted := false;
          resp_sync_status := Pending;
          resp_server_id := row_server_id ex;
          resp_last_synced_at := row_last_synced_at ex |} in
     exists w',
       updateTaskRoute i updates queueId now w = (Ok (Reply200 resp), w') /\
       getTaskRoute i path later w' = (Ok (Reply200 resp), w')).
Proof.
  intros Hc Ht.
  assert (Hvalid : forall (A : Type) (x y z : A),
    (if andb (negb (isUndefined (ub_completed updates)))
             (negb (isBoolean (ub_completed updates)))
     then x
     else if andb (negb (isUndefined (ub_title updates)))
                  (negb (isString (ub_title updates)))
          then y else z) = z).
  { intros A x y z.
    destruct Hc as [-> | [b ->]]; destruct Ht as [-> | [t ->]]; reflexivity. }
  split.
  - intros Hnone. unfold updateTaskRoute, tryCatch. rewrite Hvalid.
    unfold bind at 1. unfold updateTask, bind, dbGet. rewrite Hnone. reflexivity.
  - intros ex Hex Hlive F0 F1 resp.
    assert (Hid : row_id ex = i).
    { unfold selectTask in Hex. apply find_some in Hex. now apply String.eqb_eq. }
    unfold updateTaskRoute, tryCatch. rewrite Hvalid. unfold bind at 1.
    match goal with |- context [updateTask i ?td queueId now w] =>
      rewrite (updateTask_eval i td queueId now w ex Hex), F0, F1
    end.
    cbn [in_title in_description in_completed].
    match goal with |- context [getTask i ?w1] =>
      assert (Hsel : selectTask i (db w1) =
                     Some (setUpdated
                             (orElse match ub_title updates with
                                     | JString s => Some s
                                     | _ => None
                                     end (row_title ex))
                             (orElseOpt (ub_description updates) (row_description ex))
                             (orElse match ub_completed updates with
                                     | JBool b => Some b
                                     | _ => None
                                     end (row_completed ex)) now ex))
    end.
    { apply (selectTask_updated i _ (db w) ex (setUpdated_id _ _ _ _) Hex). }
    assert (Hresp : rowResponse
                      (setUpdated
                         (orElse match ub_title updates with
                                 | JString s => Some s
                                 | _ => None
                                 end (row_title ex))
                         (orElseOpt (ub_description updates) (row_description ex))
                         (orElse match ub_completed updates with
                                 | JBool b => Some b
                                 | _ => None
                                 end (row_completed ex)) now ex) = resp).
    { unfold rowResponse, resp. cbn. rewrite Hid, Hlive.
      destruct Hc as [-> | [b ->]]; destruct Ht as [-> | [t ->]]; reflexivity. }
    eexists. split.
    + rewrite getTask_run, Hsel. cbn [row_is_deleted setUpdated]. rewrite Hlive.
      cbv beta iota. unfold bind.
      rewrite toTaskResponse_stored, Hresp. reflexivity.
    + rewrite getTaskRoute_run, Hsel. cbn [row_is_deleted setUpdated]. rewrite Hlive.
      rewrite Hresp. reflexivity.
Qed.

Lemma put_route_outcomes_witness :
  updateTaskRoute "Z" {| ub_title := JString "x"; ub_description := None;
                         ub_completed := JUndefined |} "q9" 500 Examples.oneTaskWorld
    = (Ok (Reply404 "Task not found"), Examples.oneTaskWorld) /\
  exists w',
    updateTaskRoute "A" {| ub_title := JUndefined; ub_description := Some "2 litres";
                           ub_completed := JBool true |} "q9" 500 Examples.oneTaskWorld
      = (Ok (Reply200 {| resp_id := "A"; resp_title := "Buy milk";
                         resp_description := Some "2 litres"; resp_completed := true;
                         resp_created_at := 100; resp_updated_at := 500;
                         resp_is_deleted := false; resp_sync_status := Pending;
                         resp_server_id := None; resp_last_synced_at := None |}), w').
Proof.
  split.
  - apply (proj1 (put_route_outcomes "Z" "q9" "/Z"
                    {| ub_title := JString "x"; ub_description := None;
                       ub_completed := JUndefined |} 500 600 Examples.oneTaskWorld
                    (or_introl eq_refl) (or_intror (ex_intro _ "x" eq_refl)))).
    reflexivity.
  - destruct (proj2 (put_route_outcomes "A" "q9" "/A"
                       {| ub_title := JUndefined; ub_description := Some "2 litres";
                          ub_completed := JBool true |} 500 600 Examples.oneTaskWorld
                       (or_intror (ex_intro _ true eq_refl)) (or_introl eq_refl))
                (Examples.rowA false Pending) eq_refl eq_refl eq_refl eq_refl)
      as [w' [E _]].
    exists w'. exact E.
Defined.

(** ** Enqueueing by hand *)

(** X21. [addToSyncQueue] appends one entry that has never failed and touches no
    task row (the task's [sync_status] is not set to pending).  The next run
    (positive batch size, database accepting its writes, any remote) posts
    the entries that were queued and the new one, each exactly once: put end
    to end, the batches posted are a rearrangement of the old queue followed
    by the new entry.  When the database rejects the insert, the call throws
    and the store is unchanged. *)
Theorem enqueued_entry_is_posted (remote : nat -> list SyncQueueItem -> HttpReply)
    (batchSize : nat) (taskId qid : string) (op : Operation) (d : QueueData)
    (now later : Z) (w : World) :
  let e := {| q_id := qid; task_id := taskId; operation := op; data := d;
              q_created_at := now; retry_count := 0; error_message := None |} in
  (0 < batchSize -> faults w = [] ->
   exists w1 r w2 batches,
     addToSyncQueue taskId op d qid now w = (Ok tt, w1) /\
     tasks (db w1) = tasks (db w) /\
     sync_queue (db w1) = sync_queue (db w) ++ [e] /\
     sync remote batchSize later (List.length (sync_queue (db w1))) w1 = (Ok r, w2) /\
     outbox w2 = outbox w ++ batches /\
     Permutation (List.concat batches) (sync_queue (db w) ++ [e])) /\
  (nth 0 (faults w) false = true ->
   exists w1,
     addToSyncQueue taskId op d qid now w = (Thrown "SQLITE_ERROR", w1) /\
     db w1 = db w).
Proof.
  intros e. split.
  - intros Hpos Hf. unfold addToSyncQueue. rewrite dbRun_accepted by exact Hf.
    match goal with |- context [(Ok tt, ?x)] => set (w1 := x) end.
    destruct (sync_runs remote batchSize later Hpos (List.length (sync_queue (db w1))) w1
                (le_n _) eq_refl) as [r [w2 [E [_ [Ho _]]]]].
    destruct (batchesFrom_partition batchSize Hpos (List.length (sync_queue (db w1)))
                (selectQueue (db w1)) 0) as [Hc _].
    { unfold selectQueue.
      rewrite (Permutation_length (orderByCreatedAt_perm (sync_queue (db w1)))). lia. }
    exists w1, r, w2, (batchesFrom batchSize (List.length (sync_queue (db w1)))
                                  (selectQueue (db w1)) 0).
    split; [reflexivity|]. split; [reflexivity|]. split; [reflexivity|].
    split; [exact E|]. split; [exact Ho|].
    rewrite Hc. cbn [skipn]. apply orderByCreatedAt_perm.
  - intros F0. unfold addToSyncQueue. rewrite dbRun_fail by exact F0.
    eexists. split; reflexivity.
Qed.

Lemma enqueued_entry_is_posted_witness :
  exists w1 r w2 batches,
    addToSyncQueue "A" Update
      {| d_id := "A"; d_title := Some "x"; d_description := None; d_completed := None;
         d_updated_at := 300 |} "q7" 300 Examples.oneTaskWorld = (Ok tt, w1) /\
    sync (Examples.answering []) 1 900 (List.length (sync_queue (db w1))) w1 = (Ok r, w2) /\
    outbox w2 = outbox Examples.oneTaskWorld ++ batches /\
    Permutation (List.concat batches)
                (sync_queue (db Examples.oneTaskWorld) ++
                 [ {| q_id := "q7"; task_id := "A"; operation := Update;
                      data := {| d_id := "A"; d_title := Some "x"; d_description := None;
                                 d_completed := None; d_updated_at := 300 |};
                      q_created_at := 300; retry_count := 0; error_message := None |} ]).
Proof.
  destruct (proj1 (enqueued_entry_is_posted (Examples.answering []) 1 "A" "q7" Update
                     {| d_id := "A"; d_title := Some "x"; d_description := None;
                        d_completed := None; d_updated_at := 300 |}
                     300 900 Examples.oneTaskWorld) (Nat.lt_0_succ 0) eq_refl)
    as [w1 [r [w2 [batches [E1 [_ [_ [E2 [Ho Hp]]]]]]]]].
  exists w1, r, w2, batches. repeat split; assumption.
Defined.

(** ** An error in the middle of a batch *)

(** X22. When applying the results of a batch throws midway (a rejected write, a
    conflict that cannot be resolved), what was applied before stays applied
    and counted, and the [catch] block then counts every item of the batch
    as failed with the error's message, the items already counted as synced
    included: with the database accepting the writes of the bookkeeping, the
    run goes on, and [synced_items + failed_items] can exceed the number of
    entries. *)
Theorem throw_midway_fails_whole_batch (remote : nat -> list SyncQueueItem -> HttpReply)
    (now : Z) (batch : list SyncQueueItem) (body : BatchSyncResponse) (s s2 : Run)
    (e : string) :
  remote (List.length (outbox (world s))) batch = Replied body ->
  applyAll now batch (processed_items body)
           {| world := {| db := db (world s); faults := faults (world s);
                          outbox := outbox (world s) ++ [batch] |};
              synced := synced s; failed := failed s; errorList := errorList s |}
    = (Thrown e, s2) ->
  faults (world s2) = [] ->
  exists s',
    syncBatch remote now batch s = (Ok tt, s') /\
    synced s' = synced s2 /\
    failed s' = failed s2 + List.length batch /\
    errorList s' = errorList s2 ++
      map (fun item => {| e_task_id := task_id item; e_operation := operation item;
                          e_error := orDefault e "Batch failed";
                          e_timestamp := now |}) batch /\
    world s' = fold_left (fun w0 it0 => snd (handleSyncError now it0 e w0)) batch (world s2).
Proof.
  intros Hrep Hrun Hf.
  unfold syncBatch, tryCatch, bind, liftW, processBatch. rewrite Hrep, Hrun.
  destruct (failAll_run now batch e s2 Hf) as [E _]. rewrite E.
  eexists. split; [reflexivity|]. repeat split.
Qed.

Lemma throw_midway_fails_whole_batch_witness :
  exists s',
    syncBatch (Examples.answering [Examples.successResult "B" "srv-2";
                                   Examples.conflictResult "A" (Some (Examples.taskRemote 10))])
              900
              [Examples.entry "q1" "A" Delete 100 0; Examples.entry "q2" "B" Update 200 0]
              {| world := Examples.deletedAndLiveWorld; synced := 0; failed := 0;
                 errorList := [] |} = (Ok tt, s') /\
    synced s' = 1 /\ failed s' = 2.
Proof.
  destruct (throw_midway_fails_whole_batch
              (Examples.answering [Examples.successResult "B" "srv-2";
                                   Examples.conflictResult "A"
                                     (Some (Examples.taskRemote 10))])
              900
              [Examples.entry "q1" "A" Delete 100 0; Examples.entry "q2" "B" Update 200 0]
              {| processed_items := [Examples.successResult "B" "srv-2";
                                     Examples.conflictResult "A"
                                       (Some (Examples.taskRemote 10))] |}
              {| world := Examples.deletedAndLiveWorld; synced := 0; failed := 0;
                 errorList := [] |}
              (snd (applyAll 900
                      [Examples.entry "q1" "A" Delete 100 0;
                       Examples.entry "q2" "B" Update 200 0]
                      [Examples.successResult "B" "srv-2";
                       Examples.conflictResult "A" (Some (Examples.taskRemote 10))]
                      {| world := {| db := db Examples.deletedAndLiveWorld; faults := [];
                                     outbox := [[Examples.entry "q1" "A" Delete 100 0;
                                                 Examples.entry "q2" "B" Update 200 0]] |};
                         synced := 0; failed := 0; errorList := [] |}))
              "Cannot read properties of null (reading 'updated_at')"
              eq_refl eq_refl eq_refl)
    as [s' [E [H1 [H2 _]]]].
  exists s'. split; [exact E|]. split; [exact H1 | exact H2].
Defined.
